(** * Fertilizer recommendation engine: a shallow embedding and its properties

    The engine is the function [generateEnhancedRecommendations] of the
    dashboard page.  It is a TypeScript function over ECMAScript Numbers and
    strings, so the development has three layers:

    - [JS]: the ECMAScript built-ins the function calls ([parseFloat],
      [parseInt], [Math.round], Number-to-string conversion inside template
      literals, [toLocaleString('en-IN')]), over Rocq's primitive binary64
      floats, which are the ECMAScript Number type;
    - the data model (the [FormData] and [EnhancedRecommendation] interfaces)
      and the engine, one definition per local constant of the source;
    - the properties of the engine. *)

From stdpp Require Import gmap strings.
From Stdlib Require Import Reals Lra.
From Stdlib Require Import ZArith List String Ascii Bool Lia Floats DecimalString.

Set Warnings "-inexact-float".
Local Open Scope Z_scope.

(** ** ECMAScript built-ins *)

Module JS.

(** *** Numbers from exact integers and decimal fractions

    [of_Z n] is the Number nearest to the integer [n] and [of_ratio] the
    Number nearest to a fraction, both rounded to nearest, ties to even, by the
    reference rounding of [SpecFloat]. *)

Definition of_Z (n : Z) : float :=
  SF2Prim (binary_normalize prec emax n 0 false).

Definition of_ratio (neg : bool) (n d : positive) : float :=
  SF2Prim (SFdiv prec emax (S754_finite neg n 0) (S754_finite false d 0)).

(** The Number nearest to [± m × 10^e] (StringNumericValue). *)
Definition of_decimal (neg : bool) (m e : Z) : float :=
  match m with
  | Zpos p =>
      match e with
      | Zneg k => of_ratio neg p (Pos.pow 10 k)
      | _ => of_Z ((if neg then Z.neg p else Z.pos p) * 10 ^ e)
      end
  | _ => if neg then neg_zero else zero
  end.

(** *** Scanning strings

    Strings are sequences of bytes holding UTF-8 text. *)

Definition code (c : ascii) : Z := Z.of_N (N_of_ascii c).

Definition digit_of (radix : Z) (c : ascii) : option Z :=
  let n := code c in
  let v := if (48 <=? n) && (n <=? 57) then n - 48
           else if (97 <=? n) && (n <=? 122) then n - 87
           else if (65 <=? n) && (n <=? 90) then n - 55
           else radix in
  if v <? radix then Some v else None.

(** The longest run of digits at the head of [s]: its value on top of [acc],
    the number of digits read, and the rest of the string. *)
Fixpoint digits_run (radix : Z) (s : string) (acc : Z) (cnt : nat)
  : Z * nat * string :=
  match s with
  | String c r =>
      match digit_of radix c with
      | Some d => digits_run radix r (radix * acc + d) (S cnt)
      | None => (acc, cnt, s)
      end
  | EmptyString => (acc, cnt, s)
  end.

Fixpoint strip_prefix (p s : string) : option string :=
  match p, s with
  | EmptyString, _ => Some s
  | String a p', String b s' =>
      if Ascii.eqb a b then strip_prefix p' s' else None
  | String _ _, EmptyString => None
  end.

(** WhiteSpace and LineTerminator code points, in UTF-8. *)
Definition white_space : list string :=
  map (fun bs => string_of_list_ascii (map (fun n => ascii_of_N (Z.to_N n)) bs))
    [ [0x09]; [0x0A]; [0x0B]; [0x0C]; [0x0D]; [0x20]; [0xC2; 0xA0];
      [0xE1; 0x9A; 0x80];
      [0xE2; 0x80; 0x80]; [0xE2; 0x80; 0x81]; [0xE2; 0x80; 0x82];
      [0xE2; 0x80; 0x83]; [0xE2; 0x80; 0x84]; [0xE2; 0x80; 0x85];
      [0xE2; 0x80; 0x86]; [0xE2; 0x80; 0x87]; [0xE2; 0x80; 0x88];
      [0xE2; 0x80; 0x89]; [0xE2; 0x80; 0x8A];
      [0xE2; 0x80; 0xA8]; [0xE2; 0x80; 0xA9]; [0xE2; 0x80; 0xAF];
      [0xE2; 0x81; 0x9F]; [0xE3; 0x80; 0x80]; [0xEF; 0xBB; 0xBF] ].

Fixpoint first_some {A B} (f : A -> option B) (l : list A) : option B :=
  match l with
  | [] => None
  | a :: l' => match f a with Some b => Some b | None => first_some f l' end
  end.

Fixpoint trim_start_fuel (fuel : nat) (s : string) : string :=
  match fuel with
  | O => s
  | S fuel' =>
      match first_some (fun w => strip_prefix w s) white_space with
      | Some r => trim_start_fuel fuel' r
      | None => s
      end
  end.

(** TrimString(s, start); every step removes at least one byte. *)
Definition trim_start (s : string) : string :=
  trim_start_fuel (String.length s) s.

Definition take_sign (s : string) : bool * string :=
  match s with
  | String "-" r => (true, r)
  | String "+" r => (false, r)
  | _ => (false, s)
  end.

(** *** parseFloat

    The longest prefix of the trimmed string that is a StrDecimalLiteral. *)

Inductive literal :=
  | LitInfinity (neg : bool)
  | LitDecimal (neg : bool) (m e : Z).

(** ExponentPart, when one is present and complete; 0 otherwise. *)
Definition exponent_part (s : string) : Z :=
  match s with
  | String c r =>
      if Ascii.eqb c "e" || Ascii.eqb c "E" then
        let '(neg, r') := take_sign r in
        let '(v, cnt, _) := digits_run 10 r' 0 O in
        match cnt with O => 0 | _ => if neg then - v else v end
      else 0
  | EmptyString => 0
  end.

Definition StrDecimalLiteral (s : string) : option literal :=
  let '(neg, r) := take_sign s in
  match strip_prefix "Infinity" r with
  | Some _ => Some (LitInfinity neg)
  | None =>
      let '(i, ci, r1) := digits_run 10 r 0 O in
      match r1 with
      | String "." r1' =>
          let '(m, cf, r2) := digits_run 10 r1' i O in
          match ci, cf with
          | O, O => None
          | _, _ => Some (LitDecimal neg m (exponent_part r2 - Z.of_nat cf))
          end
      | _ =>
          match ci with
          | O => None
          | _ => Some (LitDecimal neg i (exponent_part r1))
          end
      end
  end.

Definition parseFloat (s : string) : float :=
  match StrDecimalLiteral (trim_start s) with
  | None => nan
  | Some (LitInfinity neg) => if neg then neg_infinity else infinity
  | Some (LitDecimal neg m e) => of_decimal neg m e
  end.

(** *** parseInt, called with one argument (radix 10, or 16 after 0x) *)

Definition parseInt (s : string) : float :=
  let '(neg, r) := take_sign (trim_start s) in
  let '(radix, r') :=
    match r with
    | String "0" (String x r') =>
        if Ascii.eqb x "x" || Ascii.eqb x "X" then (16, r') else (10, r)
    | _ => (10, r)
    end in
  let '(v, cnt, _) := digits_run radix r' 0 O in
  match cnt with
  | O => nan
  | _ => of_decimal neg v 0
  end.

(** *** Math.round

    The integral Number closest to [x], ties towards +∞; NaN, the
    infinities, the zeros and integral Numbers are returned as they are, and
    a negative [x] no smaller than -0.5 gives -0. *)

Definition Math_round (x : float) : float :=
  match Prim2SF x with
  | S754_finite s m e =>
      if 0 <=? e then x
      else
        let k := 2 ^ (- e) in
        let v := if s then Z.neg m else Z.pos m in
        let n := (2 * v + k) / (2 * k) in
        if n =? 0 then (if s then neg_zero else zero) else of_Z n
  | _ => x
  end.

(** *** Number::toString, radix 10 (template literals) *)

Definition string_of_Z (n : Z) : string :=
  NilZero.string_of_uint (N.to_uint (Z.to_N n)).

Definition zeros (n : Z) : string :=
  string_of_list_ascii (repeat "0"%char (Z.to_nat n)).

(** Exact value of the positive finite Number [m × 2^e] as a fraction. *)
Definition ratio_of (m : positive) (e : Z) : Z * Z :=
  if 0 <=? e then (Z.pos m * 2 ^ e, 1) else (Z.pos m, 2 ^ (- e)).

Definition scale10 (nd : Z * Z) (p : Z) : Z * Z :=
  let '(n, d) := nd in
  if 0 <=? p then (n * 10 ^ p, d) else (n, d * 10 ^ (- p)).

Fixpoint leading_fuel (fuel : nat) (n d j : Z) : Z :=
  match fuel with
  | O => j
  | S fuel' => if d <=? n * 10 ^ j then j else leading_fuel fuel' n d (j + 1)
  end.

(** The [n0] with [10^(n0-1) <= n/d < 10^n0]. *)
Definition decimal_exponent (nd : Z * Z) : Z :=
  let '(n, d) := nd in
  if d <=? n then Z.of_nat (String.length (string_of_Z (n / d)))
  else 1 - leading_fuel 400 n d 1.

(** The shortest decimal [s × 10^(n-k)] with [k] digits that reads back as
    [x], the closest to [x] among those of that length: returns [(s, n)].
    Seventeen digits always suffice. *)
Fixpoint shortest_fuel (fuel : nat) (x : float) (nd : Z * Z) (n0 k : Z)
  : Z * Z :=
  let '(n, d) := scale10 nd (k - n0) in
  let lo := n / d in
  let hi := if lo + 1 =? 10 ^ k then (10 ^ (k - 1), n0 + 1) else (lo + 1, n0) in
  let ok_lo := PrimFloat.eqb (of_decimal false lo (n0 - k)) x in
  let ok_hi := PrimFloat.eqb (of_decimal false (fst hi) (snd hi - k)) x in
  let lo_closer :=
    match 2 * n ?= (2 * lo + 1) * d with
    | Lt => true
    | Eq => Z.even lo
    | Gt => false
    end in
  match fuel with
  | O => (lo, n0)
  | S fuel' =>
      if ok_lo && (negb ok_hi || lo_closer) then (lo, n0)
      else if ok_hi then hi
      else shortest_fuel fuel' x nd n0 (k + 1)
  end.

Definition Number_toString_pos (x : float) (m : positive) (e : Z) : string :=
  let nd := ratio_of m e in
  let '(s, n) := shortest_fuel 17 x nd (decimal_exponent nd) 1 in
  let digits := string_of_Z s in
  let k := Z.of_nat (String.length digits) in
  if (-5 <=? n) && (n <=? 21) then
    if k <=? n then String.append digits (zeros (n - k))
    else if 0 <? n then
      String.append (substring 0 (Z.to_nat n) digits)
        (String "." (substring (Z.to_nat n) (Z.to_nat (k - n)) digits))
    else String.append "0." (String.append (zeros (- n)) digits)
  else
    let ex := String.append (if n - 1 <? 0 then "e-" else "e+")
                (string_of_Z (Z.abs (n - 1))) in
    match digits with
    | String c EmptyString => String c ex
    | String c r => String c (String "." (String.append r ex))
    | EmptyString => ex
    end.

Definition Number_toString (x : float) : string :=
  match Prim2SF x with
  | S754_nan => "NaN"
  | S754_zero _ => "0"
  | S754_infinity s => if s then "-Infinity" else "Infinity"
  | S754_finite s m e =>
      String.append (if s then "-" else "") (Number_toString_pos (abs x) m e)
  end.

(** *** Number.prototype.toLocaleString('en-IN')

    Decimal style with the defaults of Intl.NumberFormat, as the runtimes
    format it: the digits are the shortest decimal that reads back as the
    Number (those of Number::toString), followed by zeros for a large
    Number, so beyond 2^53 the text is not the exact value; at most three
    fraction digits (ties away from zero), no trailing zeros, and the Indian
    grouping of the integer digits: the last three, then groups of two. *)

Fixpoint group_pairs (l : list ascii) : list ascii :=
  match l with
  | a :: b :: r =>
      match r with
      | [] => l
      | _ => a :: b :: ","%char :: group_pairs r
      end
  | _ => l
  end.

Definition group_en_IN (digits : string) : string :=
  match rev (list_ascii_of_string digits) with
  | a :: b :: c :: (_ :: _) as r =>
      string_of_list_ascii (rev (a :: b :: c :: ","%char :: group_pairs r))
  | _ => digits
  end.

Fixpoint strip_zeros (l : list ascii) : list ascii :=
  match l with
  | "0"%char :: r => strip_zeros r
  | _ => l
  end.

Definition fraction_digits (fr : Z) : string :=
  if fr =? 0 then ""
  else
    let d := string_of_Z fr in
    let padded := String.append (zeros (3 - Z.of_nat (String.length d))) d in
    String "." (string_of_list_ascii
                  (rev (strip_zeros (rev (list_ascii_of_string padded))))).

Definition toLocaleString_en_IN (x : float) : string :=
  match Prim2SF x with
  | S754_nan => "NaN"
  | S754_zero s => if s then "-0" else "0"
  | S754_infinity s => if s then "-∞" else "∞"
  | S754_finite s m e =>
      let nd := ratio_of m e in
      let '(digits, n) := shortest_fuel 17 (abs x) nd (decimal_exponent nd) 1 in
      let k := Z.of_nat (String.length (string_of_Z digits)) in
      (* [digits × 10^(n - k)] in thousandths *)
      let p := n - k + 3 in
      let t := if 0 <=? p then digits * 10 ^ p
               else (2 * digits + 10 ^ (- p)) / (2 * 10 ^ (- p)) in
      String.append (if s then "-" else "")
        (String.append (group_en_IN (string_of_Z (t / 1000)))
           (fraction_digits (t mod 1000)))
  end.

(** *** Reading a property of a plain object

    [object[key]] on an object written as a literal: the value the object
    holds under the key, else the member of that name every object inherits
    from Object.prototype (a function, or the prototype itself for
    [__proto__]: a truthy value without properties of the table's entries),
    else undefined. *)

Definition Object_prototype : list string :=
  [ "constructor"; "__defineGetter__"; "__defineSetter__"; "hasOwnProperty";
    "__lookupGetter__"; "__lookupSetter__"; "isPrototypeOf";
    "propertyIsEnumerable"; "toString"; "valueOf"; "__proto__";
    "toLocaleString" ]%string.

Inductive Property (A : Type) :=
  | Own (value : A)
  | Inherited
  | Undefined.
Arguments Own {A} value.
Arguments Inherited {A}.
Arguments Undefined {A}.

Definition get {A : Type} (object : gmap string A) (key : string)
  : Property A :=
  match object !! key with
  | Some value => Own value
  | None =>
      if existsb (String.eqb key) Object_prototype then Inherited
      else Undefined
  end.

End JS.

(** ** Data model *)

(** The form the user fills in: every field is the text of an input box. *)
Module FormData.
Record t := mk {
  fieldName : string;
  fieldSize : string;
  sizeUnit : string;
  cropType : string;
  soilPH : string;
  nitrogen : string;
  phosphorus : string;
  potassium : string;
  soilType : string;
  temperature : string;
  humidity : string;
  soilMoisture : string
}.
End FormData.

(** The feature vector handed to the classifier. *)
Module MLInput.
Record t := mk {
  temperature : float;
  humidity : float;
  moisture : float;
  soilType : float;
  cropType : float;
  nitrogen : float;
  potassium : float;
  phosphorus : float
}.
End MLInput.

Module MLPrediction.
Record t := mk {
  fertilizer : string;
  confidence : float
}.
End MLPrediction.

(** An entry of the fertilizer metadata table [FERTILIZER_INFO]. *)
Module FertilizerInfo.
Record t := mk {
  description : string;
  application : string;
  npk : string
}.
End FertilizerInfo.

(** A recommended fertilizer.  [reason] and [applicationMethod] are texts,
    or undefined. *)
Module Fertilizer.
Record t := mk {
  name : string;
  amount : string;
  reason : option string;
  applicationMethod : option string
}.
End Fertilizer.

Module OrganicOption.
Record t := mk {
  name : string;
  amount : string;
  benefits : string;
  applicationTiming : string
}.
End OrganicOption.

Module ApplicationTiming.
Record t := mk {
  primary : string;
  secondary : string;
  organic : string
}.
End ApplicationTiming.

Module CostEstimate.
Record t := mk {
  primary : string;
  secondary : string;
  organic : string;
  total : string
}.
End CostEstimate.

Module SoilConditionAnalysis.
Record t := mk {
  phStatus : string;
  nutrientDeficiency : list string;
  moistureStatus : string;
  recommendations : list string
}.
End SoilConditionAnalysis.

Module EnhancedRecommendation.
Record t := mk {
  primaryFertilizer : Fertilizer.t;
  secondaryFertilizer : Fertilizer.t;
  organicOptions : list OrganicOption.t;
  applicationTiming : ApplicationTiming.t;
  costEstimate : CostEstimate.t;
  soilConditionAnalysis : SoilConditionAnalysis.t;
  mlPrediction : MLPrediction.t
}.
End EnhancedRecommendation.

(** The outcome of awaiting an asynchronous call. *)
Inductive Promise (A : Type) :=
  | Fulfilled (value : A)
  | Rejected (reason : string).
Arguments Fulfilled {A} value.
Arguments Rejected {A} reason.

(** ** The engine *)

Local Open Scope string_scope.

(** A template literal [`${x} kg`]. *)
Definition kg (x : float) : string :=
  String.append (JS.Number_toString x) " kg".

(** A template literal [`₹${x.toLocaleString('en-IN')}`]. *)
Definition rupees (x : float) : string :=
  String.append "₹" (JS.toLocaleString_en_IN x).

Definition convertToHectares (size : float) (unit : string) : float :=
  if String.eqb unit "acres" then (size * 0.404686)%float
  else if String.eqb unit "bigha" then (size * 0.1338)%float
  else if String.eqb unit "hectares" then size
  else size.

Definition phStatus (pH : float) : string :=
  if (pH <? 6.0)%float then "Acidic"
  else if (7.5 <? pH)%float then "Alkaline"
  else "Optimal".

Definition moistureStatus (moisture : float) : string :=
  if (moisture <? 40)%float then "Low"
  else if (80 <? moisture)%float then "High"
  else "Optimal".

(** Three conditional [push] calls on an empty array. *)
Definition nutrientDeficiency (nitrogen phosphorus potassium : float)
  : list string :=
  let d := [] in
  let d := if (nitrogen <? 30)%float then (d ++ ["Nitrogen"])%list else d in
  let d := if (phosphorus <? 15)%float then (d ++ ["Phosphorus"])%list else d in
  let d := if (potassium <? 120)%float then (d ++ ["Potassium"])%list else d in
  d.

Definition includes (l : list string) (x : string) : bool :=
  existsb (String.eqb x) l.

(** [Object.keys(table).find(key => table[key] === code) || 'Unknown']:
    [table] lists the entries of the object in key order. *)
Definition nameOf (table : list (string * float)) (code : float) : string :=
  match find (fun kv => PrimFloat.eqb (snd kv) code) table with
  | Some (key, _) => if String.eqb key "" then "Unknown" else key
  | None => "Unknown"
  end.

(** [primaryFertilizerInfo ? primaryFertilizerInfo.description : ...]: an
    inherited member is truthy and has neither a [description] nor an
    [application]. *)
Definition primaryFertilizer
    (primaryFertilizerInfo : JS.Property FertilizerInfo.t)
    (mlPrediction : MLPrediction.t) (hectares : float)
    (cropName soilName : string) : Fertilizer.t :=
  {| Fertilizer.name := MLPrediction.fertilizer mlPrediction;
     Fertilizer.amount := kg (JS.Math_round (100 * hectares));
     Fertilizer.reason :=
       match primaryFertilizerInfo with
       | JS.Own info => Some (FertilizerInfo.description info)
       | JS.Inherited => None
       | JS.Undefined =>
           Some
             (String.append "ML model recommends this fertilizer for "
                (String.append cropName
                   (String.append " in " (String.append soilName " soil"))))
       end;
     Fertilizer.applicationMethod :=
       match primaryFertilizerInfo with
       | JS.Own info => Some (FertilizerInfo.application info)
       | JS.Inherited => None
       | JS.Undefined => Some "Apply as per standard agricultural practices"
       end |}.

Definition secondaryFertilizer (nutrientDeficiency : list string)
    (hectares : float) : Fertilizer.t :=
  if includes nutrientDeficiency "Phosphorus" then
    {| Fertilizer.name := "DAP";
       Fertilizer.amount := kg (JS.Math_round (50 * hectares));
       Fertilizer.reason :=
         Some "Addresses phosphorus deficiency identified in soil analysis";
       Fertilizer.applicationMethod :=
         Some "Apply as basal dose during soil preparation" |}
  else if includes nutrientDeficiency "Potassium" then
    {| Fertilizer.name := "Potassium sulfate";
       Fertilizer.amount := kg (JS.Math_round (40 * hectares));
       Fertilizer.reason :=
         Some "Addresses potassium deficiency for better fruit quality";
       Fertilizer.applicationMethod :=
         Some "Apply during fruit development stage" |}
  else
    {| Fertilizer.name := "Organic Compost";
       Fertilizer.amount := kg (JS.Math_round (1000 * hectares));
       Fertilizer.reason :=
         Some "Improves soil structure and provides slow-release nutrients";
       Fertilizer.applicationMethod :=
         Some "Apply 2-3 weeks before planting and incorporate into soil" |}.

Definition primaryCost (hectares : float) : float :=
  JS.Math_round (hectares * 4000).
Definition secondaryCost (hectares : float) : float :=
  JS.Math_round (hectares * 2500).
Definition organicCost (hectares : float) : float :=
  JS.Math_round (hectares * 2000).
Definition totalCost (hectares : float) : float :=
  (primaryCost hectares + secondaryCost hectares + organicCost hectares)%float.

Definition costEstimate (hectares : float) : CostEstimate.t :=
  {| CostEstimate.primary := rupees (primaryCost hectares);
     CostEstimate.secondary := rupees (secondaryCost hectares);
     CostEstimate.organic := rupees (organicCost hectares);
     CostEstimate.total := rupees (totalCost hectares) |}.

Definition organicOptions (hectares : float) : list OrganicOption.t :=
  [ {| OrganicOption.name := "Vermicompost";
       OrganicOption.amount := kg (JS.Math_round (1000 * hectares));
       OrganicOption.benefits :=
         "Rich in nutrients, improves soil structure and water retention";
       OrganicOption.applicationTiming := "Apply 3-4 weeks before planting" |};
    {| OrganicOption.name := "Neem Cake";
       OrganicOption.amount := kg (JS.Math_round (200 * hectares));
       OrganicOption.benefits :=
         "Natural pest deterrent and slow-release nitrogen source";
       OrganicOption.applicationTiming :=
         "Apply at the time of land preparation" |};
    {| OrganicOption.name := "Bone Meal";
       OrganicOption.amount := kg (JS.Math_round (150 * hectares));
       OrganicOption.benefits := "Excellent source of phosphorus and calcium";
       OrganicOption.applicationTiming :=
         "Apply as basal dose before sowing" |} ].

Definition applicationTiming : ApplicationTiming.t :=
  {| ApplicationTiming.primary :=
       "Apply 1-2 weeks before planting for optimal nutrient availability";
     ApplicationTiming.secondary :=
       "Apply during active growth phase or as recommended for specific fertilizer";
     ApplicationTiming.organic :=
       "Apply 3-4 weeks before planting to allow decomposition" |}.

(** [Boolean(s)] on a string: every string but the empty one is truthy. *)
Definition truthy (s : string) : bool := negb (String.eqb s "").

Definition join (sep : string) (l : list string) : string :=
  String.concat sep l.

Definition recommendations (pH : float) (phStatus moistureStatus : string)
    (nutrientDeficiency : list string) : list string :=
  filter truthy
    [ if negb (String.eqb phStatus "Optimal")
      then String.append "Adjust soil pH using "
             (if (pH <? 6.0)%float then "lime" else "sulfur")
      else "Maintain current pH levels";
      if String.eqb moistureStatus "Low" then "Increase irrigation frequency"
      else if String.eqb moistureStatus "High" then "Improve drainage"
      else "Maintain current moisture levels";
      if (0 <? List.length nutrientDeficiency)%nat
      then String.append "Address "
             (String.append (join ", " nutrientDeficiency) " deficiency")
      else "Nutrient levels are adequate";
      "Regular soil testing every 6 months is recommended";
      "Consider crop rotation to maintain soil health" ].

Section Engine.

(** What the page imports from the classifier service: the classifier call,
    the fertilizer metadata table, and the crop and soil code tables.  The
    tables are object literals: [FERTILIZER_INFO] is given by the entries it
    holds and is read with [JS.get]. *)
Variable predictFertilizer : MLInput.t -> Promise MLPrediction.t.
Variable FERTILIZER_INFO : gmap string FertilizerInfo.t.
Variable CROP_TYPES : list (string * float).
Variable SOIL_TYPES : list (string * float).

Definition hectaresOf (data : FormData.t) : float :=
  convertToHectares (JS.parseFloat (FormData.fieldSize data))
    (FormData.sizeUnit data).

Definition mlInputOf (data : FormData.t) : MLInput.t :=
  {| MLInput.temperature := JS.parseFloat (FormData.temperature data);
     MLInput.humidity := JS.parseFloat (FormData.humidity data);
     MLInput.moisture := JS.parseFloat (FormData.soilMoisture data);
     MLInput.soilType := JS.parseInt (FormData.soilType data);
     MLInput.cropType := JS.parseInt (FormData.cropType data);
     MLInput.nitrogen := JS.parseFloat (FormData.nitrogen data);
     MLInput.potassium := JS.parseFloat (FormData.potassium data);
     MLInput.phosphorus := JS.parseFloat (FormData.phosphorus data) |}.

(** Everything after the [await]: the recommendation built from the form and
    the classifier's prediction. *)
Definition assemble (data : FormData.t) (mlPrediction : MLPrediction.t)
  : EnhancedRecommendation.t :=
  let pH := JS.parseFloat (FormData.soilPH data) in
  let nitrogen := JS.parseFloat (FormData.nitrogen data) in
  let phosphorus := JS.parseFloat (FormData.phosphorus data) in
  let potassium := JS.parseFloat (FormData.potassium data) in
  let moisture := JS.parseFloat (FormData.soilMoisture data) in
  let hectares := hectaresOf data in
  let phStatus := phStatus pH in
  let moistureStatus := moistureStatus moisture in
  let nutrientDeficiency := nutrientDeficiency nitrogen phosphorus potassium in
  let cropName := nameOf CROP_TYPES (JS.parseInt (FormData.cropType data)) in
  let soilName := nameOf SOIL_TYPES (JS.parseInt (FormData.soilType data)) in
  let primaryFertilizerInfo :=
    JS.get FERTILIZER_INFO (MLPrediction.fertilizer mlPrediction) in
  {| EnhancedRecommendation.primaryFertilizer :=
       primaryFertilizer primaryFertilizerInfo mlPrediction hectares
         cropName soilName;
     EnhancedRecommendation.secondaryFertilizer :=
       secondaryFertilizer nutrientDeficiency hectares;
     EnhancedRecommendation.organicOptions := organicOptions hectares;
     EnhancedRecommendation.applicationTiming := applicationTiming;
     EnhancedRecommendation.costEstimate := costEstimate hectares;
     EnhancedRecommendation.soilConditionAnalysis :=
       {| SoilConditionAnalysis.phStatus := phStatus;
          SoilConditionAnalysis.nutrientDeficiency := nutrientDeficiency;
          SoilConditionAnalysis.moistureStatus := moistureStatus;
          SoilConditionAnalysis.recommendations :=
            recommendations pH phStatus moistureStatus nutrientDeficiency |};
     EnhancedRecommendation.mlPrediction := mlPrediction |}.

Definition generateEnhancedRecommendations (data : FormData.t)
  : Promise EnhancedRecommendation.t :=
  match predictFertilizer (mlInputOf data) with
  | Fulfilled mlPrediction => Fulfilled (assemble data mlPrediction)
  | Rejected reason => Rejected reason
  end.

End Engine.

(** ** Reference definitions for the properties *)

(** The per-unit multiplier table of the unit normalizer, as the
    specification words it: acres 0.404686, bigha 0.1338, hectares 1, and
    the hectares multiplier for any other unit. *)
Definition multiplier (unit : string) : float :=
  if String.eqb unit "acres" then 0.404686%float
  else if String.eqb unit "bigha" then 0.1338%float
  else 1%float.

(** The numeric fields the engine reads from the form, parsed. *)
Definition requiredNumbers (data : FormData.t) : list float :=
  map JS.parseFloat
    [ FormData.fieldSize data; FormData.soilPH data; FormData.nitrogen data;
      FormData.phosphorus data; FormData.potassium data;
      FormData.soilMoisture data; FormData.temperature data;
      FormData.humidity data ].

(** An input the specification calls invalid: a required number that is not
    finite, or a field size that is not positive. *)
Definition invalidInput (data : FormData.t) : bool :=
  negb (forallb is_finite (requiredNumbers data))
  || (JS.parseFloat (FormData.fieldSize data) <=? 0)%float.

(** *** Sample collaborators and inputs *)

Definition sampleInfo : gmap string FertilizerInfo.t :=
  {[ "Urea" :=
       {| FertilizerInfo.description := "High nitrogen fertilizer";
          FertilizerInfo.application := "Apply in split doses";
          FertilizerInfo.npk := "46-0-0" |} ]}.

Definition sampleCrops : list (string * float) :=
  [ ("Maize", 0%float); ("Sugarcane", 1%float); ("Cotton", 2%float) ].

Definition sampleSoils : list (string * float) :=
  [ ("Sandy", 0%float); ("Loamy", 1%float); ("Black", 2%float) ].

Definition predicts (label : string) (confidence : float)
  : MLInput.t -> Promise MLPrediction.t :=
  fun _ => Fulfilled {| MLPrediction.fertilizer := label;
                        MLPrediction.confidence := confidence |}.

(** The end-to-end scenario of the specification. *)
Definition scenario : FormData.t :=
  {| FormData.fieldName := "North field";
     FormData.fieldSize := "2";
     FormData.sizeUnit := "hectares";
     FormData.cropType := "1";
     FormData.soilPH := "5.5";
     FormData.nitrogen := "20";
     FormData.phosphorus := "10";
     FormData.potassium := "100";
     FormData.soilType := "2";
     FormData.temperature := "25";
     FormData.humidity := "60";
     FormData.soilMoisture := "30" |}.

(** The scenario with a field size that is not a number. *)
Definition unparsable : FormData.t :=
  {| FormData.fieldName := "North field";
     FormData.fieldSize := "two";
     FormData.sizeUnit := "hectares";
     FormData.cropType := "1";
     FormData.soilPH := "5.5";
     FormData.nitrogen := "20";
     FormData.phosphorus := "10";
     FormData.potassium := "100";
     FormData.soilType := "2";
     FormData.temperature := "25";
     FormData.humidity := "60";
     FormData.soilMoisture := "30" |}.

(** The scenario with a negative field size. *)
Definition negativeSize : FormData.t :=
  {| FormData.fieldName := "North field";
     FormData.fieldSize := "-2";
     FormData.sizeUnit := "hectares";
     FormData.cropType := "1";
     FormData.soilPH := "5.5";
     FormData.nitrogen := "20";
     FormData.phosphorus := "10";
     FormData.potassium := "100";
     FormData.soilType := "2";
     FormData.temperature := "25";
     FormData.humidity := "60";
     FormData.soilMoisture := "30" |}.

(** *** Rounding

    The state of [SpecFloat]'s right shift after [n] steps on the mantissa
    [m]: the quotient [shr_m], the bit shifted out last [shr_r], and the
    sticky flag [shr_s], set when a bit below that one was. *)
Definition shr_inv (m : Z) (n : nat) (mrs : shr_record) : Prop :=
  0 <= shr_m mrs
  /\ exists u,
       2 * m = (2 * shr_m mrs + Z.b2z (shr_r mrs)) * 2 ^ Z.of_nat n + u
       /\ 0 <= u < 2 ^ Z.of_nat n
       /\ (shr_s mrs = true <-> 0 < u).

(** The result of rounding once the mantissa [q], of at most 53 bits or equal
    to [2^53] after a carry, and its exponent [e] are known. *)
Definition pack (q e : Z) : spec_float :=
  match q with
  | Zpos p =>
      if (q =? 2 ^ 53)%Z then
        if (e + 1 <=? emax - prec)%Z
        then S754_finite false 4503599627370496 (e + 1)
        else S754_infinity false
      else if (e <=? emax - prec)%Z then S754_finite false p e
      else S754_infinity false
  | _ => S754_zero false
  end.

(** The real number a finite Number stands for (0 for the others). *)
Definition SF2R (x : spec_float) : R :=
  match x with
  | S754_finite s m e =>
      ((if s then -1 else 1) * IZR (Z.pos m) * powerRZ 2 e)%R
  | _ => 0%R
  end.

Definition F2R (x : float) : R := SF2R (Prim2SF x).

(** The binary64 representation of a positive integer below [2^53]: a
    mantissa of exactly 53 bits. *)
Definition canon (N : Z) : spec_float :=
  let d := Z.log2 N + 1 in
  S754_finite false (Z.to_pos (N * 2 ^ (53 - d))) (d - 53).

(** An area, in hectares, whose costs exceed [2^53] rupees, and the area of a
    field of two and a half acres. *)
Definition hugeArea : float := 300000000000009%float.

Definition smallArea : float := convertToHectares 2.5 "acres".

(** ** The dashboard page: saving a recommendation

    [saveRecommendationToDatabase] and [handleFormSubmit] talk to the storage
    collaborator.  A run is modelled by the list of calls it makes; the
    collaborator answers each call from the calls made before it, and an
    answer is the awaited promise, rejected when the client throws. *)

Module FarmInsert.
Record t := mk {
  user_id : string;
  name : string;
  size : float;
  size_unit : string;
  soil_type : option string
}.
End FarmInsert.

Module RecommendationInsert.
Record t := mk {
  farm_id : string;
  user_id : string;
  crop_type : string;
  primary_fertilizer : string;
  secondary_fertilizer : string;
  organic_options : list OrganicOption.t;
  application_timing : ApplicationTiming.t;
  cost_estimate : CostEstimate.t;
  ml_prediction : MLPrediction.t;
  confidence_score : float;
  status : string
}.
End RecommendationInsert.

Inductive Call :=
  | GetUser
  | SelectFarm (user_id name : string)
  | InsertFarm (row : FarmInsert.t)
  | InsertRecommendation (row : RecommendationInsert.t).

(** [auth_getUser] answers the id of the signed-in user or null;
    [farms_select] the [data] of the query for the ids of the user's farms of
    a given name (rows or null); [farms_insert] the id of the inserted row,
    when there is one; the answer of [recommendations_insert] is not read. *)
Record Supabase := {
  auth_getUser : list Call -> Promise (option string);
  farms_select :
    list Call -> string -> string -> Promise (option (list string));
  farms_insert : list Call -> FarmInsert.t -> Promise (option string);
  recommendations_insert :
    list Call -> RecommendationInsert.t -> Promise unit
}.

(** Asynchronous code: it extends the list of calls and is fulfilled or
    rejected. *)
Definition Async (A : Type) : Type := list Call -> Promise A * list Call.

Definition ret {A : Type} (a : A) : Async A := fun log => (Fulfilled a, log).

Definition bind {A B : Type} (m : Async A) (k : A -> Async B) : Async B :=
  fun log =>
    match m log with
    | (Fulfilled a, log') => k a log'
    | (Rejected reason, log') => (Rejected reason, log')
    end.

Definition await {A : Type} (c : Call) (answer : list Call -> Promise A)
  : Async A :=
  fun log => (answer log, (log ++ [c])%list).

(** [try { ... } catch (error) { console.error(...) }] *)
Definition try_catch (m : Async unit) : Async unit :=
  fun log => (Fulfilled tt, snd (m log)).

Notation "x <- m ;; k" := (bind m (fun x => k))
  (at level 100, m at next level, right associativity).

(** [Object.keys(table).find(key => table[key] === code)] *)
Definition keyOf (table : list (string * float)) (code : float)
  : option string :=
  option_map fst (find (fun kv => PrimFloat.eqb (snd kv) code) table).

(** [key || fallback] on a key that may be undefined or empty. *)
Definition keyOr (key : option string) (fallback : string) : string :=
  match key with
  | Some k => if String.eqb k "" then fallback else k
  | None => fallback
  end.

(** The truthiness of an id that may be undefined. *)
Definition truthyId (id : option string) : bool :=
  match id with
  | Some s => negb (String.eqb s "")
  | None => false
  end.

Module Dashboard.

(** The state of the page component. *)
Record t := mk {
  formData : option FormData.t;
  recommendations : option EnhancedRecommendation.t;
  isGenerating : bool
}.

Section Page.

Variable predictFertilizer : MLInput.t -> Promise MLPrediction.t.
Variable FERTILIZER_INFO : gmap string FertilizerInfo.t.
Variable CROP_TYPES : list (string * float).
Variable SOIL_TYPES : list (string * float).
Variable supabase : Supabase.

Definition newFarmRow (user : string) (data : FormData.t) : FarmInsert.t :=
  {| FarmInsert.user_id := user;
     FarmInsert.name := FormData.fieldName data;
     FarmInsert.size := JS.parseFloat (FormData.fieldSize data);
     FarmInsert.size_unit := FormData.sizeUnit data;
     FarmInsert.soil_type :=
       keyOf SOIL_TYPES (JS.parseInt (FormData.soilType data)) |}.

Definition recommendationRow (farmId user : string) (data : FormData.t)
    (recommendation : EnhancedRecommendation.t) : RecommendationInsert.t :=
  {| RecommendationInsert.farm_id := farmId;
     RecommendationInsert.user_id := user;
     RecommendationInsert.crop_type :=
       keyOr (keyOf CROP_TYPES (JS.parseInt (FormData.cropType data)))
         (FormData.cropType data);
     RecommendationInsert.primary_fertilizer :=
       Fertilizer.name
         (EnhancedRecommendation.primaryFertilizer recommendation);
     RecommendationInsert.secondary_fertilizer :=
       Fertilizer.name
         (EnhancedRecommendation.secondaryFertilizer recommendation);
     RecommendationInsert.organic_options :=
       EnhancedRecommendation.organicOptions recommendation;
     RecommendationInsert.application_timing :=
       EnhancedRecommendation.applicationTiming recommendation;
     RecommendationInsert.cost_estimate :=
       EnhancedRecommendation.costEstimate recommendation;
     RecommendationInsert.ml_prediction :=
       EnhancedRecommendation.mlPrediction recommendation;
     RecommendationInsert.confidence_score :=
       MLPrediction.confidence
         (EnhancedRecommendation.mlPrediction recommendation);
     RecommendationInsert.status := "pending" |}.

Definition saveRecommendationToDatabase (data : FormData.t)
    (recommendation : EnhancedRecommendation.t) : Async unit :=
  try_catch
    (user <- await GetUser (auth_getUser supabase) ;;
     match user with
     | None => ret tt
     | Some user =>
         existingFarms <-
           await (SelectFarm user (FormData.fieldName data))
             (fun log =>
                farms_select supabase log user (FormData.fieldName data)) ;;
         farmId <-
           match existingFarms with
           | Some (id :: _) => ret (Some id)
           | _ =>
               await (InsertFarm (newFarmRow user data))
                 (fun log => farms_insert supabase log (newFarmRow user data))
           end ;;
         match farmId with
         | Some id =>
             if truthyId farmId then
               await
                 (InsertRecommendation
                    (recommendationRow id user data recommendation))
                 (fun log =>
                    recommendations_insert supabase log
                      (recommendationRow id user data recommendation))
             else ret tt
         | None => ret tt
         end
     end).

Definition handleFormSubmit (data : FormData.t) (st : t) (log : list Call)
  : t * list Call :=
  let st := {| formData := Some data;
               recommendations := recommendations st;
               isGenerating := true |} in
  let '(st, log) :=
    match
      generateEnhancedRecommendations predictFertilizer FERTILIZER_INFO
        CROP_TYPES SOIL_TYPES data
    with
    | Fulfilled enhancedRecommendations =>
        ({| formData := formData st;
            recommendations := Some enhancedRecommendations;
            isGenerating := isGenerating st |},
         snd (saveRecommendationToDatabase data enhancedRecommendations log))
    | Rejected _ => (st, log)
    end in
  ({| formData := formData st;
      recommendations := recommendations st;
      isGenerating := false |}, log).

End Page.

(** What the page renders in the recommendations tab: the spinner, and the
    recommendations panel with the form it is shown for. *)
Definition showsSpinner (st : t) : bool := isGenerating st.

Definition shownRecommendations (st : t)
  : option (EnhancedRecommendation.t * FormData.t) :=
  match recommendations st, formData st with
  | Some r, Some d => if isGenerating st then None else Some (r, d)
  | _, _ => None
  end.

End Dashboard.

(** *** Sample storage collaborators *)

(** Nobody is signed in. *)
Definition signedOut : Supabase :=
  {| auth_getUser := fun _ => Fulfilled None;
     farms_select := fun _ _ _ => Fulfilled (Some []);
     farms_insert := fun _ _ => Fulfilled (Some "farm-9");
     recommendations_insert := fun _ _ => Fulfilled tt |}.

(** A signed-in user who has the farms [farms] under every name; inserting a
    farm gives the row [created], when it is not refused. *)
Definition signedIn (farms : list string) (created : option string)
  : Supabase :=
  {| auth_getUser := fun _ => Fulfilled (Some "user-1");
     farms_select := fun _ _ _ => Fulfilled (Some farms);
     farms_insert := fun _ _ => Fulfilled created;
     recommendations_insert := fun _ _ => Fulfilled tt |}.

(** A store in which every call after sign-in throws. *)
Definition offline : Supabase :=
  {| auth_getUser := fun _ => Fulfilled (Some "user-1");
     farms_select := fun _ _ _ => Rejected "Failed to fetch";
     farms_insert := fun _ _ => Rejected "Failed to fetch";
     recommendations_insert := fun _ _ => Rejected "Failed to fetch" |}.

(** A classifier that fails. *)
Definition failing : MLInput.t -> Promise MLPrediction.t :=
  fun _ => Rejected "model unavailable".

(** A recommendation computed for some earlier form. *)
Definition earlier : EnhancedRecommendation.t :=
  assemble sampleInfo sampleCrops sampleSoils negativeSize
    {| MLPrediction.fertilizer := "DAP"; MLPrediction.confidence := 55 |}.

(** ** The recommendation history *)

Module RecommendationHistoryItem.
Record t := mk {
  id : string;
  farm_name : string;
  crop_type : string;
  primary_fertilizer : string;
  secondary_fertilizer : string;
  confidence_score : float;
  status : string;
  created_at : string;
  applied_date : option string
}.
End RecommendationHistoryItem.

Module RecommendationHistory.

Import RecommendationHistoryItem.

(** The argument of the [update_recommendation_status] procedure. *)
Record StatusUpdate := {
  recommendation_id : string;
  new_status : string;
  application_date : option string
}.

(** [Array.from(new Set(values))]: the values in the order of their first
    occurrence. *)
Definition Set_add (set : list string) (value : string) : list string :=
  if includes set value then set else (set ++ [value])%list.

Definition Array_from_Set (values : list string) : list string :=
  fold_left Set_add values [].

Definition uniqueCrops (recommendations : list t) : list string :=
  Array_from_Set (map crop_type recommendations).


Section Component.

(** [String.prototype.toLowerCase] *)
Variable toLowerCase : string -> string.

(** [new Date().toISOString()] at the n-th reading of the clock. *)
Variable now : nat -> string.

(** The stored procedure: whether its answer carries an error, or the call
    throws. *)
Variable update_recommendation_status : StatusUpdate -> Promise bool.

Definition applyFilters (recommendations : list t)
    (statusFilter cropFilter : string) : list t :=
  let filtered := recommendations in
  let filtered :=
    if negb (String.eqb statusFilter "all")
    then filter (fun rec => String.eqb (status rec) statusFilter) filtered
    else filtered in
  let filtered :=
    if negb (String.eqb cropFilter "all")
    then filter (fun rec => String.eqb (toLowerCase (crop_type rec))
                              (toLowerCase cropFilter)) filtered
    else filtered in
  filtered.

(** [prev.map(rec => rec.id === recommendationId ? {...} : rec)], the clock
    having been read [reads] times. *)
Fixpoint markStatus (reads : nat) (recommendationId newStatus : string)
    (prev : list t) : list t :=
  match prev with
  | [] => []
  | rec :: rest =>
      if String.eqb (id rec) recommendationId
      then
        {| id := id rec;
           farm_name := farm_name rec;
           crop_type := crop_type rec;
           primary_fertilizer := primary_fertilizer rec;
           secondary_fertilizer := secondary_fertilizer rec;
           confidence_score := confidence_score rec;
           status := newStatus;
           created_at := created_at rec;
           applied_date :=
             if String.eqb newStatus "applied" then Some (now reads)
             else applied_date rec |}
        :: markStatus
             (if String.eqb newStatus "applied" then S reads else reads)
             recommendationId newStatus rest
      else rec :: markStatus reads recommendationId newStatus rest
  end.

(** The recommendations held after [updateRecommendationStatus]. *)
Definition updateRecommendationStatus (recommendationId newStatus : string)
    (recommendations : list t) : list t :=
  let applied := String.eqb newStatus "applied" in
  match
    update_recommendation_status
      {| recommendation_id := recommendationId;
         new_status := newStatus;
         application_date := if applied then Some (now 0) else None |}
  with
  | Fulfilled false =>
      markStatus (if applied then 1 else 0) recommendationId newStatus
        recommendations
  | Fulfilled true => recommendations
  | Rejected _ => recommendations
  end.

End Component.

End RecommendationHistory.

(** *** A sample history *)

Definition pendingItem : RecommendationHistoryItem.t :=
  {| RecommendationHistoryItem.id := "r1";
     RecommendationHistoryItem.farm_name := "North field";
     RecommendationHistoryItem.crop_type := "Maize";
     RecommendationHistoryItem.primary_fertilizer := "Urea";
     RecommendationHistoryItem.secondary_fertilizer := "DAP";
     RecommendationHistoryItem.confidence_score := 87;
     RecommendationHistoryItem.status := "pending";
     RecommendationHistoryItem.created_at := "2024-05-01T08:00:00.000Z";
     RecommendationHistoryItem.applied_date := None |}.

Definition scheduledItem : RecommendationHistoryItem.t :=
  {| RecommendationHistoryItem.id := "r2";
     RecommendationHistoryItem.farm_name := "South field";
     RecommendationHistoryItem.crop_type := "Cotton";
     RecommendationHistoryItem.primary_fertilizer := "DAP";
     RecommendationHistoryItem.secondary_fertilizer := "Organic Compost";
     RecommendationHistoryItem.confidence_score := 72;
     RecommendationHistoryItem.status := "scheduled";
     RecommendationHistoryItem.created_at := "2024-05-03T08:00:00.000Z";
     RecommendationHistoryItem.applied_date := None |}.

Definition appliedItem : RecommendationHistoryItem.t :=
  {| RecommendationHistoryItem.id := "r3";
     RecommendationHistoryItem.farm_name := "North field";
     RecommendationHistoryItem.crop_type := "Maize";
     RecommendationHistoryItem.primary_fertilizer := "Urea";
     RecommendationHistoryItem.secondary_fertilizer := "Potassium sulfate";
     RecommendationHistoryItem.confidence_score := 64;
     RecommendationHistoryItem.status := "applied";
     RecommendationHistoryItem.created_at := "2024-04-11T08:00:00.000Z";
     RecommendationHistoryItem.applied_date :=
       Some "2024-04-20T08:00:00.000Z" |}.

Definition sampleHistory : list RecommendationHistoryItem.t :=
  [pendingItem; scheduledItem; appliedItem].

(** A clock, a procedure that succeeds and a stand-in for lower-casing. *)
Definition sampleClock (n : nat) : string :=
  if Nat.eqb n 0 then "2024-06-01T10:00:00.000Z"
  else "2024-06-01T10:00:01.000Z".

Definition succeeds : RecommendationHistory.StatusUpdate -> Promise bool :=
  fun _ => Fulfilled false.

Fixpoint asciiLower (s : string) : string :=
  match s with
  | EmptyString => EmptyString
  | String c rest =>
      let n := nat_of_ascii c in
      String (if (Nat.leb 65 n && Nat.leb n 90)%bool
              then ascii_of_nat (n + 32) else c) (asciiLower rest)
  end.

(** ** The database service and the farm hooks *)

(** The awaited answer of a query: its [data] and its [error]. *)
Module Response.
Record t (A : Type) := mk {
  data : option A;
  error : option string
}.
Arguments mk {A} _ _.
Arguments data {A} _.
Arguments error {A} _.
End Response.

Module Farm.
Record t := mk {
  id : string;
  user_id : string;
  name : string;
  location : option string;
  size : float;
  size_unit : string;
  soil_type : option string;
  created_at : string;
  updated_at : string
}.
End Farm.

(** [Omit<Farm, 'id' | 'created_at' | 'updated_at'>] *)
Module FarmData.
Record t := mk {
  user_id : string;
  name : string;
  location : option string;
  size : float;
  size_unit : string;
  soil_type : option string
}.
End FarmData.

(** [Partial<Farm>]: the properties that are present. *)
Module FarmUpdates.
Record t := mk {
  id : option string;
  user_id : option string;
  name : option string;
  location : option (option string);
  size : option float;
  size_unit : option string;
  soil_type : option (option string);
  created_at : option string;
  updated_at : option string
}.
End FarmUpdates.

Module SoilAnalysis.
Record t := mk {
  id : string;
  farm_id : string;
  user_id : string;
  ph_level : option float;
  nitrogen : option float;
  phosphorus : option float;
  potassium : option float;
  organic_matter : option float;
  moisture : option float;
  temperature : option float;
  humidity : option float;
  analysis_date : string;
  created_at : string
}.
End SoilAnalysis.

Module SensorData.
Record t := mk {
  id : string;
  farm_id : option string;
  user_id : option string;
  sensor_type : string;
  nitrogen : option float;
  phosphorus : option float;
  potassium : option float;
  ph_level : option float;
  soil_moisture : option float;
  temperature : option float;
  humidity : option float;
  timestamp : string;
  created_at : string
}.
End SensorData.

(** The truthiness of a Number: neither zero nor NaN. *)
Definition truthyNumber (v : float) : bool :=
  negb (v =? 0)%float && negb (is_nan v).

(** [Math.min] of two Numbers. *)
Definition Math_min (x y : float) : float :=
  if (is_nan x || is_nan y)%bool then nan
  else if (x <? y)%float then x
  else if (y <? x)%float then y
  else match classify y with
       | NZero => y
       | _ => x
       end.

Module DatabaseService.

Definition getUserFarms (answer : Promise (Response.t (list Farm.t)))
  : Promise (list Farm.t) :=
  match answer with
  | Fulfilled r =>
      match Response.error r with
      | Some _ => Fulfilled []
      | None => Fulfilled (default [] (Response.data r))
      end
  | Rejected reason => Rejected reason
  end.

Definition createFarm (answer : Promise (Response.t Farm.t))
  : Promise (option Farm.t) :=
  match answer with
  | Fulfilled r =>
      match Response.error r with
      | Some _ => Fulfilled None
      | None => Fulfilled (Response.data r)
      end
  | Rejected reason => Rejected reason
  end.

Definition updateFarm (answer : Promise (Response.t unit)) : Promise bool :=
  match answer with
  | Fulfilled r =>
      match Response.error r with
      | Some _ => Fulfilled false
      | None => Fulfilled true
      end
  | Rejected reason => Rejected reason
  end.

Definition deleteFarm (answer : Promise (Response.t unit)) : Promise bool :=
  match answer with
  | Fulfilled r =>
      match Response.error r with
      | Some _ => Fulfilled false
      | None => Fulfilled true
      end
  | Rejected reason => Rejected reason
  end.

Definition getLatestSoilAnalysis (answer : Promise (Response.t SoilAnalysis.t))
  : Promise (option SoilAnalysis.t) :=
  match answer with
  | Fulfilled r =>
      match Response.error r with
      | Some _ => Fulfilled None
      | None => Fulfilled (Response.data r)
      end
  | Rejected reason => Rejected reason
  end.

Definition insertSensorData (answer : Promise (Response.t SensorData.t))
  : Promise (option SensorData.t) :=
  match answer with
  | Fulfilled r =>
      match Response.error r with
      | Some _ => Fulfilled None
      | None => Fulfilled (Response.data r)
      end
  | Rejected reason => Rejected reason
  end.

(** The points of the pH and of the moisture reading, added to [score]:
    [if (x) { if (x >= lo && x <= hi) score += 20; else if (x >= lo' &&
    x <= hi') score += 15; else score += 5; }] on a reading that may be
    missing. *)
Definition rangePoints (x : option float) (lo hi lo' hi' : float)
    (score : float) : float :=
  match x with
  | Some v =>
      if truthyNumber v then
        if ((lo <=? v) && (v <=? hi))%float then (score + 20)%float
        else if ((lo' <=? v) && (v <=? hi'))%float then (score + 15)%float
        else (score + 5)%float
      else score
  | None => score
  end.

(** The points of a nutrient reading, added to [score]:
    [if (x && x >= good) score += 20; else if (x && x >= fair) score += 15;
    else score += 5;] *)
Definition nutrientPoints (x : option float) (good fair : float)
    (score : float) : float :=
  let reaches bound :=
    match x with
    | Some v => (truthyNumber v && (bound <=? v)%float)%bool
    | None => false
    end in
  if reaches good then (score + 20)%float
  else if reaches fair then (score + 15)%float
  else (score + 5)%float.

Definition getFarmHealthScore (answer : Promise (Response.t SoilAnalysis.t))
  : Promise float :=
  match getLatestSoilAnalysis answer with
  | Fulfilled None => Fulfilled 0%float
  | Fulfilled (Some latestAnalysis) =>
      let score := 0%float in
      let score :=
        rangePoints (SoilAnalysis.ph_level latestAnalysis) 6.0 7.5 5.5 8.0
          score in
      let score :=
        nutrientPoints (SoilAnalysis.nitrogen latestAnalysis) 40 20 score in
      let score :=
        nutrientPoints (SoilAnalysis.phosphorus latestAnalysis) 20 10 score in
      let score :=
        nutrientPoints (SoilAnalysis.potassium latestAnalysis) 150 100
          score in
      let score :=
        rangePoints (SoilAnalysis.moisture latestAnalysis) 60 80 40 90
          score in
      Fulfilled (Math_min score 100)
  | Rejected reason => Rejected reason
  end.

End DatabaseService.

Module useFarms.

Record State := {
  farms : list Farm.t;
  loading : bool;
  error : option string
}.

(** [{ ...farm, ...updates }] *)
Definition merge (farm : Farm.t) (updates : FarmUpdates.t) : Farm.t :=
  {| Farm.id := default (Farm.id farm) (FarmUpdates.id updates);
     Farm.user_id := default (Farm.user_id farm) (FarmUpdates.user_id updates);
     Farm.name := default (Farm.name farm) (FarmUpdates.name updates);
     Farm.location :=
       default (Farm.location farm) (FarmUpdates.location updates);
     Farm.size := default (Farm.size farm) (FarmUpdates.size updates);
     Farm.size_unit :=
       default (Farm.size_unit farm) (FarmUpdates.size_unit updates);
     Farm.soil_type :=
       default (Farm.soil_type farm) (FarmUpdates.soil_type updates);
     Farm.created_at :=
       default (Farm.created_at farm) (FarmUpdates.created_at updates);
     Farm.updated_at :=
       default (Farm.updated_at farm) (FarmUpdates.updated_at updates) |}.

Section Hook.

(** The signed-in user, the answers of the queries on the farms table, and
    the time on the clock. *)
Variable getUser : Promise (option string).
Variable selectFarms : string -> Promise (Response.t (list Farm.t)).
Variable insertFarm : FarmData.t -> Promise (Response.t Farm.t).
Variable updateFarms :
  string -> FarmUpdates.t -> Promise (Response.t unit).
Variable deleteFarms : string -> Promise (Response.t unit).
Variable now : string.

Definition fetchFarms (st : State) : State :=
  let st := {| farms := farms st; loading := true; error := error st |} in
  let st :=
    match getUser with
    | Fulfilled None =>
        {| farms := farms st; loading := loading st;
           error := Some "User not authenticated" |}
    | Fulfilled (Some user) =>
        match DatabaseService.getUserFarms (selectFarms user) with
        | Fulfilled userFarms =>
            {| farms := userFarms; loading := loading st; error := None |}
        | Rejected _ =>
            {| farms := farms st; loading := loading st;
               error := Some "Failed to fetch farms" |}
        end
    | Rejected _ =>
        {| farms := farms st; loading := loading st;
           error := Some "Failed to fetch farms" |}
    end in
  {| farms := farms st; loading := false; error := error st |}.

Definition createFarm (farmData : FarmData.t) (st : State)
  : State * option Farm.t :=
  let failed :=
    ({| farms := farms st; loading := loading st;
        error := Some "Failed to create farm" |}, None) in
  match getUser with
  | Fulfilled (Some user) =>
      match
        DatabaseService.createFarm
          (insertFarm
             {| FarmData.user_id := user;
                FarmData.name := FarmData.name farmData;
                FarmData.location := FarmData.location farmData;
                FarmData.size := FarmData.size farmData;
                FarmData.size_unit := FarmData.size_unit farmData;
                FarmData.soil_type := FarmData.soil_type farmData |})
      with
      | Fulfilled (Some newFarm) =>
          ({| farms := newFarm :: farms st; loading := loading st;
              error := error st |}, Some newFarm)
      | Fulfilled None => (st, None)
      | Rejected _ => failed
      end
  | Fulfilled None => failed
  | Rejected _ => failed
  end.

Definition updateFarm (farmId : string) (updates : FarmUpdates.t)
    (st : State) : State * bool :=
  match
    DatabaseService.updateFarm
      (updateFarms farmId
         {| FarmUpdates.id := FarmUpdates.id updates;
            FarmUpdates.user_id := FarmUpdates.user_id updates;
            FarmUpdates.name := FarmUpdates.name updates;
            FarmUpdates.location := FarmUpdates.location updates;
            FarmUpdates.size := FarmUpdates.size updates;
            FarmUpdates.size_unit := FarmUpdates.size_unit updates;
            FarmUpdates.soil_type := FarmUpdates.soil_type updates;
            FarmUpdates.created_at := FarmUpdates.created_at updates;
            FarmUpdates.updated_at := Some now |})
  with
  | Fulfilled true =>
      ({| farms :=
            map (fun farm =>
                   if String.eqb (Farm.id farm) farmId
                   then merge farm updates else farm) (farms st);
          loading := loading st; error := error st |}, true)
  | Fulfilled false => (st, false)
  | Rejected _ =>
      ({| farms := farms st; loading := loading st;
          error := Some "Failed to update farm" |}, false)
  end.

Definition deleteFarm (farmId : string) (st : State) : State * bool :=
  match DatabaseService.deleteFarm (deleteFarms farmId) with
  | Fulfilled true =>
      ({| farms :=
            filter (fun farm => negb (String.eqb (Farm.id farm) farmId))
              (farms st);
          loading := loading st; error := error st |}, true)
  | Fulfilled false => (st, false)
  | Rejected _ =>
      ({| farms := farms st; loading := loading st;
          error := Some "Failed to delete farm" |}, false)
  end.

End Hook.

End useFarms.

Module useSensorData.

Record State := {
  latestData : option SensorData.t;
  history : list SensorData.t;
  loading : bool;
  error : option string
}.

(** [insertSensorData], given the answer of the insert. *)
Definition insertSensorData (answer : Promise (Response.t SensorData.t))
    (st : State) : State * option SensorData.t :=
  match DatabaseService.insertSensorData answer with
  | Fulfilled (Some newData) =>
      ({| latestData := Some newData;
          history := newData :: firstn 49 (history st);
          loading := loading st; error := error st |}, Some newData)
  | Fulfilled None => (st, None)
  | Rejected _ =>
      ({| latestData := latestData st; history := history st;
          loading := loading st;
          error := Some "Failed to insert sensor data" |}, None)
  end.

End useSensorData.

(** ** Signing in: the name the user is greeted with *)

Module Login.

Definition isLetter (c : ascii) : bool :=
  let n := JS.code c in
  ((65 <=? n)%Z && (n <=? 90)%Z) || ((97 <=? n)%Z && (n <=? 122)%Z).

(** The class [\w]. *)
Definition isWord (c : ascii) : bool :=
  let n := JS.code c in
  isLetter c || ((48 <=? n)%Z && (n <=? 57)%Z) || (n =? 95)%Z.

(** [toUpperCase] on one character of the class [\w]. *)
Definition toUpperCase (c : ascii) : ascii :=
  let n := JS.code c in
  if ((97 <=? n)%Z && (n <=? 122)%Z)%bool
  then ascii_of_N (Z.to_N (n - 32)) else c.

(** [s.split('@')[0]] *)
Fixpoint beforeAt (s : string) : string :=
  match s with
  | EmptyString => EmptyString
  | String c r => if Ascii.eqb c "@" then EmptyString else String c (beforeAt r)
  end.

(** [s.replace(/[^a-zA-Z\s]/g, '')]: the letters and the white space of [s].
    [pending] counts the bytes still to copy of a white-space code point
    whose first byte has been copied. *)
Fixpoint lettersAndSpaces (pending : nat) (s : string) : string :=
  match s with
  | EmptyString => EmptyString
  | String c r =>
      match pending with
      | S pending' => String c (lettersAndSpaces pending' r)
      | O =>
          match
            JS.first_some
              (fun w => match JS.strip_prefix w s with
                        | Some _ => Some (String.length w)
                        | None => None
                        end) JS.white_space
          with
          | Some n => String c (lettersAndSpaces (Nat.pred n) r)
          | None =>
              if isLetter c then String c (lettersAndSpaces O r)
              else lettersAndSpaces O r
          end
      end
  end.

(** [s.replace(/\b\w/g, l => l.toUpperCase())]: [afterWord] tells whether
    the character before [s] is of the class [\w]. *)
Fixpoint capitalize (afterWord : bool) (s : string) : string :=
  match s with
  | EmptyString => EmptyString
  | String c r =>
      String (if (isWord c && negb afterWord)%bool then toUpperCase c else c)
        (capitalize (isWord c) r)
  end.

(** The name made from the e-mail address. *)
Definition emailName (email : string) : string :=
  let name := capitalize false (lettersAndSpaces O (beforeAt email)) in
  if String.eqb name "" then "Farmer" else name.


End Login.

(** *** Sample farms and readings *)

Definition northFarm : Farm.t :=
  {| Farm.id := "farm-1";
     Farm.user_id := "user-1";
     Farm.name := "North field";
     Farm.location := None;
     Farm.size := 2;
     Farm.size_unit := "hectares";
     Farm.soil_type := Some "Black";
     Farm.created_at := "2024-05-01T08:00:00.000Z";
     Farm.updated_at := "2024-05-01T08:00:00.000Z" |}.

Definition southFarm : Farm.t :=
  {| Farm.id := "farm-2";
     Farm.user_id := "user-1";
     Farm.name := "South field";
     Farm.location := Some "Nashik";
     Farm.size := 5;
     Farm.size_unit := "acres";
     Farm.soil_type := None;
     Farm.created_at := "2024-05-02T08:00:00.000Z";
     Farm.updated_at := "2024-05-02T08:00:00.000Z" |}.

Definition southData : FarmData.t :=
  {| FarmData.user_id := "";
     FarmData.name := "South field";
     FarmData.location := Some "Nashik";
     FarmData.size := 5;
     FarmData.size_unit := "acres";
     FarmData.soil_type := None |}.

Definition oneFarm : useFarms.State :=
  {| useFarms.farms := [northFarm];
     useFarms.loading := false;
     useFarms.error := None |}.

Definition goodSoil : SoilAnalysis.t :=
  {| SoilAnalysis.id := "a1";
     SoilAnalysis.farm_id := "farm-1";
     SoilAnalysis.user_id := "user-1";
     SoilAnalysis.ph_level := Some 6.5%float;
     SoilAnalysis.nitrogen := Some 45%float;
     SoilAnalysis.phosphorus := Some 25%float;
     SoilAnalysis.potassium := Some 180%float;
     SoilAnalysis.organic_matter := None;
     SoilAnalysis.moisture := Some 70%float;
     SoilAnalysis.temperature := None;
     SoilAnalysis.humidity := None;
     SoilAnalysis.analysis_date := "2024-05-01";
     SoilAnalysis.created_at := "2024-05-01T08:00:00.000Z" |}.

Definition reading : SensorData.t :=
  {| SensorData.id := "s1";
     SensorData.farm_id := Some "farm-1";
     SensorData.user_id := Some "user-1";
     SensorData.sensor_type := "soil";
     SensorData.nitrogen := Some 42%float;
     SensorData.phosphorus := None;
     SensorData.potassium := None;
     SensorData.ph_level := Some 6.4%float;
     SensorData.soil_moisture := Some 55%float;
     SensorData.temperature := None;
     SensorData.humidity := None;
     SensorData.timestamp := "2024-06-01T10:00:00.000Z";
     SensorData.created_at := "2024-06-01T10:00:00.000Z" |}.

Definition fullHistory : useSensorData.State :=
  {| useSensorData.latestData := None;
     useSensorData.history := repeat reading 50;
     useSensorData.loading := false;
     useSensorData.error := None |}.

(** The scenario with the crop and the soil given by name, not by code. *)
Definition namedCodes : FormData.t :=
  {| FormData.fieldName := "North field";
     FormData.fieldSize := "2";
     FormData.sizeUnit := "hectares";
     FormData.cropType := "Sugarcane";
     FormData.soilPH := "5.5";
     FormData.nitrogen := "20";
     FormData.phosphorus := "10";
     FormData.potassium := "100";
     FormData.soilType := "Black";
     FormData.temperature := "25";
     FormData.humidity := "60";
     FormData.soilMoisture := "30" |}.

(** ** The built-ins on sample arguments *)

Example parseFloat_samples :
  map JS.parseFloat
    [ "2"; "5.5"; "0.404686"; "  -12.5e-3 ha"; "5."; ".5"; "1e400"; "-0";
      "Infinity"; "two"; ""; "." ]
  = [ 2; 5.5; 0.404686; -0.0125; 5; 0.5; infinity; -0; infinity; nan; nan;
      nan ]%float.
Proof. vm_compute. reflexivity. Qed.

Example parseInt_samples :
  map JS.parseInt ["1"; "12abc"; "0x1F"; " -7.9"; ""; "Maize"]
  = [1; 12; 31; -7; nan; nan]%float.
Proof. vm_compute. reflexivity. Qed.

Example Math_round_samples :
  map JS.Math_round
    [ 2.5; -2.5; 0.5; 0.49999999999999994; -0.5; -0.2; -3.5; -3.6; 809.372;
      4503599627370495.5; 1e300; nan; infinity ]%float
  = [ 3; -2; 1; 0; -0; -0; -3; -4; 809; 4503599627370496; 1e300; nan;
      infinity ]%float.
Proof. vm_compute. reflexivity. Qed.

Example Number_toString_samples :
  map JS.Number_toString
    [ 200; 0; -0; nan; infinity; 0.1; -12.25; 123456.789; 1e21;
      123456789012345680000; 1e23; 0.000001; 1e-7; 5e-324;
      1.7976931348623157e308 ]%float
  = [ "200"; "0"; "0"; "NaN"; "Infinity"; "0.1"; "-12.25"; "123456.789";
      "1e+21"; "123456789012345680000"; "1e+23"; "0.000001"; "1e-7";
      "5e-324"; "1.7976931348623157e+308" ].
Proof. vm_compute. reflexivity. Qed.

Example toLocaleString_samples :
  map JS.toLocaleString_en_IN
    [8000; 17000; 100000; 12345678; 999; 0; nan; infinity; 1234.5;
     1180591620717411303424; 0.0005; -2.5]%float
  = [ "8,000"; "17,000"; "1,00,000"; "1,23,45,678"; "999"; "0"; "NaN"; "∞";
      "1,234.5"; "1,18,05,91,62,07,17,41,13,00,000"; "0.001"; "-2.5" ].
Proof. vm_compute. reflexivity. Qed.

Example get_samples :
  map (JS.get sampleInfo) ["Urea"; "Gypsum"; "constructor"; "__proto__"]
  = [ JS.Own {| FertilizerInfo.description := "High nitrogen fertilizer";
                FertilizerInfo.application := "Apply in split doses";
                FertilizerInfo.npk := "46-0-0" |};
      JS.Undefined; JS.Inherited; JS.Inherited ].
Proof. vm_compute. reflexivity. Qed.

(** The end-to-end scenario of the specification: 2 hectares, acidic dry
    soil short of all three nutrients, and the classifier answering Urea. *)
Example scenario_end_to_end :
  generateEnhancedRecommendations (predicts "Urea" 87) sampleInfo sampleCrops
    sampleSoils scenario
  = Fulfilled
      {| EnhancedRecommendation.primaryFertilizer :=
           {| Fertilizer.name := "Urea";
              Fertilizer.amount := "200 kg";
              Fertilizer.reason := Some "High nitrogen fertilizer";
              Fertilizer.applicationMethod := Some "Apply in split doses" |};
         EnhancedRecommendation.secondaryFertilizer :=
           {| Fertilizer.name := "DAP";
              Fertilizer.amount := "100 kg";
              Fertilizer.reason :=
                Some
                  "Addresses phosphorus deficiency identified in soil analysis";
              Fertilizer.applicationMethod :=
                Some "Apply as basal dose during soil preparation" |};
         EnhancedRecommendation.organicOptions :=
           [ {| OrganicOption.name := "Vermicompost";
                OrganicOption.amount := "2000 kg";
                OrganicOption.benefits :=
                  "Rich in nutrients, improves soil structure and water retention";
                OrganicOption.applicationTiming :=
                  "Apply 3-4 weeks before planting" |};
             {| OrganicOption.name := "Neem Cake";
                OrganicOption.amount := "400 kg";
                OrganicOption.benefits :=
                  "Natural pest deterrent and slow-release nitrogen source";
                OrganicOption.applicationTiming :=
                  "Apply at the time of land preparation" |};
             {| OrganicOption.name := "Bone Meal";
                OrganicOption.amount := "300 kg";
                OrganicOption.benefits :=
                  "Excellent source of phosphorus and calcium";
                OrganicOption.applicationTiming :=
                  "Apply as basal dose before sowing" |} ];
         EnhancedRecommendation.applicationTiming := applicationTiming;
         EnhancedRecommendation.costEstimate :=
           {| CostEstimate.primary := "₹8,000";
              CostEstimate.secondary := "₹5,000";
              CostEstimate.organic := "₹4,000";
              CostEstimate.total := "₹17,000" |};
         EnhancedRecommendation.soilConditionAnalysis :=
           {| SoilConditionAnalysis.phStatus := "Acidic";
              SoilConditionAnalysis.nutrientDeficiency :=
                ["Nitrogen"; "Phosphorus"; "Potassium"];
              SoilConditionAnalysis.moistureStatus := "Low";
              SoilConditionAnalysis.recommendations :=
                [ "Adjust soil pH using lime";
                  "Increase irrigation frequency";
                  "Address Nitrogen, Phosphorus, Potassium deficiency";
                  "Regular soil testing every 6 months is recommended";
                  "Consider crop rotation to maintain soil health" ] |};
         EnhancedRecommendation.mlPrediction :=
           {| MLPrediction.fertilizer := "Urea";
              MLPrediction.confidence := 87 |} |}.
Proof. vm_compute. reflexivity. Qed.

(** ** Comparison of Numbers

    [<] on Numbers is the order of [SFcompare]: a strict order in which NaN
    is below and above nothing. *)

Local Ltac compare_cases :=
  repeat match goal with
    | |- context [Pos.compare_cont Eq ?a ?b] =>
        change (Pos.compare_cont Eq a b) with (Pos.compare a b);
        destruct (Pos.compare_spec a b)
    | |- context [Z.compare ?a ?b] => destruct (Z.compare_spec a b)
    | H : context [Pos.compare_cont Eq ?a ?b] |- _ =>
        change (Pos.compare_cont Eq a b) with (Pos.compare a b) in H;
        destruct (Pos.compare_spec a b)
    | H : context [Z.compare ?a ?b] |- _ => destruct (Z.compare_spec a b)
    end.

Lemma SFltb_trans (x y z : spec_float) :
  SFltb x y = true -> SFltb y z = true -> SFltb x z = true.
Proof.
  unfold SFltb, SFcompare.
  destruct x as [[]|[]| |[] mx ex], y as [[]|[]| |[] my ey],
    z as [[]|[]| |[] mz ez]; try discriminate; try reflexivity;
    intros Hxy Hyz; compare_cases;
    simpl in *; try discriminate; try reflexivity; lia.
Qed.

Lemma SFltb_asym (x y : spec_float) :
  SFltb x y = true -> SFltb y x = false.
Proof.
  unfold SFltb, SFcompare.
  destruct x as [[]|[]| |[] mx ex], y as [[]|[]| |[] my ey];
    try discriminate; try reflexivity;
    intros Hxy; compare_cases;
    simpl in *; try discriminate; try reflexivity; lia.
Qed.

(** A Number below the lower edge of a band is not above its upper edge. *)
Lemma ltb_band (lo hi x : float) :
  (lo <? hi)%float = true -> (x <? lo)%float = true -> (hi <? x)%float = false.
Proof.
  rewrite !ltb_spec. intros Hband Hlo.
  apply SFltb_asym. exact (SFltb_trans _ _ _ Hlo Hband).
Qed.

(** ** Multiplication by one *)

Lemma digits2_pos_iter_xO (n : nat) (m : positive) :
  digits2_pos (Nat.iter n xO m)
  = (digits2_pos m + Pos.of_succ_nat n - 1)%positive.
Proof.
  induction n as [|n IH]; simpl.
  - lia.
  - rewrite IH. lia.
Qed.

Lemma SFmul_one_r (x : spec_float) :
  valid_binary x = true ->
  SF64mul x (S754_finite false 4503599627370496 (-52)) = x.
Proof.
  destruct x as [s|s| |s m e]; simpl; intros Hv;
    try (destruct s; reflexivity); try reflexivity.
  unfold bounded, canonical_mantissa in Hv.
  apply andb_prop in Hv as [Hc He]. apply Z.eqb_eq in Hc.
  unfold binary_round_aux, shr_fexp.
  rewrite xorb_false_r.
  replace (m * 4503599627370496)%positive with (Nat.iter 52 xO m)
    by (simpl; lia).
  unfold Zdigits2. rewrite digits2_pos_iter_xO.
  replace (Z.pos (digits2_pos m + Pos.of_succ_nat 52 - 1) + (e + -52))
    with (Z.pos (digits2_pos m) + e) by lia.
  rewrite Hc.
  replace (e - (e + -52)) with 52 by lia.
  cbn -[fexp Z.sub Z.add Z.leb].
  unfold Zdigits2. replace (e + -52 + 52) with e by lia.
  rewrite Hc, Z.sub_diag. cbn -[Z.sub Z.leb]. rewrite He. reflexivity.
Qed.

Lemma mul_one_r (x : float) : (x * 1)%float = x.
Proof.
  apply Prim2SF_inj. rewrite mul_spec.
  change (Prim2SF 1) with (S754_finite false 4503599627370496 (-52)).
  apply SFmul_one_r, Prim2SF_valid.
Qed.

(** ** Membership in the deficiency list *)

Lemma includes_In (l : list string) (x : string) :
  includes l x = true <-> In x l.
Proof.
  unfold includes. rewrite existsb_exists. split.
  - intros (y & Hy & Heq). apply String.eqb_eq in Heq. now subst.
  - intros Hx. exists x. split; [assumption | apply String.eqb_refl].
Qed.

Lemma includes_not_In (l : list string) (x : string) :
  includes l x = false <-> ~ In x l.
Proof.
  rewrite <- includes_In. destruct (includes l x); split; intros H;
    try reflexivity; try discriminate; try (intros H'; discriminate).
  now destruct H.
Qed.

(** ** Properties of the engine *)

(** C1: the secondary fertilizer is chosen by fixed priority, one winner:
    DAP with amount round(50 a) when Phosphorus is in the deficiency list;
    otherwise Potassium sulfate with round(40 a) when Potassium is;
    otherwise Organic Compost with round(1000 a).  The choice depends on the
    Phosphorus and Potassium flags only, so a Nitrogen flag never changes
    it. *)
Theorem secondary_by_priority (deficiency : list string) (a : float) :
  let s := secondaryFertilizer deficiency a in
  (In "Phosphorus" deficiency ->
     Fertilizer.name s = "DAP"
     /\ Fertilizer.amount s = kg (JS.Math_round (50 * a)))
  /\ (~ In "Phosphorus" deficiency -> In "Potassium" deficiency ->
      Fertilizer.name s = "Potassium sulfate"
      /\ Fertilizer.amount s = kg (JS.Math_round (40 * a)))
  /\ (~ In "Phosphorus" deficiency -> ~ In "Potassium" deficiency ->
      Fertilizer.name s = "Organic Compost"
      /\ Fertilizer.amount s = kg (JS.Math_round (1000 * a)))
  /\ secondaryFertilizer ("Nitrogen" :: deficiency) a = s
  /\ secondaryFertilizer (filter (fun x => negb (String.eqb x "Nitrogen"))
                            deficiency) a = s.
Proof.
  intros s. subst s. unfold secondaryFertilizer.
  split; [|split; [|split; [|split]]].
  - intros HP. apply includes_In in HP. now rewrite HP.
  - intros HP HK. apply includes_not_In in HP. apply includes_In in HK.
    now rewrite HP, HK.
  - intros HP HK. apply includes_not_In in HP, HK. now rewrite HP, HK.
  - reflexivity.
  - assert (Hf : forall x, x <> "Nitrogen" ->
              includes (filter (fun y => negb (String.eqb y "Nitrogen"))
                          deficiency) x = includes deficiency x).
    { intros x Hx. induction deficiency as [|y l IH]; [reflexivity|].
      simpl. destruct (String.eqb_spec y "Nitrogen") as [->|Hy]; simpl.
      - rewrite IH. destruct (String.eqb_spec x "Nitrogen"); [contradiction|].
        reflexivity.
      - now rewrite IH. }
    rewrite !Hf by discriminate. reflexivity.
Qed.

Lemma secondary_by_priority_witness :
  Fertilizer.name (secondaryFertilizer ["Nitrogen"; "Potassium"] 2)
  = "Potassium sulfate"
  /\ Fertilizer.amount (secondaryFertilizer ["Nitrogen"; "Potassium"] 2)
     = "80 kg".
Proof.
  apply (secondary_by_priority ["Nitrogen"; "Potassium"] 2).
  - intros [H|[H|[]]]; discriminate.
  - right. left. reflexivity.
Defined.

(** C3: the soil assessment classifies each reading on its own against fixed
    thresholds.  pH below 6.0 is Acidic, above 7.5 Alkaline, and Optimal
    otherwise (5.9 Acidic, 6.0 and 7.5 Optimal, 7.6 Alkaline); moisture below
    40 is Low, above 80 High, and Optimal otherwise; the deficiency list holds
    Nitrogen iff nitrogen < 30, Phosphorus iff phosphorus < 15 and Potassium
    iff potassium < 120, in the order N, P, K. *)
Theorem soil_assessment_thresholds
    (pH moisture nitrogen phosphorus potassium : float) :
  (phStatus pH = "Acidic" <-> (pH <? 6.0)%float = true)
  /\ (phStatus pH = "Alkaline" <-> (7.5 <? pH)%float = true)
  /\ (phStatus pH = "Optimal"
      <-> (pH <? 6.0)%float = false /\ (7.5 <? pH)%float = false)
  /\ (moistureStatus moisture = "Low" <-> (moisture <? 40)%float = true)
  /\ (moistureStatus moisture = "High" <-> (80 <? moisture)%float = true)
  /\ (moistureStatus moisture = "Optimal"
      <-> (moisture <? 40)%float = false /\ (80 <? moisture)%float = false)
  /\ nutrientDeficiency nitrogen phosphorus potassium
     = ((if (nitrogen <? 30)%float then ["Nitrogen"] else [])
        ++ (if (phosphorus <? 15)%float then ["Phosphorus"] else [])
        ++ (if (potassium <? 120)%float then ["Potassium"] else []))%list
  /\ (In "Nitrogen" (nutrientDeficiency nitrogen phosphorus potassium)
      <-> (nitrogen <? 30)%float = true)
  /\ (In "Phosphorus" (nutrientDeficiency nitrogen phosphorus potassium)
      <-> (phosphorus <? 15)%float = true)
  /\ (In "Potassium" (nutrientDeficiency nitrogen phosphorus potassium)
      <-> (potassium <? 120)%float = true)
  /\ map phStatus (map JS.parseFloat ["5.9"; "6.0"; "7.5"; "7.6"])
     = ["Acidic"; "Optimal"; "Optimal"; "Alkaline"].
Proof.
  assert (HpH := ltb_band 6.0 7.5 pH eq_refl).
  assert (Hm := ltb_band 40 80 moisture eq_refl).
  unfold phStatus, moistureStatus, nutrientDeficiency.
  destruct (pH <? 6.0)%float;
    [rewrite (HpH eq_refl) | destruct (7.5 <? pH)%float];
    (destruct (moisture <? 40)%float;
     [rewrite (Hm eq_refl) | destruct (80 <? moisture)%float]);
    destruct (nitrogen <? 30)%float, (phosphorus <? 15)%float,
      (potassium <? 120)%float;
    cbn [app In];
    repeat match goal with |- _ /\ _ => split end;
    try reflexivity;
    try (split; [reflexivity | discriminate]);
    try (split; discriminate);
    try (split; [discriminate | intros []; discriminate]);
    try (split; [intros _; split; reflexivity | reflexivity]);
    try (split; [intros _; reflexivity | intros _; tauto]);
    try (split; [intros H; repeat destruct H as [H|H]; try discriminate H;
                 try contradiction
                | discriminate]).
Qed.

(** C5: unit normalization multiplies the size by the multiplier of the unit:
    1 for hectares, 0.404686 for acres, 0.1338 for bigha, and the hectares
    multiplier for any other unit string; it is a total function, so no unit
    is an error. *)
Theorem convertToHectares_multiplier (s : float) (u : string) :
  convertToHectares s u = (s * multiplier u)%float
  /\ multiplier "hectares" = 1%float
  /\ multiplier "acres" = 0.404686%float
  /\ multiplier "bigha" = 0.1338%float
  /\ (u <> "hectares" /\ u <> "acres" /\ u <> "bigha" ->
      multiplier u = multiplier "hectares" /\ convertToHectares s u = s).
Proof.
  unfold convertToHectares, multiplier.
  split; [|split; [|split; [|split]]]; try reflexivity.
  - destruct (String.eqb u "acres"); [reflexivity|].
    destruct (String.eqb u "bigha"); [reflexivity|].
    rewrite mul_one_r. now destruct (String.eqb u "hectares").
  - intros (Hh & Ha & Hb).
    apply String.eqb_neq in Hh, Ha, Hb. rewrite Hh, Ha, Hb.
    split; reflexivity.
Qed.

Lemma convertToHectares_multiplier_witness :
  multiplier "gunta" = multiplier "hectares"
  /\ convertToHectares 3 "gunta" = 3%float.
Proof.
  apply (convertToHectares_multiplier 3 "gunta").
  repeat split; discriminate.
Defined.

(** C8: the organic options are exactly three, in the order Vermicompost,
    Neem Cake, Bone Meal, with amounts round(1000 a), round(200 a) and
    round(150 a), and fixed benefits and timing texts. *)
Theorem organicOptions_catalog (a : float) :
  List.length (organicOptions a) = 3%nat
  /\ map OrganicOption.name (organicOptions a)
     = ["Vermicompost"; "Neem Cake"; "Bone Meal"]
  /\ map OrganicOption.amount (organicOptions a)
     = [ kg (JS.Math_round (1000 * a)); kg (JS.Math_round (200 * a));
         kg (JS.Math_round (150 * a)) ]
  /\ map OrganicOption.benefits (organicOptions a)
     = [ "Rich in nutrients, improves soil structure and water retention";
         "Natural pest deterrent and slow-release nitrogen source";
         "Excellent source of phosphorus and calcium" ]
  /\ map OrganicOption.applicationTiming (organicOptions a)
     = [ "Apply 3-4 weeks before planting";
         "Apply at the time of land preparation";
         "Apply as basal dose before sowing" ].
Proof.
  repeat split.
Qed.

Lemma recommendations_shape
    (pH moisture nitrogen phosphorus potassium : float) :
  let d := nutrientDeficiency nitrogen phosphorus potassium in
  recommendations pH (phStatus pH) (moistureStatus moisture) d
  = [ if (pH <? 6.0)%float then "Adjust soil pH using lime"
      else if (7.5 <? pH)%float then "Adjust soil pH using sulfur"
      else "Maintain current pH levels";
      if (moisture <? 40)%float then "Increase irrigation frequency"
      else if (80 <? moisture)%float then "Improve drainage"
      else "Maintain current moisture levels";
      match d with
      | [] => "Nutrient levels are adequate"
      | _ => "Address " +:+ join ", " d +:+ " deficiency"
      end;
      "Regular soil testing every 6 months is recommended";
      "Consider crop rotation to maintain soil health" ].
Proof.
  unfold recommendations, phStatus, moistureStatus, nutrientDeficiency.
  destruct (pH <? 6.0)%float, (7.5 <? pH)%float, (moisture <? 40)%float,
    (80 <? moisture)%float, (nitrogen <? 30)%float, (phosphorus <? 15)%float,
    (potassium <? 120)%float; reflexivity.
Qed.

Section EngineProperties.

Variable predictFertilizer : MLInput.t -> Promise MLPrediction.t.
Variable FERTILIZER_INFO : gmap string FertilizerInfo.t.
Variable CROP_TYPES : list (string * float).
Variable SOIL_TYPES : list (string * float).

Local Abbreviation assemble := (assemble FERTILIZER_INFO CROP_TYPES SOIL_TYPES).
Local Abbreviation generate :=
  (generateEnhancedRecommendations predictFertilizer FERTILIZER_INFO
     CROP_TYPES SOIL_TYPES).

(** The engine answers exactly when the classifier does. *)
Lemma generate_fulfilled (data : FormData.t) (p : MLPrediction.t) :
  predictFertilizer (mlInputOf data) = Fulfilled p ->
  generate data = Fulfilled (assemble data p).
Proof.
  unfold generateEnhancedRecommendations. now intros ->.
Qed.

Lemma generate_rejected (data : FormData.t) (reason : string) :
  generate data = Rejected reason
  <-> predictFertilizer (mlInputOf data) = Rejected reason.
Proof.
  unfold generateEnhancedRecommendations.
  destruct (predictFertilizer (mlInputOf data)); split; intros H;
    try discriminate; now inversion H.
Qed.

(** C7: for every input the soil-condition recommendations are exactly five,
    in a fixed order: the pH advice (lime below 6.0, sulfur above 7.5,
    maintain otherwise), the moisture advice, the deficiency advice naming
    the deficient nutrients or saying that levels are adequate, the six-month
    soil-testing reminder and the crop-rotation reminder. *)
Theorem recommendations_five (data : FormData.t) (p : MLPrediction.t) :
  let pH := JS.parseFloat (FormData.soilPH data) in
  let moisture := JS.parseFloat (FormData.soilMoisture data) in
  let analysis :=
    EnhancedRecommendation.soilConditionAnalysis (assemble data p) in
  let d := SoilConditionAnalysis.nutrientDeficiency analysis in
  let r := SoilConditionAnalysis.recommendations analysis in
  List.length r = 5%nat
  /\ r = [ if (pH <? 6.0)%float then "Adjust soil pH using lime"
           else if (7.5 <? pH)%float then "Adjust soil pH using sulfur"
           else "Maintain current pH levels";
           if (moisture <? 40)%float then "Increase irrigation frequency"
           else if (80 <? moisture)%float then "Improve drainage"
           else "Maintain current moisture levels";
           match d with
           | [] => "Nutrient levels are adequate"
           | _ => "Address " +:+ join ", " d +:+ " deficiency"
           end;
           "Regular soil testing every 6 months is recommended";
           "Consider crop rotation to maintain soil health" ].
Proof.
  cbn zeta. cbn [assemble EnhancedRecommendation.soilConditionAnalysis
    SoilConditionAnalysis.nutrientDeficiency
    SoilConditionAnalysis.recommendations].
  rewrite recommendations_shape. split; reflexivity.
Qed.

(** The primary fertilizer is named by the predicted label and its amount is
    round(100 a).  Its reason and application method follow the lookup of
    the label in the metadata table: the entry's texts for a label the table
    holds; the templated sentence naming the crop and the soil type, and the
    generic instruction (the literal of the source starts with a capital:
    "Apply as per standard agricultural practices"), for a label the lookup
    does not find; and undefined for a label that names an inherited
    member. *)
Lemma primaryFertilizer_by_lookup (data : FormData.t) (p : MLPrediction.t) :
  let f := EnhancedRecommendation.primaryFertilizer (assemble data p) in
  let cropName := nameOf CROP_TYPES (JS.parseInt (FormData.cropType data)) in
  let soilName := nameOf SOIL_TYPES (JS.parseInt (FormData.soilType data)) in
  Fertilizer.name f = MLPrediction.fertilizer p
  /\ Fertilizer.amount f = kg (JS.Math_round (100 * hectaresOf data))
  /\ match JS.get FERTILIZER_INFO (MLPrediction.fertilizer p) with
     | JS.Own info =>
         Fertilizer.reason f = Some (FertilizerInfo.description info)
         /\ Fertilizer.applicationMethod f
            = Some (FertilizerInfo.application info)
     | JS.Inherited =>
         Fertilizer.reason f = None /\ Fertilizer.applicationMethod f = None
     | JS.Undefined =>
         Fertilizer.reason f
         = Some ("ML model recommends this fertilizer for " +:+ cropName
                 +:+ " in " +:+ soilName +:+ " soil")
         /\ Fertilizer.applicationMethod f
            = Some "Apply as per standard agricultural practices"
     end.
Proof.
  cbn zeta. cbn [assemble EnhancedRecommendation.primaryFertilizer
    primaryFertilizer Fertilizer.name Fertilizer.amount Fertilizer.reason
    Fertilizer.applicationMethod].
  split; [reflexivity|]. split; [reflexivity|].
  destruct (JS.get FERTILIZER_INFO (MLPrediction.fertilizer p));
    split; reflexivity.
Qed.

(** C10: the classifier's output passes through unmodified.  The
    [mlPrediction] field of the recommendation is the prediction received
    (label and confidence), the primary fertilizer is named by its label, and
    when the classifier gives no prediction the engine gives no
    recommendation. *)
Theorem prediction_passes_through (data : FormData.t) :
  match predictFertilizer (mlInputOf data) with
  | Fulfilled p =>
      exists r, generate data = Fulfilled r
        /\ EnhancedRecommendation.mlPrediction r = p
        /\ MLPrediction.fertilizer (EnhancedRecommendation.mlPrediction r)
           = MLPrediction.fertilizer p
        /\ MLPrediction.confidence (EnhancedRecommendation.mlPrediction r)
           = MLPrediction.confidence p
        /\ Fertilizer.name (EnhancedRecommendation.primaryFertilizer r)
           = MLPrediction.fertilizer p
  | Rejected reason => generate data = Rejected reason
  end.
Proof.
  unfold generateEnhancedRecommendations.
  destruct (predictFertilizer (mlInputOf data)) as [p|reason].
  - eexists. split; [reflexivity|]. repeat split.
  - reflexivity.
Qed.

End EngineProperties.

(** C6: the fallback for a label without metadata misses the names every
    object inherits.  The table does not hold the label "constructor"; the
    primary fertilizer for it still has the label as name and round(100 a)
    as amount, and nothing is raised, but its reason and its application
    method are undefined: not the templated sentence and the generic
    instruction, which a label such as "Gypsum" gets. *)
Theorem primary_fertilizer_inherited_label :
  let primary label :=
    EnhancedRecommendation.primaryFertilizer
      (assemble sampleInfo sampleCrops sampleSoils scenario
         {| MLPrediction.fertilizer := label;
            MLPrediction.confidence := 61 |}) in
  sampleInfo !! "constructor" = None
  /\ Fertilizer.name (primary "constructor") = "constructor"
  /\ Fertilizer.amount (primary "constructor") = "200 kg"
  /\ Fertilizer.reason (primary "constructor") = None
  /\ Fertilizer.applicationMethod (primary "constructor") = None
  /\ sampleInfo !! "Gypsum" = None
  /\ Fertilizer.reason (primary "Gypsum")
     = Some "ML model recommends this fertilizer for Sugarcane in Black soil"
  /\ Fertilizer.applicationMethod (primary "Gypsum")
     = Some "Apply as per standard agricultural practices".
Proof.
  cbn zeta.
  repeat match goal with |- _ /\ _ => split end; vm_compute; reflexivity.
Qed.

(** ** Input validation *)

Lemma hectares_nan (data : FormData.t) :
  JS.parseFloat (FormData.fieldSize data) = nan -> hectaresOf data = nan.
Proof.
  unfold hectaresOf, convertToHectares. intros ->.
  destruct (String.eqb _ "acres"); [reflexivity|].
  destruct (String.eqb _ "bigha"); [reflexivity|].
  destruct (String.eqb _ "hectares"); reflexivity.
Qed.

(** C2, as the code has it: the engine does not validate the form.  For
    every input, valid or not, it produces a recommendation whenever the
    classifier call is fulfilled, and it fails only when that call is
    rejected, with the classifier's reason.  A field that does not parse is
    not replaced by a default either: it is carried as NaN, so that a field
    size that is not a number gives the amounts "NaN kg" and the costs
    "₹NaN", and a reading that is not a number is below no threshold (status
    Optimal, no deficiency flagged); the field size is scaled as it was
    parsed, whatever its sign. *)
Theorem no_input_validation
    (predictFertilizer : MLInput.t -> Promise MLPrediction.t)
    (FERTILIZER_INFO : gmap string FertilizerInfo.t)
    (CROP_TYPES SOIL_TYPES : list (string * float)) (data : FormData.t) :
  let generate :=
    generateEnhancedRecommendations predictFertilizer FERTILIZER_INFO
      CROP_TYPES SOIL_TYPES in
  let assemble := assemble FERTILIZER_INFO CROP_TYPES SOIL_TYPES in
  (forall p, predictFertilizer (mlInputOf data) = Fulfilled p ->
     generate data = Fulfilled (assemble data p))
  /\ (forall reason, generate data = Rejected reason
        <-> predictFertilizer (mlInputOf data) = Rejected reason)
  /\ (JS.parseFloat (FormData.fieldSize data) = nan ->
      forall p,
        let r := assemble data p in
        Fertilizer.amount (EnhancedRecommendation.primaryFertilizer r)
        = "NaN kg"
        /\ Fertilizer.amount (EnhancedRecommendation.secondaryFertilizer r)
           = "NaN kg"
        /\ map OrganicOption.amount (EnhancedRecommendation.organicOptions r)
           = ["NaN kg"; "NaN kg"; "NaN kg"]
        /\ EnhancedRecommendation.costEstimate r
           = {| CostEstimate.primary := "₹NaN";
                CostEstimate.secondary := "₹NaN";
                CostEstimate.organic := "₹NaN";
                CostEstimate.total := "₹NaN" |})
  /\ (forall p,
        Fertilizer.amount
          (EnhancedRecommendation.primaryFertilizer (assemble data p))
        = kg (JS.Math_round
                (100 * convertToHectares
                         (JS.parseFloat (FormData.fieldSize data))
                         (FormData.sizeUnit data))))
  /\ phStatus nan = "Optimal"
  /\ moistureStatus nan = "Optimal"
  /\ nutrientDeficiency nan nan nan = [].
Proof.
  cbn zeta. split; [|split; [|split; [|split]]].
  - apply generate_fulfilled.
  - apply generate_rejected.
  - intros Hnan p.
    cbn [assemble EnhancedRecommendation.primaryFertilizer
      EnhancedRecommendation.secondaryFertilizer
      EnhancedRecommendation.organicOptions
      EnhancedRecommendation.costEstimate].
    rewrite (hectares_nan data Hnan).
    unfold secondaryFertilizer.
    destruct (includes _ "Phosphorus"); [|destruct (includes _ "Potassium")];
      repeat split.
  - reflexivity.
  - repeat split.
Qed.

Lemma no_input_validation_witness :
  Fertilizer.amount
    (EnhancedRecommendation.primaryFertilizer
       (assemble sampleInfo sampleCrops sampleSoils unparsable
          {| MLPrediction.fertilizer := "Urea";
             MLPrediction.confidence := 87 |}))
  = "NaN kg".
Proof.
  destruct (no_input_validation (predicts "Urea" 87) sampleInfo sampleCrops
              sampleSoils unparsable) as (_ & _ & Hnan & _).
  apply Hnan. vm_compute. reflexivity.
Defined.

(** C2, as the specification states it, fails: a form whose field size is
    not a number, or is negative, is invalid, and the engine still returns a
    recommendation for it. *)
Lemma invalid_input_accepted :
  invalidInput unparsable = true
  /\ invalidInput negativeSize = true
  /\ (exists r,
        generateEnhancedRecommendations (predicts "Urea" 87) sampleInfo
          sampleCrops sampleSoils unparsable = Fulfilled r
        /\ Fertilizer.amount (EnhancedRecommendation.primaryFertilizer r)
           = "NaN kg"
        /\ Fertilizer.name (EnhancedRecommendation.secondaryFertilizer r)
           = "DAP")
  /\ (exists r,
        generateEnhancedRecommendations (predicts "Urea" 87) sampleInfo
          sampleCrops sampleSoils negativeSize = Fulfilled r
        /\ Fertilizer.amount (EnhancedRecommendation.primaryFertilizer r)
           = "-200 kg"
        /\ CostEstimate.total (EnhancedRecommendation.costEstimate r)
           = "₹-17,000").
Proof.
  split; [reflexivity|]. split; [reflexivity|]. split.
  - eexists. split; [reflexivity|]. split; reflexivity.
  - eexists. split; [reflexivity|]. split; reflexivity.
Qed.

(** ** Rounding to binary64

    What [SpecFloat]'s reference rounding computes, in integers: shifting a
    mantissa right by [n] bits keeps, next to the quotient, the bit shifted
    out last and whether any bit below it was set. *)

Lemma iter_pos_nat {A : Type} (f : A -> A) (p : positive) (x : A) :
  iter_pos f p x = Nat.iter (Pos.to_nat p) f x.
Proof.
  revert x. induction p as [p IH|p IH|]; intros x; cbn [iter_pos].
  - rewrite !IH, Pos2Nat.inj_xI.
    replace (S (2 * Pos.to_nat p)) with (Pos.to_nat p + S (Pos.to_nat p))%nat
      by lia.
    now rewrite Nat.iter_add, Nat.iter_succ_r.
  - rewrite !IH, Pos2Nat.inj_xO.
    replace (2 * Pos.to_nat p)%nat with (Pos.to_nat p + Pos.to_nat p)%nat
      by lia.
    now rewrite Nat.iter_add.
  - reflexivity.
Qed.

Lemma shr_inv_start (m : Z) :
  0 <= m -> shr_inv m 0 (shr_record_of_loc m loc_Exact).
Proof.
  intros Hm. split; [exact Hm|]. exists 0. simpl. split; [lia|].
  split; [lia|]. split; [discriminate | lia].
Qed.

Lemma shr_inv_step (m : Z) (n : nat) (mrs : shr_record) :
  shr_inv m n mrs -> shr_inv m (S n) (shr_1 mrs).
Proof.
  destruct mrs as [q r s]. intros (Hq & u & Hu & Hrange & Hs).
  simpl in Hq, Hu, Hs. unfold shr_inv.
  rewrite Nat2Z.inj_succ, Z.pow_succ_r by lia.
  set (P := 2 ^ Z.of_nat n) in *.
  assert (HP : 0 < P) by (apply Z.pow_pos_nonneg; lia).
  assert (Hs' : orb r s = true <-> 0 < Z.b2z r * P + u).
  { destruct r; simpl; [split; [lia | reflexivity]|].
    rewrite Hs. lia. }
  assert (Hu' : 0 <= Z.b2z r * P + u < 2 * P) by (destruct r; simpl; lia).
  destruct q as [|[q|q|]|q]; try lia; simpl;
    (split; [lia|]); exists (Z.b2z r * P + u); simpl;
    (split; [lia|]); (split; [exact Hu'|exact Hs']).
Qed.

Lemma shr_inv_iter (m : Z) (n : nat) (mrs : shr_record) :
  shr_inv m 0 mrs -> shr_inv m n (Nat.iter n shr_1 mrs).
Proof.
  intros H0. induction n as [|n IH]; [exact H0|].
  simpl. now apply shr_inv_step.
Qed.

(** Shifting by [n] bits and rounding to nearest, ties to even, lands within
    half a unit of the bit kept last. *)
Lemma round_nearest_even_inv (m : Z) (n : nat) (mrs : shr_record) :
  shr_inv m n mrs ->
  let q := round_nearest_even (shr_m mrs) (loc_of_shr_record mrs) in
  shr_m mrs <= q <= shr_m mrs + 1
  /\ - 2 ^ Z.of_nat n <= 2 * (q * 2 ^ Z.of_nat n) - 2 * m <= 2 ^ Z.of_nat n
  /\ (2 * shr_m mrs * 2 ^ Z.of_nat n = 2 * m -> q = shr_m mrs).
Proof.
  destruct mrs as [q r s]. intros (Hq & u & Hu & Hrange & Hs).
  simpl in Hq, Hu, Hs |- *.
  set (P := 2 ^ Z.of_nat n) in *.
  assert (HP : 0 < P) by (apply Z.pow_pos_nonneg; lia).
  destruct r, s; simpl in *.
  - assert (0 < u) by now apply Hs. lia.
  - assert (~ 0 < u) by (intros Hpos; apply Hs in Hpos; discriminate).
    destruct (Z.even q); lia.
  - assert (0 < u) by now apply Hs. lia.
  - assert (~ 0 < u) by (intros Hpos; apply Hs in Hpos; discriminate). lia.
Qed.

Lemma digits2_pos_bounds (m : positive) :
  2 ^ (Z.pos (digits2_pos m) - 1) <= Z.pos m < 2 ^ Z.pos (digits2_pos m).
Proof.
  induction m as [m IH|m IH|]; cbn [digits2_pos].
  - rewrite Pos2Z.inj_succ, Z.pow_succ_r by lia.
    replace (Z.succ (Z.pos (digits2_pos m)) - 1)
      with (Z.succ (Z.pos (digits2_pos m) - 1)) by lia.
    rewrite Z.pow_succ_r by lia. lia.
  - rewrite Pos2Z.inj_succ, Z.pow_succ_r by lia.
    replace (Z.succ (Z.pos (digits2_pos m)) - 1)
      with (Z.succ (Z.pos (digits2_pos m) - 1)) by lia.
    rewrite Z.pow_succ_r by lia. lia.
  - simpl. lia.
Qed.

Lemma digits2_pos_le (m : positive) (k : Z) :
  0 <= k -> Z.pos m < 2 ^ k -> Z.pos (digits2_pos m) <= k.
Proof.
  intros Hk Hm. destruct (digits2_pos_bounds m) as [Hlo _].
  assert (H : 2 ^ (Z.pos (digits2_pos m) - 1) < 2 ^ k) by lia.
  apply Z.pow_lt_mono_r_iff in H; lia.
Qed.

Lemma digits2_pos_gt (m : positive) (k : Z) :
  0 <= k -> 2 ^ k <= Z.pos m -> k < Z.pos (digits2_pos m).
Proof.
  intros Hk Hm. destruct (digits2_pos_bounds m) as [_ Hhi].
  assert (H : 2 ^ k < 2 ^ Z.pos (digits2_pos m)) by lia.
  apply Z.pow_lt_mono_r_iff in H; lia.
Qed.

(** The right shift of [shr]: by [max z 0] bits. *)
Lemma shr_spec (m e z : Z) :
  0 <= m ->
  exists mrs n,
    shr (shr_record_of_loc m loc_Exact) e z = (mrs, e + Z.of_nat n)
    /\ Z.of_nat n = Z.max z 0
    /\ shr_inv m n mrs.
Proof.
  intros Hm. destruct z as [|p|p].
  - exists (shr_record_of_loc m loc_Exact), O. cbn [shr Z.of_nat].
    rewrite Z.add_0_r. split; [reflexivity|]. split; [lia|].
    apply shr_inv_start, Hm.
  - exists (SpecFloat.iter_pos shr_1 p (shr_record_of_loc m loc_Exact)),
      (Pos.to_nat p).
    rewrite positive_nat_Z. split; [reflexivity|]. split; [lia|].
    rewrite iter_pos_nat. apply shr_inv_iter, shr_inv_start, Hm.
  - exists (shr_record_of_loc m loc_Exact), O. cbn [shr Z.of_nat].
    rewrite Z.add_0_r. split; [reflexivity|]. split; [lia|].
    apply shr_inv_start, Hm.
Qed.

(** The second shift of [binary_round_aux], which absorbs the carry of the
    rounding: it shifts once when the mantissa reached [2^53]. *)
Lemma shr_fexp_carry (q e : Z) (mrs : shr_record) (e' : Z) :
  0 <= q <= 2 ^ 53 -> emin <= e ->
  shr_fexp prec emax q e loc_Exact = (mrs, e') ->
  (q = 0 /\ shr_m mrs = 0)
  \/ (0 < q < 2 ^ 53 /\ shr_m mrs = q /\ e' = e)
  \/ (q = 2 ^ 53 /\ shr_m mrs = 2 ^ 52 /\ e' = e + 1).
Proof.
  intros Hq He. unfold shr_fexp.
  destruct (Z.eq_dec q (2 ^ 53)) as [->|Hne].
  - change (Zdigits2 (2 ^ 53)) with 54.
    replace (fexp prec emax (54 + e) - e) with 1
      by (unfold fexp, FloatOps.emin, SpecFloat.emin, prec, emax in *; lia).
    intros [= <- <-]. right; right. repeat split.
  - destruct q as [|p|p]; [| | lia].
    + simpl Zdigits2.
      assert (Hz : fexp prec emax (0 + e) - e <= 0)
        by (unfold fexp, FloatOps.emin, SpecFloat.emin, prec, emax in *; lia).
      destruct (fexp prec emax (0 + e) - e); try lia;
        intros [= <- <-]; left; split; reflexivity.
    + assert (Hd : Z.pos (digits2_pos p) <= 53)
        by (apply digits2_pos_le; lia).
      simpl Zdigits2.
      assert (Hz : fexp prec emax (Z.pos (digits2_pos p) + e) - e <= 0)
        by (unfold fexp, FloatOps.emin, SpecFloat.emin, prec, emax in *; lia).
      destruct (fexp prec emax (Z.pos (digits2_pos p) + e) - e);
        try lia; intros [= <- <-]; right; left;
        (split; [lia|]); split; reflexivity.
Qed.

Lemma small_multiple (t P u : Z) :
  0 < P -> t * P = u -> 0 <= u < P -> t = 0.
Proof.
  intros HP Ht Hu.
  destruct (Z.lt_trichotomy t 0) as [Hneg|[H0|Hpos]]; [|exact H0|].
  - assert (t * P <= -1 * P) by (apply Z.mul_le_mono_nonneg_r; lia). lia.
  - assert (1 * P <= t * P) by (apply Z.mul_le_mono_nonneg_r; lia). lia.
Qed.

Lemma shr_inv_exact (m q0 : Z) (n : nat) (mrs : shr_record) :
  shr_inv m n mrs -> m = q0 * 2 ^ Z.of_nat n ->
  shr_m mrs = q0 /\ 2 * shr_m mrs * 2 ^ Z.of_nat n = 2 * m.
Proof.
  intros (H0 & u & Hu & Hrange & _) Hm.
  set (P := 2 ^ Z.of_nat n) in *.
  assert (HP : 0 < P) by (apply Z.pow_pos_nonneg; lia).
  assert (Ht : 2 * q0 - 2 * shr_m mrs - Z.b2z (shr_r mrs) = 0).
  { apply (small_multiple _ P u); [exact HP | | exact Hrange].
    rewrite Hm in Hu. lia. }
  destruct (shr_r mrs); simpl in Ht; [lia|].
  assert (shr_m mrs = q0) by lia. subst q0. split; [reflexivity|]. lia.
Qed.

Lemma shr_inv_bound (m : Z) (n : nat) (mrs : shr_record) (k : Z) :
  shr_inv m n mrs -> m < 2 ^ Z.of_nat n * k -> shr_m mrs < k.
Proof.
  intros (H0 & u & Hu & Hrange & _) Hm.
  set (P := 2 ^ Z.of_nat n) in *.
  assert (HP : 0 < P) by (apply Z.pow_pos_nonneg; lia).
  assert (0 <= Z.b2z (shr_r mrs)) by (destruct (shr_r mrs); simpl; lia).
  destruct (Z.lt_ge_cases (shr_m mrs) k) as [Hlt|Hge]; [exact Hlt|].
  assert (k * P <= shr_m mrs * P) by (apply Z.mul_le_mono_nonneg_r; lia).
  lia.
Qed.

(** Rounding [M × 2^E] to binary64: the mantissa is shifted right by [n]
    bits, the number that makes it fit 53 bits above the least exponent, and
    rounded to nearest. *)
Lemma binary_round_aux_spec (M : positive) (E : Z) :
  exists (n : nat) (q : Z),
    Z.of_nat n
    = Z.max (fexp prec emax (Z.pos (digits2_pos M) + E) - E) 0
    /\ 0 <= q <= 2 ^ 53
    /\ - 2 ^ Z.of_nat n
       <= 2 * (q * 2 ^ Z.of_nat n) - 2 * Z.pos M <= 2 ^ Z.of_nat n
    /\ (forall q0, Z.pos M = q0 * 2 ^ Z.of_nat n -> q = q0)
    /\ binary_round_aux prec emax false (Z.pos M) E loc_Exact
       = pack q (E + Z.of_nat n).
Proof.
  destruct (shr_spec (Z.pos M) E
              (fexp prec emax (Z.pos (digits2_pos M) + E) - E)
              (Pos2Z.is_nonneg M))
    as (mrs & n & Heq & Hn & Hinv).
  destruct (round_nearest_even_inv _ _ _ Hinv) as (Hq & Herr & Hexact).
  set (q := round_nearest_even (shr_m mrs) (loc_of_shr_record mrs)) in *.
  exists n, q.
  set (P := 2 ^ Z.of_nat n) in *.
  assert (HP : 0 < P) by (apply Z.pow_pos_nonneg; lia).
  assert (Hfit : 2 ^ Z.pos (digits2_pos M) <= P * 2 ^ 53).
  { unfold P. rewrite <- Z.pow_add_r by lia.
    apply Z.pow_le_mono_r; [lia|].
    unfold fexp, SpecFloat.emin, prec, emax in Hn. lia. }
  assert (Hm : 0 <= shr_m mrs < 2 ^ 53).
  { split; [apply Hinv|]. apply (shr_inv_bound _ _ _ _ Hinv).
    pose proof (digits2_pos_bounds M) as [_ Hhi]. fold P. lia. }
  split; [exact Hn|]. split; [lia|]. split; [exact Herr|]. split.
  { intros q0 Hq0. destruct (shr_inv_exact _ _ _ _ Hinv Hq0) as [Hm0 Hex].
    rewrite (Hexact Hex). exact Hm0. }
  unfold binary_round_aux.
  unfold shr_fexp at 1. cbn [Zdigits2]. rewrite Heq. fold q.
  destruct (shr_fexp prec emax q (E + Z.of_nat n) loc_Exact)
    as [mrs2 e2] eqn:H2.
  apply shr_fexp_carry in H2;
    [| lia
     | unfold fexp, FloatOps.emin, SpecFloat.emin, prec, emax in *; lia].
  destruct H2 as [(Hq0 & ->) | [(Hq1 & -> & ->) | (Hq2 & -> & ->)]].
  - rewrite Hq0. reflexivity.
  - unfold pack. destruct q as [|p|p]; try lia.
    destruct (Z.eqb_spec (Z.pos p) (2 ^ 53)); [lia|]. reflexivity.
  - rewrite Hq2. reflexivity.
Qed.

(** ** Integers as Numbers *)

Lemma iter_xO_value (m d : positive) :
  Z.pos (Pos.iter xO m d) = Z.pos m * 2 ^ Z.pos d.
Proof.
  change (Pos.iter xO m d) with (shift_pos d m).
  rewrite shift_pos_correct, Zpower_pos_nat, Zpower_nat_Z, positive_nat_Z.
  lia.
Qed.

Lemma shl_align_value (m : positive) (e e' : Z) :
  e' <= e ->
  Z.pos (fst (shl_align m e e')) = Z.pos m * 2 ^ (e - e')
  /\ snd (shl_align m e e') = e'.
Proof.
  intros He. unfold shl_align.
  destruct (e' - e) as [|d|d] eqn:Hd; try lia; cbn [fst snd].
  - replace (e - e') with 0 by lia. lia.
  - rewrite iter_xO_value. replace (e - e') with (Z.pos d) by lia. lia.
Qed.

Lemma digits2_pos_unique (m : positive) (k : Z) :
  2 ^ (k - 1) <= Z.pos m < 2 ^ k -> 1 <= k -> Z.pos (digits2_pos m) = k.
Proof.
  intros [Hlo Hhi] Hk.
  pose proof (digits2_pos_le m k ltac:(lia) Hhi).
  pose proof (digits2_pos_gt m (k - 1) ltac:(lia) Hlo). lia.
Qed.

Lemma log2_bounds (N : Z) :
  0 < N -> 2 ^ Z.log2 N <= N < 2 ^ (Z.log2 N + 1) /\ 0 <= Z.log2 N.
Proof.
  intros HN. split; [apply Z.log2_spec, HN | apply Z.log2_nonneg].
Qed.

(** The mantissa of [canon N]. *)
Lemma canon_mantissa (N : Z) :
  0 < N < 2 ^ 53 ->
  let d := Z.log2 N + 1 in
  1 <= d <= 53 /\ 2 ^ 52 <= N * 2 ^ (53 - d) < 2 ^ 53.
Proof.
  intros HN d. destruct (log2_bounds N) as [[Hlo Hhi] H0]; [lia|].
  assert (Hd : d <= 53).
  { assert (H : 2 ^ Z.log2 N < 2 ^ 53) by lia.
    apply Z.pow_lt_mono_r_iff in H; lia. }
  split; [lia|].
  replace (2 ^ 52) with (2 ^ (d - 1) * 2 ^ (53 - d))
    by (rewrite <- Z.pow_add_r by lia; f_equal; lia).
  replace (2 ^ 53) with (2 ^ d * 2 ^ (53 - d))
    by (rewrite <- Z.pow_add_r by lia; f_equal; lia).
  assert (0 < 2 ^ (53 - d)) by (apply Z.pow_pos_nonneg; lia).
  replace (d - 1) with (Z.log2 N) by lia. fold d in Hhi.
  split; [apply Z.mul_le_mono_nonneg_r | apply Z.mul_lt_mono_pos_r]; lia.
Qed.

Lemma pack_canon (N : Z) :
  0 < N < 2 ^ 53 ->
  pack (N * 2 ^ (53 - (Z.log2 N + 1))) (Z.log2 N + 1 - 53) = canon N.
Proof.
  intros HN. destruct (canon_mantissa N HN) as [Hd Hm].
  unfold pack, canon.
  destruct (N * 2 ^ (53 - (Z.log2 N + 1))) as [|p|p] eqn:Hp; try lia.
  destruct (Z.eqb_spec (Z.pos p) (2 ^ 53)); [lia|].
  destruct (Z.leb_spec (Z.log2 N + 1 - 53) (emax - prec));
    [reflexivity | unfold emax, prec in *; lia].
Qed.

(** Rounding a number that is an integer below [2^53] gives that integer,
    whatever mantissa and exponent it is presented with. *)
Lemma binary_round_exact (S : positive) (ez N : Z) :
  0 < N < 2 ^ 53 -> ez <= 0 -> Z.pos S = N * 2 ^ (- ez) ->
  binary_round prec emax false S ez = canon N.
Proof.
  intros HN Hez HS.
  destruct (canon_mantissa N HN) as [Hd Hm].
  destruct (log2_bounds N) as [[Hlo Hhi] H0]; [lia|].
  set (d := Z.log2 N + 1) in *.
  assert (Hpow : 0 < 2 ^ (- ez)) by (apply Z.pow_pos_nonneg; lia).
  assert (HdS : Z.pos (digits2_pos S) = d - ez).
  { apply digits2_pos_unique; [|lia]. rewrite HS.
    replace (d - ez - 1) with (Z.log2 N + - ez) by lia.
    replace (d - ez) with (d + - ez) by lia.
    rewrite !Z.pow_add_r by lia.
    split; [apply Z.mul_le_mono_nonneg_r | apply Z.mul_lt_mono_pos_r]; lia. }
  unfold binary_round. rewrite HdS.
  replace (fexp prec emax (d - ez + ez)) with (d - 53)
    by (unfold fexp, SpecFloat.emin, prec, emax; lia).
  rewrite <- pack_canon by exact HN. fold d.
  destruct (Z.le_gt_cases ez (d - 53)) as [Hle|Hgt].
  - (* the mantissa is shifted right, by bits that are all zero *)
    replace (shl_align S ez (d - 53)) with (S, ez)
      by (unfold shl_align; destruct (d - 53 - ez) eqn:?; try lia; reflexivity).
    destruct (binary_round_aux_spec S ez)
      as (n & q & Hn & Hq & _ & Hexact & ->).
    rewrite HdS in Hn.
    replace (fexp prec emax (d - ez + ez)) with (d - 53) in Hn
      by (unfold fexp, SpecFloat.emin, prec, emax; lia).
    rewrite (Hexact (N * 2 ^ (53 - d))).
    + f_equal. lia.
    + rewrite HS, <- Z.mul_assoc, <- Z.pow_add_r by lia. do 2 f_equal. lia.
  - (* the mantissa is shifted left to 53 bits *)
    destruct (shl_align_value S ez (d - 53)) as [Hval Hexp]; [lia|].
    destruct (shl_align S ez (d - 53)) as [mz e3]. cbn [fst snd] in *.
    subst e3.
    assert (Hmz : Z.pos mz = N * 2 ^ (53 - d)).
    { rewrite Hval, HS, <- Z.mul_assoc, <- Z.pow_add_r by lia.
      do 2 f_equal. lia. }
    destruct (binary_round_aux_spec mz (d - 53))
      as (n & q & Hn & Hq & _ & Hexact & ->).
    assert (Hdz : Z.pos (digits2_pos mz) = 53)
      by (apply digits2_pos_unique; rewrite ?Hmz; lia).
    rewrite Hdz in Hn.
    replace (fexp prec emax (53 + (d - 53))) with (d - 53) in Hn
      by (unfold fexp, SpecFloat.emin, prec, emax; lia).
    assert (n = O) by lia. subst n.
    rewrite (Hexact (Z.pos mz)) by (simpl; lia).
    rewrite Hmz. f_equal. simpl. lia.
Qed.

Lemma canon_valid (N : Z) :
  0 < N < 2 ^ 53 -> valid_binary (canon N) = true.
Proof.
  intros HN. destruct (canon_mantissa N HN) as [Hd Hm].
  unfold canon. cbn [SpecFloat.valid_binary]. unfold bounded, canonical_mantissa.
  set (d := Z.log2 N + 1) in *.
  assert (Hdz : Z.pos (digits2_pos (Z.to_pos (N * 2 ^ (53 - d)))) = 53).
  { apply digits2_pos_unique; [|lia]. rewrite Z2Pos.id by lia. lia. }
  rewrite Hdz. apply andb_true_intro. split.
  - apply Z.eqb_eq. unfold fexp, SpecFloat.emin, prec, emax. lia.
  - apply Z.leb_le. unfold prec, emax. lia.
Qed.

Lemma Prim2SF_of_Z (N : Z) :
  0 < N < 2 ^ 53 -> Prim2SF (JS.of_Z N) = canon N.
Proof.
  intros HN. unfold JS.of_Z.
  destruct N as [|p|p]; try lia. cbn [binary_normalize].
  rewrite (binary_round_exact p 0 (Z.pos p)) by (simpl; lia).
  apply Prim2SF_SF2Prim, canon_valid, HN.
Qed.

Lemma SFadd_canon (N1 N2 : Z) :
  0 < N1 -> 0 < N2 -> N1 + N2 < 2 ^ 53 ->
  SF64add (canon N1) (canon N2) = canon (N1 + N2).
Proof.
  intros H1 H2 H12.
  destruct (canon_mantissa N1) as [Hd1 Hm1]; [lia|].
  destruct (canon_mantissa N2) as [Hd2 Hm2]; [lia|].
  unfold canon at 1 2. unfold SF64add, SFadd.
  set (e1 := Z.log2 N1 + 1 - 53). set (e2 := Z.log2 N2 + 1 - 53).
  set (m1 := Z.to_pos _). set (m2 := Z.to_pos _).
  assert (Hv1 : Z.pos m1 = N1 * 2 ^ (- e1))
    by (unfold m1, e1; rewrite Z2Pos.id by lia; do 2 f_equal; lia).
  assert (Hv2 : Z.pos m2 = N2 * 2 ^ (- e2))
    by (unfold m2, e2; rewrite Z2Pos.id by lia; do 2 f_equal; lia).
  set (ez := Z.min e1 e2).
  destruct (shl_align_value m1 e1 ez) as [Ha1 _]; [lia|].
  destruct (shl_align_value m2 e2 ez) as [Ha2 _]; [lia|].
  cbn [cond_Zopp Z.add binary_normalize].
  apply binary_round_exact; [lia | unfold e1, e2 in *; lia |].
  rewrite Pos2Z.inj_add, Ha1, Ha2, Hv1, Hv2.
  rewrite <- !Z.mul_assoc, <- !Z.pow_add_r by (unfold e1, e2 in *; lia).
  replace (- e1 + (e1 - ez)) with (- ez) by lia.
  replace (- e2 + (e2 - ez)) with (- ez) by lia. lia.
Qed.

(** Addition of integral Numbers is exact while the sum is below [2^53]. *)
Lemma of_Z_add (N1 N2 : Z) :
  0 <= N1 -> 0 <= N2 -> N1 + N2 < 2 ^ 53 ->
  (JS.of_Z N1 + JS.of_Z N2)%float = JS.of_Z (N1 + N2).
Proof.
  intros H1 H2 H12. apply Prim2SF_inj. rewrite add_spec.
  destruct (Z.eq_dec N1 0) as [->|Hn1]; destruct (Z.eq_dec N2 0) as [->|Hn2].
  - reflexivity.
  - change (Prim2SF (JS.of_Z 0)) with (S754_zero false).
    rewrite Z.add_0_l, (Prim2SF_of_Z N2) by lia. reflexivity.
  - change (Prim2SF (JS.of_Z 0)) with (S754_zero false).
    rewrite Z.add_0_r, (Prim2SF_of_Z N1) by lia. reflexivity.
  - rewrite (Prim2SF_of_Z N1), (Prim2SF_of_Z N2), (Prim2SF_of_Z (N1 + N2))
      by lia.
    apply SFadd_canon; lia.
Qed.

(** ** Numbers as real numbers *)

Lemma IZR_pow2 (k : Z) : 0 <= k -> IZR (2 ^ k) = powerRZ 2 k.
Proof.
  intros Hk. rewrite <- (Z2Nat.id k Hk), <- pow_IZR, pow_powerRZ.
  reflexivity.
Qed.

Lemma pow2_pos (k : Z) : (0 < powerRZ 2 k)%R.
Proof. apply powerRZ_lt. lra. Qed.

Lemma pow2_add (j k : Z) : powerRZ 2 (j + k) = (powerRZ 2 j * powerRZ 2 k)%R.
Proof. apply powerRZ_add. lra. Qed.

Lemma pow2_le (j k : Z) : j <= k -> (powerRZ 2 j <= powerRZ 2 k)%R.
Proof.
  intros Hjk. replace k with (j + (k - j)) by lia.
  rewrite pow2_add, <- (IZR_pow2 (k - j)) by lia.
  assert (H : 1 <= 2 ^ (k - j))
    by (pose proof (Z.pow_pos_nonneg 2 (k - j)); lia).
  apply IZR_le in H. pose proof (pow2_pos j). nra.
Qed.

Lemma pack_value (q e : Z) :
  0 <= q <= 2 ^ 53 -> e + 1 <= emax - prec ->
  SF2R (pack q e) = (IZR q * powerRZ 2 e)%R.
Proof.
  intros Hq He. unfold pack.
  destruct q as [|p|p]; try lia; [simpl; lra|].
  destruct (Z.eqb_spec (Z.pos p) (2 ^ 53)) as [Heq|Hne].
  - destruct (Z.leb_spec (e + 1) (emax - prec)); [|lia].
    rewrite Heq. cbn [SF2R]. rewrite pow2_add.
    change (powerRZ 2 1) with (2 * 1)%R. change (2 ^ 53) with 9007199254740992.
    lra.
  - destruct (Z.leb_spec e (emax - prec)); [|lia]. cbn [SF2R]. lra.
Qed.

(** Rounding moves a number by at most half a unit in the last place. *)
Lemma binary_round_aux_error (M : positive) (E : Z) (top : Z) :
  E <= top -> top + 1 <= emax - prec -> emin <= top ->
  Z.pos M < 2 ^ (top + 53 - E) ->
  exists q e,
    binary_round_aux prec emax false (Z.pos M) E loc_Exact = pack q e
    /\ 0 <= q <= 2 ^ 53 /\ e <= top
    /\ (Rabs (IZR q * powerRZ 2 e - IZR (Z.pos M) * powerRZ 2 E)
        <= powerRZ 2 top / 2)%R.
Proof.
  intros HE Htop Hmin HM.
  destruct (binary_round_aux_spec M E) as (n & q & Hn & Hq & Herr & _ & ->).
  assert (Hd : Z.pos (digits2_pos M) <= top + 53 - E)
    by (apply digits2_pos_le; lia).
  assert (He : E + Z.of_nat n <= top)
    by (unfold fexp, SpecFloat.emin, prec, emax in *; lia).
  exists q, (E + Z.of_nat n). split; [reflexivity|].
  split; [exact Hq|]. split; [exact He|].
  apply Rle_trans with (powerRZ 2 (E + Z.of_nat n) / 2)%R;
    [|pose proof (pow2_le _ _ He); lra].
  rewrite pow2_add, <- (IZR_pow2 (Z.of_nat n)) by lia.
  set (P := 2 ^ Z.of_nat n) in *.
  destruct Herr as [Hlo Hhi]. apply IZR_le in Hlo, Hhi.
  rewrite opp_IZR, minus_IZR, !mult_IZR in Hlo.
  rewrite minus_IZR, !mult_IZR in Hhi.
  pose proof (pow2_pos E) as HpE.
  replace (IZR q * (powerRZ 2 E * IZR P) - IZR (Z.pos M) * powerRZ 2 E)%R
    with (powerRZ 2 E * (IZR q * IZR P - IZR (Z.pos M)))%R by ring.
  rewrite Rabs_mult, (Rabs_pos_eq (powerRZ 2 E)) by lra.
  replace (powerRZ 2 E * IZR P / 2)%R with (powerRZ 2 E * (IZR P / 2))%R
    by field.
  apply Rmult_le_compat_l; [lra|].
  apply Rabs_le. lra.
Qed.

(** ** Math.round on positive Numbers *)

Lemma Math_round_finite (x : float) (p : positive) (e : Z) :
  Prim2SF x = S754_finite false p e -> e < 0 ->
  exists n,
    JS.Math_round x = JS.of_Z n /\ 0 <= n
    /\ (Rabs (IZR n - IZR (Z.pos p) * powerRZ 2 e) <= 1 / 2)%R.
Proof.
  intros Hx He. unfold JS.Math_round. rewrite Hx.
  destruct (Z.leb_spec 0 e); [lia|].
  set (k := 2 ^ (- e)).
  assert (Hk : 0 < k) by (apply Z.pow_pos_nonneg; lia).
  set (n := (2 * Z.pos p + k) / (2 * k)).
  exists n. split; [|split].
  - destruct (Z.eqb_spec n 0) as [Hn0|Hn0]; [rewrite Hn0|]; reflexivity.
  - apply Z.div_pos; lia.
  - pose proof (Z.div_mod (2 * Z.pos p + k) (2 * k) ltac:(lia)) as Hdiv.
    pose proof (Z.mod_pos_bound (2 * Z.pos p + k) (2 * k) ltac:(lia)) as Hr.
    fold n in Hdiv. set (r := (2 * Z.pos p + k) mod (2 * k)) in *.
    apply (f_equal IZR) in Hdiv. destruct Hr as [Hr0 Hr1].
    apply IZR_le in Hr0. apply IZR_lt in Hr1.
    rewrite !plus_IZR, !mult_IZR in Hdiv. rewrite mult_IZR in Hr1.
    unfold k in Hdiv, Hr1. rewrite IZR_pow2 in Hdiv, Hr1 by lia.
    pose proof (pow2_pos e) as HI. pose proof (pow2_pos (- e)) as HK.
    assert (HIK : (powerRZ 2 e * powerRZ 2 (- e) = 1)%R)
      by (rewrite <- pow2_add, Z.add_opp_diag_r; reflexivity).
    set (I := powerRZ 2 e) in *. set (K := powerRZ 2 (- e)) in *.
    assert (Heq : (IZR n - IZR (Z.pos p) * I = I * (K - IZR r) / 2)%R).
    { replace (IZR n) with (IZR n * (I * K))%R by (rewrite HIK; ring).
      apply Rmult_eq_reg_l with 2%R; [|lra].
      replace (2 * (I * (K - IZR r) / 2))%R with (I * (K - IZR r))%R by field.
      replace (2 * (IZR n * (I * K) - IZR (Z.pos p) * I))%R
        with (I * (2 * K * IZR n - 2 * IZR (Z.pos p)))%R by ring.
      f_equal. lra. }
    rewrite Heq. apply Rabs_le.
    assert (- 1 < I * (K - IZR r) <= 1)%R by (rewrite <- HIK; split; nra).
    lra.
Qed.

Lemma Math_round_pack (x : float) (q e : Z) :
  Prim2SF x = pack q e -> 0 <= q <= 2 ^ 53 -> e <= -2 ->
  exists n,
    JS.Math_round x = JS.of_Z n /\ 0 <= n
    /\ (Rabs (IZR n - IZR q * powerRZ 2 e) <= 1 / 2)%R.
Proof.
  intros Hx Hq He.
  rewrite <- pack_value by (unfold emax, prec; lia).
  unfold pack in *. destruct q as [|p|p]; try lia.
  - exists 0. split; [|split; [lia|]].
    + unfold JS.Math_round. rewrite Hx. apply Prim2SF_inj. rewrite Hx.
      reflexivity.
    + cbn [SF2R]. rewrite Rminus_diag, Rabs_R0. lra.
  - destruct (Z.eqb_spec (Z.pos p) (2 ^ 53)) as [Hcarry|Hcarry].
    + destruct (Z.leb_spec (e + 1) (emax - prec));
        [|unfold emax, prec in *; lia].
      destruct (Math_round_finite x _ _ Hx) as (n & Hn & H0 & Herr); [lia|].
      exists n. cbn [SF2R]. rewrite Rmult_1_l. auto.
    + destruct (Z.leb_spec e (emax - prec)); [|unfold emax, prec in *; lia].
      destruct (Math_round_finite x _ _ Hx) as (n & Hn & H0 & Herr); [lia|].
      exists n. cbn [SF2R]. rewrite Rmult_1_l. auto.
Qed.

(** The rounded product of two positive Numbers, when the product stays
    below [2^51]: an integer within 5/8 of the exact product. *)
Lemma round_mul (a c : float) (m mc : positive) (e ec : Z) :
  Prim2SF a = S754_finite false m e ->
  Prim2SF c = S754_finite false mc ec ->
  e + ec <= -2 ->
  Z.pos (m * mc) < 2 ^ (51 - (e + ec)) ->
  exists n,
    JS.Math_round (a * c) = JS.of_Z n /\ 0 <= n <= 2 ^ 51
    /\ (Rabs (IZR n - F2R a * F2R c) <= 5 / 8)%R.
Proof.
  intros Ha Hc HE HM.
  destruct (binary_round_aux_error (m * mc) (e + ec) (-2))
    as (q & e' & Hr & Hq & He' & Herr);
    [lia | unfold emax, prec; lia
     | unfold FloatOps.emin, SpecFloat.emin, emax, prec; lia
     | replace (-2 + 53 - (e + ec)) with (51 - (e + ec)) by lia; exact HM |].
  assert (Hx : Prim2SF (a * c) = pack q e').
  { rewrite mul_spec, Ha, Hc. exact Hr. }
  destruct (Math_round_pack _ _ _ Hx Hq He') as (n & Hn & H0 & Hhalf).
  change (powerRZ 2 (-2) / 2)%R with (/ (2 * (2 * 1)) / 2)%R in Herr.
  assert (Hprod : (F2R a * F2R c
                   = IZR (Z.pos (m * mc)) * powerRZ 2 (e + ec))%R).
  { unfold F2R. rewrite Ha, Hc. cbn [SF2R].
    rewrite Pos2Z.inj_mul, mult_IZR, pow2_add. ring. }
  rewrite Hprod.
  set (v := (IZR (Z.pos (m * mc)) * powerRZ 2 (e + ec))%R) in *.
  set (w := (IZR q * powerRZ 2 e')%R) in *.
  assert (Hclose : (Rabs (IZR n - v) <= 5 / 8)%R).
  { replace (IZR n - v)%R with ((IZR n - w) + (w - v))%R by ring.
    eapply Rle_trans; [apply Rabs_triang|]. lra. }
  exists n. split; [exact Hn|]. split; [|exact Hclose].
  split; [exact H0|].
  assert (Hv : (v < IZR (2 ^ 51))%R).
  { apply IZR_lt in HM. rewrite IZR_pow2 in HM by lia.
    replace (51 - (e + ec)) with (51 + - (e + ec)) in HM by lia.
    rewrite pow2_add in HM. rewrite IZR_pow2 by lia.
    pose proof (pow2_pos (e + ec)) as HI.
    assert (HIK : (powerRZ 2 (e + ec) * powerRZ 2 (- (e + ec)) = 1)%R)
      by (rewrite <- pow2_add, Z.add_opp_diag_r; reflexivity).
    unfold v.
    apply Rmult_lt_compat_r with (r := powerRZ 2 (e + ec)) in HM; [|exact HI].
    replace (powerRZ 2 51 * powerRZ 2 (- (e + ec)) * powerRZ 2 (e + ec))%R
      with (powerRZ 2 51 * (powerRZ 2 (e + ec) * powerRZ 2 (- (e + ec))))%R
      in HM by ring.
    rewrite HIK, Rmult_1_r in HM. exact HM. }
  pose proof (Rle_abs (IZR n - v)) as Hup.
  assert (Hlt : (IZR n < IZR (2 ^ 51 + 1))%R) by (rewrite plus_IZR; lra).
  apply lt_IZR in Hlt. lia.
Qed.

(** ** The cost estimate *)

Lemma SFmul_comm (x y : spec_float) : SF64mul x y = SF64mul y x.
Proof.
  destruct x as [[]|[]| |[] mx ex], y as [[]|[]| |[] my ey];
    try reflexivity; unfold SF64mul, SFmul; cbn [xorb];
    now rewrite Pos.mul_comm, Z.add_comm.
Qed.

Lemma mul_comm (x y : float) : (x * y)%float = (y * x)%float.
Proof.
  apply Prim2SF_inj. rewrite !mul_spec. apply SFmul_comm.
Qed.

Lemma Rabs_bound (x b : R) : (Rabs x <= b)%R -> (- b <= x <= b)%R.
Proof.
  unfold Rabs. destruct (Rcase_abs x); lra.
Qed.

(** The value of a Number that holds a small integer scaled by a power of
    two, as the rate constants of the cost estimate do. *)
Lemma F2R_scaled (c : float) (C k : Z) :
  0 <= k -> 0 < C ->
  Prim2SF c = S754_finite false (Z.to_pos (C * 2 ^ k)) (- k) ->
  F2R c = IZR C.
Proof.
  intros Hk HC Hc. unfold F2R. rewrite Hc. cbn [SF2R].
  assert (0 < 2 ^ k) by (apply Z.pow_pos_nonneg; lia).
  rewrite Z2Pos.id by lia. rewrite mult_IZR, IZR_pow2 by lia.
  assert (HIK : (powerRZ 2 k * powerRZ 2 (- k) = 1)%R)
    by (rewrite <- pow2_add, Z.add_opp_diag_r; reflexivity).
  rewrite Rmult_1_l, Rmult_assoc, HIK. ring.
Qed.

(** An area between 0 and 2 × 10^11 hectares is a positive finite Number,
    and 8500 times its mantissa stays below [2^51] at its exponent. *)
Lemma area_shape (a : float) :
  (0 <? a)%float = true -> (a <? 200000000000)%float = true ->
  exists m e,
    Prim2SF a = S754_finite false m e /\ e <= -15
    /\ Z.pos m * 8500 < 2 ^ (51 - e).
Proof.
  rewrite !ltb_spec. intros Hpos Hlt. pose proof (Prim2SF_valid a) as Hv.
  change (Prim2SF 0) with (S754_zero false) in Hpos.
  change (Prim2SF 200000000000)
    with (S754_finite false 6553600000000000 (-15)) in Hlt.
  destruct (Prim2SF a) as [s|s| |s m e]; try discriminate.
  - destruct s; discriminate.
  - destruct s; [discriminate|]. exists m, e. split; [reflexivity|].
    cbn [SpecFloat.valid_binary] in Hv. unfold bounded, canonical_mantissa in Hv.
    apply andb_prop in Hv as [Hc _]. apply Z.eqb_eq in Hc.
    assert (Hd : Z.pos (digits2_pos m) <= 53)
      by (unfold fexp, SpecFloat.emin, prec, emax in Hc; lia).
    assert (Hm : Z.pos m < 2 ^ 53).
    { pose proof (digits2_pos_bounds m) as [_ Hhi].
      eapply Z.lt_le_trans; [exact Hhi|]. apply Z.pow_le_mono_r; lia. }
    unfold SFltb, SFcompare in Hlt.
    destruct (Z.compare_spec e (-15)) as [He|He|He]; try discriminate.
    + subst e.
      destruct (Pos.compare_cont Eq m 6553600000000000) eqn:Hp;
        try discriminate.
      apply (Pos2Z.pos_lt_pos m 6553600000000000) in Hp. clear Hlt.
      split; [lia|]. change (2 ^ (51 - -15)) with 73786976294838206464. lia.
    + clear Hlt. split; [lia|].
      apply Z.lt_le_trans with (2 ^ 67);
        [change (2 ^ 53) with 9007199254740992 in Hm;
         change (2 ^ 67) with 147573952589676412928; lia
        | apply Z.pow_le_mono_r; lia].
Qed.

(** A rate [C] of at most 8500 per hectare: the rounded cost is an integer
    within 5/8 of [C] times the area. *)
Lemma round_rate (a c : float) (m : positive) (e C k : Z) :
  Prim2SF a = S754_finite false m e -> e <= -15 ->
  Z.pos m * 8500 < 2 ^ (51 - e) ->
  2 <= k -> 0 < C <= 8500 ->
  Prim2SF c = S754_finite false (Z.to_pos (C * 2 ^ k)) (- k) ->
  exists n,
    JS.Math_round (a * c) = JS.of_Z n /\ 0 <= n <= 2 ^ 51
    /\ (Rabs (IZR n - F2R a * IZR C) <= 5 / 8)%R.
Proof.
  intros Ha He Hm Hk HC Hc.
  rewrite <- (F2R_scaled c C k) by (try exact Hc; lia).
  apply (round_mul a c m _ e _ Ha Hc); [lia|].
  assert (Hp : 0 < 2 ^ k) by (apply Z.pow_pos_nonneg; lia).
  rewrite Pos2Z.inj_mul, Z2Pos.id by lia.
  replace (51 - (e + - k)) with (51 - e + k) by lia.
  rewrite Z.pow_add_r by lia.
  apply Z.le_lt_trans with (Z.pos m * 8500 * 2 ^ k).
  - rewrite Z.mul_assoc. apply Z.mul_le_mono_nonneg_r; [lia|].
    apply Z.mul_le_mono_nonneg_l; lia.
  - apply Z.mul_lt_mono_pos_r; lia.
Qed.

Lemma of_Z_value (N : Z) : 0 <= N < 2 ^ 53 -> F2R (JS.of_Z N) = IZR N.
Proof.
  intros HN. destruct (Z.eq_dec N 0) as [->|Hne]; [reflexivity|].
  destruct (canon_mantissa N) as [Hd _]; [lia|].
  apply (F2R_scaled _ N (53 - (Z.log2 N + 1))); [lia | lia |].
  rewrite Prim2SF_of_Z by lia. unfold canon. f_equal. lia.
Qed.

(** C4, as the code has it: each component of the cost estimate is the
    rounded product of the area and its rate (4000, 2500, 2000), and the
    total is the sum of the three rounded components, in binary64
    arithmetic; for 2 hectares they are 8000, 5000, 4000 and 17000.  For
    every area between 0 and 2 × 10^11 hectares the components and the total
    are exact integers and the total is within 2 of round(8500 × a). *)
Theorem cost_estimate_rounding (a : float) :
  primaryCost a = JS.Math_round (a * 4000)
  /\ secondaryCost a = JS.Math_round (a * 2500)
  /\ organicCost a = JS.Math_round (a * 2000)
  /\ totalCost a = (primaryCost a + secondaryCost a + organicCost a)%float
  /\ costEstimate a
     = {| CostEstimate.primary := rupees (primaryCost a);
          CostEstimate.secondary := rupees (secondaryCost a);
          CostEstimate.organic := rupees (organicCost a);
          CostEstimate.total := rupees (totalCost a) |}
  /\ [primaryCost 2; secondaryCost 2; organicCost 2; totalCost 2]
     = [8000; 5000; 4000; 17000]%float
  /\ ((0 <? a)%float = true -> (a <? 200000000000)%float = true ->
      exists P S O T : Z,
        primaryCost a = JS.of_Z P
        /\ secondaryCost a = JS.of_Z S
        /\ organicCost a = JS.of_Z O
        /\ totalCost a = JS.of_Z (P + S + O)
        /\ JS.Math_round (8500 * a) = JS.of_Z T
        /\ 0 <= P /\ 0 <= S /\ 0 <= O /\ P + S + O < 2 ^ 53
        /\ 0 <= T < 2 ^ 53
        /\ -2 <= P + S + O - T <= 2
        /\ (Rabs (F2R (totalCost a) - F2R (JS.Math_round (8500 * a))) <= 2)%R).
Proof.
  do 6 (split; [reflexivity|]).
  intros Hpos Hlt.
  destruct (area_shape a Hpos Hlt) as (m & e & Ha & He & Hm).
  destruct (round_rate a 4000 m e 4000 41 Ha He Hm) as (P & HP & HPr & HPe);
    [lia | lia | reflexivity |].
  destruct (round_rate a 2500 m e 2500 41 Ha He Hm) as (S & HS & HSr & HSe);
    [lia | lia | reflexivity |].
  destruct (round_rate a 2000 m e 2000 42 Ha He Hm) as (O & HO & HOr & HOe);
    [lia | lia | reflexivity |].
  destruct (round_rate a 8500 m e 8500 39 Ha He Hm) as (T & HT & HTr & HTe);
    [lia | lia | reflexivity |].
  rewrite (mul_comm a 8500) in HT.
  change (2 ^ 51) with 2251799813685248 in *.
  assert (Hsum : totalCost a = JS.of_Z (P + S + O)).
  { unfold totalCost, primaryCost, secondaryCost, organicCost.
    rewrite HP, HS, HO.
    rewrite of_Z_add by (change (2 ^ 53) with 9007199254740992; lia).
    rewrite of_Z_add by (change (2 ^ 53) with 9007199254740992; lia).
    reflexivity. }
  apply Rabs_bound in HPe, HSe, HOe, HTe.
  assert (Hdiff : -2 <= P + S + O - T <= 2).
  { assert (Hlo : (IZR (-3) < IZR (P + S + O - T))%R)
      by (rewrite minus_IZR, !plus_IZR; lra).
    assert (Hhi : (IZR (P + S + O - T) < IZR 3)%R)
      by (rewrite minus_IZR, !plus_IZR; lra).
    apply lt_IZR in Hlo, Hhi. lia. }
  exists P, S, O, T.
  unfold primaryCost, secondaryCost, organicCost.
  change (2 ^ 53) with 9007199254740992.
  repeat match goal with |- _ /\ _ => split end;
    try assumption; try lia.
  rewrite Hsum, HT.
  rewrite !of_Z_value by (change (2 ^ 53) with 9007199254740992; lia).
  rewrite <- minus_IZR. apply Rabs_le.
  destruct Hdiff as [Hlo Hhi]. apply IZR_le in Hlo, Hhi. lra.
Qed.

Lemma cost_estimate_rounding_witness :
  exists P S O T : Z,
    primaryCost smallArea = JS.of_Z P
    /\ secondaryCost smallArea = JS.of_Z S
    /\ organicCost smallArea = JS.of_Z O
    /\ totalCost smallArea = JS.of_Z (P + S + O)
    /\ JS.Math_round (8500 * smallArea) = JS.of_Z T
    /\ 0 <= P /\ 0 <= S /\ 0 <= O /\ P + S + O < 2 ^ 53
    /\ 0 <= T < 2 ^ 53
    /\ -2 <= P + S + O - T <= 2
    /\ (Rabs (F2R (totalCost smallArea)
              - F2R (JS.Math_round (8500 * smallArea))) <= 2)%R.
Proof.
  apply (cost_estimate_rounding smallArea); reflexivity.
Defined.

(** C4, as the specification states it, fails for large areas: at
    300000000000009 hectares every product is above [2^53], each is rounded
    to a multiple of 256 or 512, and the total is 512 above
    round(8500 × a). *)
Lemma cost_total_far_from_rounded_sum :
  (0 <? hugeArea)%float = true
  /\ Prim2SF (totalCost hugeArea) = S754_finite false 4980468750000150 9
  /\ Prim2SF (JS.Math_round (8500 * hugeArea))
     = S754_finite false 4980468750000149 9
  /\ (totalCost hugeArea - JS.Math_round (8500 * hugeArea))%float = 512%float
  /\ (2 <? abs (totalCost hugeArea - JS.Math_round (8500 * hugeArea)))%float
     = true.
Proof.
  repeat split; vm_compute; reflexivity.
Qed.

(** ** The added built-ins and helpers on sample arguments *)

Example Math_min_samples :
  [ Math_min 85 100; Math_min 120 100; Math_min 100 100; Math_min nan 100;
    Math_min 0 (-0); Math_min (-0) 0; Math_min neg_infinity 100 ]%float
  = [85; 100; 100; nan; -0; -0; neg_infinity]%float.
Proof. vm_compute. reflexivity. Qed.

Example emailName_samples :
  map Login.emailName
    [ "ravi.kumar22@example.com"; "mohit_mehta60@example.com";
      "1234@example.com"; "a b@example.com"; "no-at-sign"; "" ]
  = ["Ravikumar"; "Mohitmehta"; "Farmer"; "A B"; "Noatsign"; "Farmer"].
Proof. vm_compute. reflexivity. Qed.

Example uniqueCrops_sample :
  RecommendationHistory.uniqueCrops sampleHistory = ["Maize"; "Cotton"].
Proof. vm_compute. reflexivity. Qed.

Example health_score_samples :
  DatabaseService.getFarmHealthScore
    (Fulfilled (Response.mk (Some goodSoil) None))
  = Fulfilled 100%float
  /\ DatabaseService.getFarmHealthScore
       (Fulfilled (Response.mk (Some goodSoil) (Some "timeout")))
     = Fulfilled 0%float
  /\ DatabaseService.getFarmHealthScore (Rejected "Failed to fetch")
     = Rejected "Failed to fetch".
Proof. vm_compute. repeat split. Qed.

(** ** The dashboard page *)

Lemma keyOr_nameOf (table : list (string * float)) (code : float)
    (fallback : string) :
  keyOr (keyOf table code) fallback = nameOf table code
  \/ (nameOf table code = "Unknown"
      /\ keyOr (keyOf table code) fallback = fallback).
Proof.
  unfold keyOr, keyOf, nameOf.
  destruct (find _ table) as [[key v]|]; cbn.
  - destruct (String.eqb key ""); [right|left]; easy.
  - right. easy.
Qed.

Section DashboardProperties.

Variable predictFertilizer : MLInput.t -> Promise MLPrediction.t.
Variable FERTILIZER_INFO : gmap string FertilizerInfo.t.
Variable CROP_TYPES : list (string * float).
Variable SOIL_TYPES : list (string * float).

Local Abbreviation save :=
  (Dashboard.saveRecommendationToDatabase CROP_TYPES SOIL_TYPES).
Local Abbreviation row := (Dashboard.recommendationRow CROP_TYPES).
Local Abbreviation farmRow := (Dashboard.newFarmRow SOIL_TYPES).
Local Abbreviation submit :=
  (Dashboard.handleFormSubmit predictFertilizer FERTILIZER_INFO CROP_TYPES
     SOIL_TYPES).
Local Abbreviation engine := (assemble FERTILIZER_INFO CROP_TYPES SOIL_TYPES).

Ltac run_save :=
  unfold Dashboard.saveRecommendationToDatabase, try_catch, bind, await, ret;
  cbn [fst snd].

Lemma truthyId_spec (id : string) : truthyId (Some id) = true <-> id <> "".
Proof.
  cbn. destruct (String.eqb_spec id ""); cbn; split; congruence.
Qed.

(** X1: When nobody is signed in, or [getUser] throws, saving stops after
    [getUser]: no farm is looked up or created and no recommendation is
    written, and the caller is not told. *)
Theorem save_signed_out (supabase : Supabase) (data : FormData.t)
    (recommendation : EnhancedRecommendation.t) (log : list Call) :
  (forall user, auth_getUser supabase log <> Fulfilled (Some user)) ->
  save supabase data recommendation log
  = (Fulfilled tt, (log ++ [GetUser])%list).
Proof.
  intros Hno. run_save.
  destruct (auth_getUser supabase log) as [[user|]|reason]; cbn;
    try reflexivity.
  now destruct (Hno user).
Qed.

(** X2: When the signed-in user already has a farm with the field's name,
    saving creates no farm: it writes one recommendation for the first farm
    found. *)
Theorem save_reuses_existing_farm (supabase : Supabase) (data : FormData.t)
    (recommendation : EnhancedRecommendation.t) (log : list Call)
    (user id : string) (others : list string) :
  auth_getUser supabase log = Fulfilled (Some user) ->
  farms_select supabase (log ++ [GetUser])%list user (FormData.fieldName data)
  = Fulfilled (Some (id :: others)) ->
  id <> "" ->
  save supabase data recommendation log
  = (Fulfilled tt,
     (log ++ [ GetUser; SelectFarm user (FormData.fieldName data);
               InsertRecommendation (row id user data recommendation) ])%list).
Proof.
  intros Hu Hs Hid. run_save. rewrite Hu. cbn. rewrite Hs. cbn.
  apply truthyId_spec in Hid. cbn in Hid. rewrite Hid. cbn.
  now rewrite <- !app_assoc.
Qed.

(** X3: When the user has no farm with the field's name, saving creates one,
    with the parsed field size in the unit of the form and the soil's name
    when its code is known, and then writes the recommendation for the new
    farm. *)
Theorem save_creates_missing_farm (supabase : Supabase) (data : FormData.t)
    (recommendation : EnhancedRecommendation.t) (log : list Call)
    (user id : string) (found : option (list string)) :
  let farm :=
    {| FarmInsert.user_id := user;
       FarmInsert.name := FormData.fieldName data;
       FarmInsert.size := JS.parseFloat (FormData.fieldSize data);
       FarmInsert.size_unit := FormData.sizeUnit data;
       FarmInsert.soil_type :=
         keyOf SOIL_TYPES (JS.parseInt (FormData.soilType data)) |} in
  auth_getUser supabase log = Fulfilled (Some user) ->
  farms_select supabase (log ++ [GetUser])%list user (FormData.fieldName data)
  = Fulfilled found ->
  found = None \/ found = Some [] ->
  farms_insert supabase
    (log ++ [GetUser; SelectFarm user (FormData.fieldName data)])%list farm
  = Fulfilled (Some id) ->
  id <> "" ->
  save supabase data recommendation log
  = (Fulfilled tt,
     (log ++ [ GetUser; SelectFarm user (FormData.fieldName data);
               InsertFarm farm;
               InsertRecommendation (row id user data recommendation) ])%list).
Proof.
  intros farm Hu Hs Hf Hi Hid. run_save. rewrite Hu. cbn. rewrite Hs. cbn.
  apply truthyId_spec in Hid. cbn in Hid.
  change (Dashboard.newFarmRow SOIL_TYPES user data) with farm.
  replace ((log ++ [GetUser]) ++ [SelectFarm user (FormData.fieldName data)])%list
    with (log ++ [GetUser; SelectFarm user (FormData.fieldName data)])%list
    by now rewrite <- app_assoc.
  destruct Hf as [-> | ->]; rewrite Hi; cbn; rewrite Hid; cbn;
    now rewrite <- !app_assoc.
Qed.

(** X4: Whatever the store answers, saving never fails towards its caller,
    keeps the calls already made, and adds one of five runs:  [getUser] alone;
    then the farm lookup; then either one recommendation, or one new farm, or
    one new farm and one recommendation.  So it writes at most one farm and at
    most one recommendation, the recommendation last, and never a
    recommendation without a farm id. *)
Theorem save_calls (supabase : Supabase) (data : FormData.t)
    (recommendation : EnhancedRecommendation.t) (log : list Call) :
  exists calls,
    save supabase data recommendation log = (Fulfilled tt, (log ++ calls)%list)
    /\ (calls = [GetUser]
        \/ exists user tail,
             calls = GetUser :: SelectFarm user (FormData.fieldName data)
                       :: tail
             /\ (tail = []
                 \/ tail = [InsertFarm (farmRow user data)]
                 \/ exists id,
                      id <> ""
                      /\ (tail = [InsertRecommendation
                                    (row id user data recommendation)]
                          \/ tail = [InsertFarm (farmRow user data);
                                     InsertRecommendation
                                       (row id user data recommendation)]))).
Proof.
  run_save.
  destruct (auth_getUser supabase log) as [[user|]|reason]; cbn;
    [|exists [GetUser]; split; [reflexivity|now left]..].
  assert (Hrec : forall id (pre : list Call),
    id <> "" \/ truthyId (Some id) = false).
  { intros id _. destruct (String.eqb_spec id "") as [->|Hne];
      [right; reflexivity|now left]. }
  destruct (farms_select supabase _ user _) as [[[|id others]|]|reason]; cbn.
  - destruct (farms_insert supabase _ _) as [[id|]|reason]; cbn.
    + destruct (Hrec id []) as [Hne|He].
      * apply truthyId_spec in Hne. cbn in Hne. rewrite Hne. cbn.
        eexists. split; [now rewrite <- !app_assoc|].
        right. exists user. eexists. split; [reflexivity|].
        right. right. exists id. split; [now apply truthyId_spec|].
        now right.
      * cbn in He. rewrite He. cbn.
        eexists. split; [now rewrite <- !app_assoc|].
        right. exists user. eexists. split; [reflexivity|]. right. now left.
    + eexists. split; [now rewrite <- !app_assoc|].
      right. exists user. eexists. split; [reflexivity|]. right. now left.
    + eexists. split; [now rewrite <- !app_assoc|].
      right. exists user. eexists. split; [reflexivity|]. right. now left.
  - destruct (Hrec id []) as [Hne|He].
    + apply truthyId_spec in Hne. cbn in Hne. rewrite Hne. cbn.
      eexists. split; [now rewrite <- !app_assoc|].
      right. exists user. eexists. split; [reflexivity|].
      right. right. exists id. split; [now apply truthyId_spec|]. now left.
    + cbn in He. rewrite He. cbn.
      eexists. split; [now rewrite <- !app_assoc|].
      right. exists user. eexists. split; [reflexivity|]. now left.
  - destruct (farms_insert supabase _ _) as [[id|]|reason]; cbn.
    + destruct (Hrec id []) as [Hne|He].
      * apply truthyId_spec in Hne. cbn in Hne. rewrite Hne. cbn.
        eexists. split; [now rewrite <- !app_assoc|].
        right. exists user. eexists. split; [reflexivity|].
        right. right. exists id. split; [now apply truthyId_spec|].
        now right.
      * cbn in He. rewrite He. cbn.
        eexists. split; [now rewrite <- !app_assoc|].
        right. exists user. eexists. split; [reflexivity|]. right. now left.
    + eexists. split; [now rewrite <- !app_assoc|].
      right. exists user. eexists. split; [reflexivity|]. right. now left.
    + eexists. split; [now rewrite <- !app_assoc|].
      right. exists user. eexists. split; [reflexivity|]. right. now left.
  - eexists. split; [now rewrite <- !app_assoc|].
    right. exists user. eexists. split; [reflexivity|]. now left.
Qed.

(** X5: The row stored for a recommendation of the engine: it is pending,
    carries the classifier's label as primary fertilizer and its confidence as
    score, the prediction itself, and the cost estimate and organic options of
    the engine for the form's area; the secondary fertilizer is one of the
    three the engine knows.  The crop is the name the engine uses for the crop
    code, except for an unknown code, where the engine says Unknown and the
    row keeps the text of the form. *)
Theorem saved_row (data : FormData.t) (p : MLPrediction.t)
    (farmId user : string) :
  let r := row farmId user data (engine data p) in
  let crop := nameOf CROP_TYPES (JS.parseInt (FormData.cropType data)) in
  RecommendationInsert.status r = "pending"
  /\ RecommendationInsert.farm_id r = farmId
  /\ RecommendationInsert.user_id r = user
  /\ RecommendationInsert.primary_fertilizer r = MLPrediction.fertilizer p
  /\ RecommendationInsert.confidence_score r = MLPrediction.confidence p
  /\ RecommendationInsert.ml_prediction r = p
  /\ RecommendationInsert.cost_estimate r = costEstimate (hectaresOf data)
  /\ RecommendationInsert.organic_options r
     = organicOptions (hectaresOf data)
  /\ In (RecommendationInsert.secondary_fertilizer r)
       ["DAP"; "Potassium sulfate"; "Organic Compost"]
  /\ (RecommendationInsert.crop_type r = crop
      \/ (crop = "Unknown"
          /\ RecommendationInsert.crop_type r = FormData.cropType data)).
Proof.
  cbn zeta. repeat (split; [reflexivity|]). split.
  - cbn. unfold secondaryFertilizer.
    destruct (includes _ "Phosphorus"); [now left|].
    destruct (includes _ "Potassium"); cbn; auto.
  - apply keyOr_nameOf.
Qed.

(** X6: The page after a submission does not depend on the store: whatever
    the store answers, and even when saving fails, the spinner is off, the
    form is the submitted one, and the recommendation held is the same. *)
Theorem submit_ignores_storage (supabase1 supabase2 : Supabase)
    (data : FormData.t) (st : Dashboard.t) (log1 log2 : list Call) :
  let after := fst (submit supabase1 data st log1) in
  after = fst (submit supabase2 data st log2)
  /\ Dashboard.showsSpinner after = false
  /\ Dashboard.formData after = Some data.
Proof.
  unfold Dashboard.handleFormSubmit.
  destruct (generateEnhancedRecommendations _ _ _ _ data); cbn; auto.
Qed.

(** X7: When the classifier answers, the page shows the engine's
    recommendation for the submitted form, and the store sees exactly the
    calls of saving that recommendation. *)
Theorem submit_fulfilled (supabase : Supabase) (data : FormData.t)
    (p : MLPrediction.t) (st : Dashboard.t) (log : list Call) :
  predictFertilizer (mlInputOf data) = Fulfilled p ->
  Dashboard.shownRecommendations (fst (submit supabase data st log))
  = Some (engine data p, data)
  /\ snd (submit supabase data st log)
     = snd (save supabase data (engine data p) log).
Proof.
  intros Hp. unfold Dashboard.handleFormSubmit.
  rewrite (generate_fulfilled _ _ _ _ _ _ Hp). cbn. auto.
Qed.

(** X8: When the classifier fails, the store is not called and the error is
    not shown: a recommendation computed for an earlier form stays on the
    page, now displayed with the form just submitted. *)
Theorem submit_rejected_keeps_earlier (supabase : Supabase)
    (data : FormData.t) (reason : string) (st : Dashboard.t)
    (log : list Call) (before : EnhancedRecommendation.t) :
  predictFertilizer (mlInputOf data) = Rejected reason ->
  Dashboard.recommendations st = Some before ->
  Dashboard.shownRecommendations (fst (submit supabase data st log))
  = Some (before, data)
  /\ snd (submit supabase data st log) = log.
Proof.
  intros Hp Hb. unfold Dashboard.handleFormSubmit.
  apply (proj2 (generate_rejected _ FERTILIZER_INFO CROP_TYPES SOIL_TYPES
                  _ _)) in Hp.
  rewrite Hp. cbn.
  unfold Dashboard.shownRecommendations. cbn. now rewrite Hb.
Qed.

End DashboardProperties.

Lemma save_signed_out_witness :
  Dashboard.saveRecommendationToDatabase sampleCrops sampleSoils signedOut
    scenario earlier []
  = (Fulfilled tt, [GetUser]).
Proof.
  apply (save_signed_out sampleCrops sampleSoils signedOut scenario earlier []).
  intros user. cbn. discriminate.
Defined.

Lemma save_reuses_existing_farm_witness :
  Dashboard.saveRecommendationToDatabase sampleCrops sampleSoils
    (signedIn ["farm-1"; "farm-2"] None) scenario earlier []
  = (Fulfilled tt,
     [ GetUser; SelectFarm "user-1" "North field";
       InsertRecommendation
         (Dashboard.recommendationRow sampleCrops "farm-1" "user-1" scenario
            earlier) ]).
Proof.
  apply (save_reuses_existing_farm sampleCrops sampleSoils
           (signedIn ["farm-1"; "farm-2"] None) scenario earlier []
           "user-1" "farm-1" ["farm-2"]).
  - reflexivity.
  - reflexivity.
  - discriminate.
Defined.

Lemma save_creates_missing_farm_witness :
  Dashboard.saveRecommendationToDatabase sampleCrops sampleSoils
    (signedIn [] (Some "farm-3")) scenario earlier []
  = (Fulfilled tt,
     [ GetUser; SelectFarm "user-1" "North field";
       InsertFarm
         {| FarmInsert.user_id := "user-1";
            FarmInsert.name := "North field";
            FarmInsert.size := JS.parseFloat "2";
            FarmInsert.size_unit := "hectares";
            FarmInsert.soil_type := keyOf sampleSoils (JS.parseInt "2") |};
       InsertRecommendation
         (Dashboard.recommendationRow sampleCrops "farm-3" "user-1" scenario
            earlier) ]).
Proof.
  apply (save_creates_missing_farm sampleCrops sampleSoils
           (signedIn [] (Some "farm-3")) scenario earlier []
           "user-1" "farm-3" (Some [])).
  - reflexivity.
  - reflexivity.
  - now right.
  - reflexivity.
  - discriminate.
Defined.

Lemma submit_fulfilled_witness :
  Dashboard.shownRecommendations
    (fst (Dashboard.handleFormSubmit (predicts "Urea" 87) sampleInfo
            sampleCrops sampleSoils offline scenario
            {| Dashboard.formData := None;
               Dashboard.recommendations := None;
               Dashboard.isGenerating := false |} []))
  = Some (assemble sampleInfo sampleCrops sampleSoils scenario
            {| MLPrediction.fertilizer := "Urea";
               MLPrediction.confidence := 87 |}, scenario)
  /\ snd (Dashboard.handleFormSubmit (predicts "Urea" 87) sampleInfo
            sampleCrops sampleSoils offline scenario
            {| Dashboard.formData := None;
               Dashboard.recommendations := None;
               Dashboard.isGenerating := false |} [])
     = snd (Dashboard.saveRecommendationToDatabase sampleCrops sampleSoils
              offline scenario
              (assemble sampleInfo sampleCrops sampleSoils scenario
                 {| MLPrediction.fertilizer := "Urea";
                    MLPrediction.confidence := 87 |}) []).
Proof.
  apply (submit_fulfilled (predicts "Urea" 87) sampleInfo sampleCrops
           sampleSoils offline scenario).
  reflexivity.
Defined.

Lemma submit_rejected_keeps_earlier_witness :
  Dashboard.shownRecommendations
    (fst (Dashboard.handleFormSubmit failing sampleInfo sampleCrops
            sampleSoils (signedIn ["farm-1"] None) scenario
            {| Dashboard.formData := Some negativeSize;
               Dashboard.recommendations := Some earlier;
               Dashboard.isGenerating := false |} []))
  = Some (earlier, scenario)
  /\ snd (Dashboard.handleFormSubmit failing sampleInfo sampleCrops
            sampleSoils (signedIn ["farm-1"] None) scenario
            {| Dashboard.formData := Some negativeSize;
               Dashboard.recommendations := Some earlier;
               Dashboard.isGenerating := false |} [])
     = [].
Proof.
  apply (submit_rejected_keeps_earlier failing sampleInfo sampleCrops
           sampleSoils (signedIn ["farm-1"] None) scenario
           "model unavailable").
  - reflexivity.
  - reflexivity.
Defined.

(** ** The recommendation history *)

Lemma filter_keeps_all {A : Type} (f : A -> bool) (l : list A) :
  (forall x, In x l -> f x = true) -> List.filter f l = l.
Proof.
  induction l as [|x l IH]; cbn; intros H; [reflexivity|].
  rewrite (H x) by now left. f_equal. apply IH. intros y Hy. apply H.
  now right.
Qed.

Lemma filter_twice {A : Type} (f g : A -> bool) (l : list A) :
  List.filter g (List.filter f l) = List.filter (fun x => f x && g x) l.
Proof.
  induction l as [|x l IH]; cbn; [reflexivity|].
  destruct (f x); cbn; [|assumption]. destruct (g x); now rewrite IH.
Qed.

(** A filtered list is the largest part of the list that passes the test. *)
Lemma filter_largest {A : Type} (f : A -> bool) (l k : list A) :
  sublist l k -> Forall (fun x => f x = true) l ->
  sublist l (List.filter f k).
Proof.
  intros Hsub. induction Hsub as [|x l k Hsub IH|x l k Hsub IH]; intros Hl.
  - constructor.
  - inversion Hl as [|? ? Hx Hl']; subst. cbn. rewrite Hx.
    constructor. now apply IH.
  - cbn. destruct (f x); [constructor|]; now apply IH.
Qed.

Lemma filter_sublist {A : Type} (f : A -> bool) (l : list A) :
  sublist (List.filter f l) l.
Proof.
  induction l as [|x l IH]; cbn; [constructor|].
  destruct (f x); now constructor.
Qed.

Lemma Forall2_diag {A : Type} (P : A -> A -> Prop) (l : list A) :
  (forall x, P x x) -> Forall2 P l l.
Proof.
  intros H. induction l; constructor; auto.
Qed.

Lemma Forall2_weaken {A B : Type} (P Q : A -> B -> Prop) (l : list A)
    (k : list B) :
  (forall x y, P x y -> Q x y) -> Forall2 P l k -> Forall2 Q l k.
Proof.
  intros H HP. induction HP; constructor; auto.
Qed.

Lemma Array_from_Set_fold (values set : list string) :
  NoDup set ->
  NoDup (fold_left RecommendationHistory.Set_add values set)
  /\ forall v,
       In v (fold_left RecommendationHistory.Set_add values set)
       <-> In v set \/ In v values.
Proof.
  revert set. induction values as [|x values IH]; intros set Hset; cbn.
  - split; [assumption|]. intros v. tauto.
  - unfold RecommendationHistory.Set_add at 2 4.
    destruct (includes set x) eqn:Hx.
    + destruct (IH set Hset) as [Hnd Hin]. split; [assumption|].
      intros v. rewrite Hin. apply includes_In in Hx.
      split; [tauto|]. intros [H|[<-|H]]; auto.
    + apply includes_not_In in Hx.
      assert (Hset' : NoDup (set ++ [x])).
      { apply List.NoDup_app.
        - assumption.
        - repeat constructor. intros [].
        - intros y Hy [<-|[]]. contradiction. }
      destruct (IH _ Hset') as [Hnd Hin]. split; [assumption|].
      intros v. rewrite Hin, in_app_iff. cbn. tauto.
Qed.

Section HistoryProperties.

Import RecommendationHistoryItem RecommendationHistory.

Variable toLowerCase : string -> string.
Variable now : nat -> string.
Variable update_recommendation_status : StatusUpdate -> Promise bool.

Local Abbreviation applyFilters :=
  (RecommendationHistory.applyFilters toLowerCase).
Local Abbreviation update :=
  (RecommendationHistory.updateRecommendationStatus now
     update_recommendation_status).

Lemma applyFilters_In (recommendations : list t)
    (statusFilter cropFilter : string) (rec : t) :
  In rec (applyFilters recommendations statusFilter cropFilter)
  <-> In rec recommendations
      /\ (statusFilter = "all" \/ status rec = statusFilter)
      /\ (cropFilter = "all"
          \/ toLowerCase (crop_type rec) = toLowerCase cropFilter).
Proof using toLowerCase.
  unfold RecommendationHistory.applyFilters. cbn zeta.
  destruct (String.eqb_spec statusFilter "all") as [Hs|Hs];
    destruct (String.eqb_spec cropFilter "all") as [Hc|Hc]; cbn [negb];
    rewrite ?filter_In, ?String.eqb_eq; tauto.
Qed.

Lemma uniqueCrops_In (recommendations : list t) (crop : string) :
  In crop (uniqueCrops recommendations)
  <-> exists rec, In rec recommendations /\ crop_type rec = crop.
Proof using Type.
  unfold uniqueCrops, Array_from_Set.
  destruct (Array_from_Set_fold (map crop_type recommendations) [])
    as [_ Hin]; [constructor|].
  rewrite Hin, in_map_iff. cbn. split.
  - intros [[]|(rec & Hc & Hr)]. now exists rec.
  - intros (rec & Hr & Hc). right. now exists rec.
Qed.

(** X9: The list shown is the list of recommendations filtered once by both
    tests, so each recommendation that passes is shown where and as often
    as it occurs: the status filter, unless it is all, passes the
    recommendations of exactly that status, and the crop filter, unless it
    is all, those whose crop equals it up to letter case. *)
Theorem applyFilters_selects (recommendations : list t)
    (statusFilter cropFilter : string) :
  applyFilters recommendations statusFilter cropFilter
  = List.filter
      (fun rec =>
         (String.eqb statusFilter "all"
          || String.eqb (status rec) statusFilter)
         && (String.eqb cropFilter "all"
             || String.eqb (toLowerCase (crop_type rec))
                  (toLowerCase cropFilter)))
      recommendations
  /\ forall rec,
       In rec (applyFilters recommendations statusFilter cropFilter)
       <-> In rec recommendations
           /\ (statusFilter = "all" \/ status rec = statusFilter)
           /\ (cropFilter = "all"
               \/ toLowerCase (crop_type rec) = toLowerCase cropFilter).
Proof using toLowerCase.
  split; [|intros rec; apply applyFilters_In].
  unfold RecommendationHistory.applyFilters. cbn zeta.
  destruct (String.eqb statusFilter "all"),
    (String.eqb cropFilter "all"); cbn [negb orb andb].
  - symmetry. apply filter_keeps_all. reflexivity.
  - apply filter_ext. intros rec. reflexivity.
  - apply filter_ext. intros rec. now rewrite andb_true_r.
  - apply filter_twice.
Qed.

(** X10: The crops offered by the crop filter are the crops of the
    recommendations, each once. *)
Theorem uniqueCrops_options (recommendations : list t) :
  NoDup (uniqueCrops recommendations)
  /\ forall crop,
       In crop (uniqueCrops recommendations)
       <-> exists rec, In rec recommendations /\ crop_type rec = crop.
Proof using Type.
  unfold uniqueCrops, Array_from_Set.
  destruct (Array_from_Set_fold (map crop_type recommendations) [])
    as [Hnd Hin]; [constructor|].
  split; [assumption|]. intros crop. rewrite Hin, in_map_iff. cbn.
  split.
  - intros [[]|(rec & Hc & Hr)]. now exists rec.
  - intros (rec & Hr & Hc). right. now exists rec.
Qed.

(** X11: Every crop offered by the crop filter, other than a crop that is
    itself called all, shows at least one recommendation: all those of that
    crop. *)
Theorem crop_option_shows_rows (recommendations : list t) (crop : string) :
  In crop (uniqueCrops recommendations) ->
  crop <> "all" ->
  applyFilters recommendations "all" crop <> []
  /\ forall rec,
       In rec recommendations -> crop_type rec = crop ->
       In rec (applyFilters recommendations "all" crop).
Proof using toLowerCase.
  intros Hin Hall.
  assert (Hshown : forall rec,
    In rec recommendations -> crop_type rec = crop ->
    In rec (applyFilters recommendations "all" crop)).
  { intros rec Hr Hc.
    apply applyFilters_In.
    split; [assumption|]. split; [now left|]. right. now rewrite Hc. }
  split; [|assumption].
  apply uniqueCrops_In in Hin.
  destruct Hin as (rec & Hr & Hc). intros Hnil.
  specialize (Hshown rec Hr Hc). rewrite Hnil in Hshown. destruct Hshown.
Qed.

Lemma markStatus_Forall2 (reads : nat) (recommendationId newStatus : string)
    (prev : list t) :
  Forall2
    (fun rec rec' =>
       id rec' = id rec
       /\ farm_name rec' = farm_name rec
       /\ crop_type rec' = crop_type rec
       /\ primary_fertilizer rec' = primary_fertilizer rec
       /\ secondary_fertilizer rec' = secondary_fertilizer rec
       /\ confidence_score rec' = confidence_score rec
       /\ created_at rec' = created_at rec
       /\ (id rec <> recommendationId -> rec' = rec)
       /\ (id rec = recommendationId -> status rec' = newStatus)
       /\ (newStatus <> "applied" -> applied_date rec' = applied_date rec)
       /\ (id rec = recommendationId -> newStatus = "applied" ->
           exists n, applied_date rec' = Some (now n)))
    prev (markStatus now reads recommendationId newStatus prev).
Proof using now.
  revert reads. induction prev as [|rec rest IH]; intros reads; cbn;
    [constructor|].
  destruct (String.eqb_spec (id rec) recommendationId) as [He|Hne].
  - constructor; [|apply IH]. cbn.
    repeat match goal with |- _ /\ _ => split end; try easy.
    + intros Hn. apply String.eqb_neq in Hn. now rewrite Hn.
    + intros _ ->. cbn. now exists reads.
  - constructor; [|apply IH].
    repeat match goal with |- _ /\ _ => split end; easy.
Qed.

(** X12: A status update changes at most the status and the applied date of
    the recommendations with the given id: the list keeps its length and
    order, every other recommendation and every other field stay as they were,
    and the applied date changes only when the new status is applied. *)
Theorem update_status_only_touches_target
    (recommendationId newStatus : string) (recommendations : list t) :
  Forall2
    (fun rec rec' =>
       id rec' = id rec
       /\ farm_name rec' = farm_name rec
       /\ crop_type rec' = crop_type rec
       /\ primary_fertilizer rec' = primary_fertilizer rec
       /\ secondary_fertilizer rec' = secondary_fertilizer rec
       /\ confidence_score rec' = confidence_score rec
       /\ created_at rec' = created_at rec
       /\ (id rec <> recommendationId -> rec' = rec)
       /\ (newStatus <> "applied" -> applied_date rec' = applied_date rec))
    recommendations (update recommendationId newStatus recommendations).
Proof using now update_recommendation_status.
  unfold RecommendationHistory.updateRecommendationStatus.
  destruct (update_recommendation_status _) as [[|]|reason].
  - apply Forall2_diag. intros rec.
    repeat match goal with |- _ /\ _ => split end; intros; reflexivity.
  - eapply Forall2_weaken; [|apply markStatus_Forall2].
    cbn. intros rec rec' (H1 & H2 & H3 & H4 & H5 & H6 & H7 & H8 & _ & H9 & _).
    repeat match goal with |- _ /\ _ => split end; assumption.
  - apply Forall2_diag. intros rec.
    repeat match goal with |- _ /\ _ => split end; intros; reflexivity.
Qed.

(** X13: When the stored procedure answers without error, every
    recommendation with the given id has the new status, and an applied date
    read from the clock when the new status is applied. *)
Theorem update_status_success (recommendationId newStatus : string)
    (recommendations : list t) (i : nat) (rec : t) :
  update_recommendation_status
    {| recommendation_id := recommendationId;
       new_status := newStatus;
       application_date :=
         if String.eqb newStatus "applied" then Some (now 0) else None |}
  = Fulfilled false ->
  recommendations !! i = Some rec ->
  id rec = recommendationId ->
  exists rec',
    update recommendationId newStatus recommendations !! i = Some rec'
    /\ id rec' = recommendationId
    /\ status rec' = newStatus
    /\ (newStatus = "applied" -> exists n, applied_date rec' = Some (now n)).
Proof using now update_recommendation_status.
  intros Hok Hi Hid.
  unfold RecommendationHistory.updateRecommendationStatus. rewrite Hok.
  destruct (Forall2_lookup_l _ _ _ _ _
              (markStatus_Forall2
                 (if String.eqb newStatus "applied" then 1 else 0)%nat
                 recommendationId newStatus recommendations) Hi)
    as (rec' & Hi' & H).
  exists rec'. split; [assumption|].
  destruct H as (H1 & _ & _ & _ & _ & _ & _ & _ & H2 & _ & H3).
  split; [congruence|]. split; auto.
Qed.

(** X14: When the stored procedure answers with an error, or the call throws,
    the recommendations stay as they were. *)
Theorem update_status_failure (recommendationId newStatus : string)
    (recommendations : list t) :
  update_recommendation_status
    {| recommendation_id := recommendationId;
       new_status := newStatus;
       application_date :=
         if String.eqb newStatus "applied" then Some (now 0) else None |}
  <> Fulfilled false ->
  update recommendationId newStatus recommendations = recommendations.
Proof using now update_recommendation_status.
  intros Hf. unfold RecommendationHistory.updateRecommendationStatus.
  destruct (update_recommendation_status _) as [[|]|reason]; congruence.
Qed.

(** X15: After a successful update to another status, no recommendation with
    the given id is in the list shown under a status filter that differs from
    the new status. *)
Theorem updated_leaves_filtered_list (recommendationId newStatus : string)
    (recommendations : list t) (statusFilter cropFilter : string) :
  update_recommendation_status
    {| recommendation_id := recommendationId;
       new_status := newStatus;
       application_date :=
         if String.eqb newStatus "applied" then Some (now 0) else None |}
  = Fulfilled false ->
  statusFilter <> "all" ->
  statusFilter <> newStatus ->
  Forall (fun rec => id rec <> recommendationId)
    (applyFilters (update recommendationId newStatus recommendations)
       statusFilter cropFilter).
Proof using toLowerCase now update_recommendation_status.
  intros Hok Hall Hne. apply List.Forall_forall. intros rec Hin Hid.
  apply applyFilters_In in Hin.
  destruct Hin as (Hin & [Hs|Hs] & _); [contradiction|].
  unfold RecommendationHistory.updateRecommendationStatus in Hin.
  rewrite Hok in Hin.
  apply list_elem_of_In, list_elem_of_lookup in Hin. destruct Hin as [i Hi].
  destruct (Forall2_lookup_r _ _ _ _ _
              (markStatus_Forall2
                 (if String.eqb newStatus "applied" then 1 else 0)%nat
                 recommendationId newStatus recommendations) Hi)
    as (rec0 & _ & H).
  destruct H as (H1 & _ & _ & _ & _ & _ & _ & _ & H2 & _).
  apply Hne. rewrite <- Hs. apply H2. congruence.
Qed.


End HistoryProperties.

Lemma crop_option_shows_rows_witness :
  RecommendationHistory.applyFilters asciiLower sampleHistory "all" "Maize"
  <> []
  /\ forall rec,
       In rec sampleHistory ->
       RecommendationHistoryItem.crop_type rec = "Maize" ->
       In rec
         (RecommendationHistory.applyFilters asciiLower sampleHistory "all"
            "Maize").
Proof.
  apply (crop_option_shows_rows asciiLower sampleHistory "Maize").
  - vm_compute. now left.
  - discriminate.
Defined.

Lemma update_status_success_witness :
  exists rec',
    RecommendationHistory.updateRecommendationStatus sampleClock succeeds
      "r2" "applied" sampleHistory !! 1%nat = Some rec'
    /\ RecommendationHistoryItem.id rec' = "r2"
    /\ RecommendationHistoryItem.status rec' = "applied"
    /\ ("applied" = "applied" ->
        exists n,
          RecommendationHistoryItem.applied_date rec'
          = Some (sampleClock n)).
Proof.
  apply (update_status_success sampleClock succeeds "r2" "applied"
           sampleHistory 1%nat scheduledItem).
  - reflexivity.
  - reflexivity.
  - reflexivity.
Defined.

Lemma update_status_failure_witness :
  RecommendationHistory.updateRecommendationStatus sampleClock
    (fun _ => Rejected "Failed to fetch") "r1" "scheduled" sampleHistory
  = sampleHistory.
Proof.
  apply (update_status_failure sampleClock
           (fun _ => Rejected "Failed to fetch") "r1" "scheduled"
           sampleHistory).
  discriminate.
Defined.

Lemma updated_leaves_filtered_list_witness :
  Forall (fun rec => RecommendationHistoryItem.id rec <> "r1")
    (RecommendationHistory.applyFilters asciiLower
       (RecommendationHistory.updateRecommendationStatus sampleClock
          succeeds "r1" "applied" sampleHistory) "pending" "all").
Proof.
  apply (updated_leaves_filtered_list asciiLower sampleClock succeeds "r1"
           "applied" sampleHistory "pending" "all").
  - reflexivity.
  - discriminate.
  - discriminate.
Defined.


(** ** The farm health score *)

Lemma leb_truthy (bound v : float) :
  (0 <? bound)%float = true -> (bound <=? v)%float = true ->
  truthyNumber v = true.
Proof.
  unfold truthyNumber, is_nan.
  rewrite ltb_spec, leb_spec, !eqb_spec.
  change (Prim2SF 0) with (S754_zero false).
  unfold SFltb, SFleb, SFeqb, SFcompare.
  destruct (Prim2SF bound) as [sb|sb| |sb mb eb],
    (Prim2SF v) as [sv|sv| |sv mv ev];
    try discriminate; try (destruct sb; discriminate);
    try (destruct sb, sv; discriminate || reflexivity).
  intros _ _. destruct sv; rewrite Z.compare_refl, Pos.compare_cont_refl;
    reflexivity.
Qed.

Lemma Math_min_cap (n : Z) :
  0 <= n <= 100 -> Math_min (JS.of_Z n) 100 = JS.of_Z n.
Proof.
  intros Hn.
  assert (E : exists m : nat, n = Z.of_nat m /\ (m <= 100)%nat)
    by (exists (Z.to_nat n); lia).
  destruct E as (m & -> & Hm).
  do 101 (destruct m as [|m]; [vm_compute; reflexivity|]). lia.
Qed.

Lemma of_Z_inj (n m : Z) :
  0 <= n < 2 ^ 53 -> 0 <= m < 2 ^ 53 -> JS.of_Z n = JS.of_Z m -> n = m.
Proof.
  intros Hn Hm E. apply eq_IZR.
  rewrite <- (of_Z_value n Hn), <- (of_Z_value m Hm). now rewrite E.
Qed.

Lemma rangePoints_stage (x : option float) (lo hi lo' hi' : float) (n : Z) :
  0 <= n <= 80 ->
  exists k,
    (k = 0 \/ k = 5 \/ k = 15 \/ k = 20)
    /\ DatabaseService.rangePoints x lo hi lo' hi' (JS.of_Z n)
       = JS.of_Z (n + k)
    /\ (x = None -> k = 0)
    /\ (k = 20
        <-> exists v,
              x = Some v /\ truthyNumber v = true
              /\ (lo <=? v)%float = true /\ (v <=? hi)%float = true).
Proof.
  intros Hn. unfold DatabaseService.rangePoints.
  assert (H20 : (JS.of_Z n + 20)%float = JS.of_Z (n + 20))
    by (apply (of_Z_add n 20); cbn; lia).
  assert (H15 : (JS.of_Z n + 15)%float = JS.of_Z (n + 15))
    by (apply (of_Z_add n 15); cbn; lia).
  assert (H5 : (JS.of_Z n + 5)%float = JS.of_Z (n + 5))
    by (apply (of_Z_add n 5); cbn; lia).
  destruct x as [v|].
  - destruct (truthyNumber v) eqn:Ht.
    + destruct (lo <=? v)%float eqn:Hlo, (v <=? hi)%float eqn:Hhi; cbn [andb].
      * exists 20. split; [lia|]. split; [assumption|].
        split; [discriminate|]. split; [|reflexivity].
        intros _. now exists v.
      * destruct ((lo' <=? v)%float && (v <=? hi')%float)%bool;
          [exists 15|exists 5]; (split; [lia|]); (split; [assumption|]);
          (split; [discriminate|]); (split; [lia|]);
          intros (w & [= <-] & _ & _ & Hw); congruence.
      * destruct ((lo' <=? v)%float && (v <=? hi')%float)%bool;
          [exists 15|exists 5]; (split; [lia|]); (split; [assumption|]);
          (split; [discriminate|]); (split; [lia|]);
          intros (w & [= <-] & _ & Hw & _); congruence.
      * destruct ((lo' <=? v)%float && (v <=? hi')%float)%bool;
          [exists 15|exists 5]; (split; [lia|]); (split; [assumption|]);
          (split; [discriminate|]); (split; [lia|]);
          intros (w & [= <-] & _ & Hw & _); congruence.
    + exists 0. split; [lia|]. split; [now rewrite Z.add_0_r|].
      split; [reflexivity|]. split; [lia|].
      intros (w & [= <-] & Hw & _); congruence.
  - exists 0. split; [lia|]. split; [now rewrite Z.add_0_r|].
    split; [reflexivity|]. split; [lia|].
    intros (w & Hw & _); discriminate.
Qed.

Lemma nutrientPoints_stage (x : option float) (good fair : float) (n : Z) :
  0 <= n <= 80 ->
  exists k,
    (k = 5 \/ k = 15 \/ k = 20)
    /\ DatabaseService.nutrientPoints x good fair (JS.of_Z n)
       = JS.of_Z (n + k)
    /\ (x = None -> k = 5)
    /\ (k = 20
        <-> exists v,
              x = Some v /\ truthyNumber v = true
              /\ (good <=? v)%float = true).
Proof.
  intros Hn. unfold DatabaseService.nutrientPoints.
  assert (H20 : (JS.of_Z n + 20)%float = JS.of_Z (n + 20))
    by (apply (of_Z_add n 20); cbn; lia).
  assert (H15 : (JS.of_Z n + 15)%float = JS.of_Z (n + 15))
    by (apply (of_Z_add n 15); cbn; lia).
  assert (H5 : (JS.of_Z n + 5)%float = JS.of_Z (n + 5))
    by (apply (of_Z_add n 5); cbn; lia).
  destruct x as [v|].
  - destruct (truthyNumber v) eqn:Ht; cbn [andb].
    + destruct (good <=? v)%float eqn:Hg.
      * exists 20. split; [lia|]. split; [assumption|].
        split; [discriminate|]. split; [|reflexivity].
        intros _. now exists v.
      * destruct (fair <=? v)%float;
          [exists 15|exists 5]; (split; [lia|]); (split; [assumption|]);
          (split; [discriminate|]); (split; [lia|]);
          intros (w & [= <-] & _ & Hw); congruence.
    + exists 5. split; [lia|]. split; [assumption|].
      split; [discriminate|]. split; [lia|].
      intros (w & [= <-] & Hw & _); congruence.
  - exists 5. split; [lia|]. split; [assumption|].
    split; [reflexivity|]. split; [lia|].
    intros (w & Hw & _); discriminate.
Qed.

(** The score of an analysis as a sum of five stages. *)
Lemma health_score_stages (a : SoilAnalysis.t) :
  exists k1 k2 k3 k4 k5,
    (k1 = 0 \/ k1 = 5 \/ k1 = 15 \/ k1 = 20)
    /\ (k2 = 5 \/ k2 = 15 \/ k2 = 20)
    /\ (k3 = 5 \/ k3 = 15 \/ k3 = 20)
    /\ (k4 = 5 \/ k4 = 15 \/ k4 = 20)
    /\ (k5 = 0 \/ k5 = 5 \/ k5 = 15 \/ k5 = 20)
    /\ DatabaseService.getFarmHealthScore
         (Fulfilled (Response.mk (Some a) None))
       = Fulfilled (JS.of_Z (k1 + k2 + k3 + k4 + k5))
    /\ (SoilAnalysis.ph_level a = None -> k1 = 0)
    /\ (SoilAnalysis.nitrogen a = None -> k2 = 5)
    /\ (SoilAnalysis.phosphorus a = None -> k3 = 5)
    /\ (SoilAnalysis.potassium a = None -> k4 = 5)
    /\ (SoilAnalysis.moisture a = None -> k5 = 0)
    /\ (k1 = 20
        <-> exists v,
              SoilAnalysis.ph_level a = Some v /\ truthyNumber v = true
              /\ (6 <=? v)%float = true /\ (v <=? 7.5)%float = true)
    /\ (k2 = 20
        <-> exists v,
              SoilAnalysis.nitrogen a = Some v /\ truthyNumber v = true
              /\ (40 <=? v)%float = true)
    /\ (k3 = 20
        <-> exists v,
              SoilAnalysis.phosphorus a = Some v /\ truthyNumber v = true
              /\ (20 <=? v)%float = true)
    /\ (k4 = 20
        <-> exists v,
              SoilAnalysis.potassium a = Some v /\ truthyNumber v = true
              /\ (150 <=? v)%float = true)
    /\ (k5 = 20
        <-> exists v,
              SoilAnalysis.moisture a = Some v /\ truthyNumber v = true
              /\ (60 <=? v)%float = true /\ (v <=? 80)%float = true).
Proof.
  unfold DatabaseService.getFarmHealthScore. cbn.
  change 0%float with (JS.of_Z 0).
  destruct (rangePoints_stage (SoilAnalysis.ph_level a) 6 7.5 5.5 8 0)
    as (k1 & Hk1 & E1 & N1 & F1); [lia|].
  rewrite E1.
  destruct (nutrientPoints_stage (SoilAnalysis.nitrogen a) 40 20 (0 + k1))
    as (k2 & Hk2 & E2 & N2 & F2); [lia|].
  rewrite E2.
  destruct (nutrientPoints_stage (SoilAnalysis.phosphorus a) 20 10
              (0 + k1 + k2)) as (k3 & Hk3 & E3 & N3 & F3); [lia|].
  rewrite E3.
  destruct (nutrientPoints_stage (SoilAnalysis.potassium a) 150 100
              (0 + k1 + k2 + k3)) as (k4 & Hk4 & E4 & N4 & F4); [lia|].
  rewrite E4.
  destruct (rangePoints_stage (SoilAnalysis.moisture a) 60 80 40 90
              (0 + k1 + k2 + k3 + k4)) as (k5 & Hk5 & E5 & N5 & F5); [lia|].
  rewrite E5.
  rewrite Math_min_cap by lia.
  exists k1, k2, k3, k4, k5.
  repeat match goal with |- _ /\ _ => split end; try assumption.
  reflexivity.
Qed.

(** X17: The health score of a farm is 0 when the farm has no soil analysis
    or the query answers with an error.  For an analysis it is a whole number
    of points between 15 and 100, a multiple of 5: the cap at 100 never
    applies.  A thrown error is passed on. *)
Theorem health_score_range (answer : Promise (Response.t SoilAnalysis.t)) :
  match DatabaseService.getLatestSoilAnalysis answer with
  | Fulfilled (Some _) =>
      exists n,
        DatabaseService.getFarmHealthScore answer = Fulfilled (JS.of_Z n)
        /\ 15 <= n <= 100 /\ n mod 5 = 0
  | Fulfilled None =>
      DatabaseService.getFarmHealthScore answer = Fulfilled 0%float
  | Rejected reason =>
      DatabaseService.getFarmHealthScore answer = Rejected reason
  end.
Proof.
  destruct answer as [[[a|] [e|]]|reason]; cbn; try reflexivity.
  destruct (health_score_stages a)
    as (k1 & k2 & k3 & k4 & k5 & H1 & H2 & H3 & H4 & H5 & E & _).
  exists (k1 + k2 + k3 + k4 + k5). split; [exact E|]. split; [lia|].
  clear E.
  destruct H1 as [->|[->|[->| ->]]], H2 as [->|[->| ->]],
    H3 as [->|[->| ->]], H4 as [->|[->| ->]], H5 as [->|[->|[->| ->]]];
    reflexivity.
Qed.

(** X18: The score is 100 exactly when all five readings are in their best
    band: pH from 6.0 to 7.5, nitrogen at least 40, phosphorus at least 20,
    potassium at least 150 and moisture from 60 to 80. *)
Theorem health_score_full_marks (a : SoilAnalysis.t) :
  DatabaseService.getFarmHealthScore (Fulfilled (Response.mk (Some a) None))
  = Fulfilled 100%float
  <-> (exists v, SoilAnalysis.ph_level a = Some v
                 /\ (6 <=? v)%float = true /\ (v <=? 7.5)%float = true)
      /\ (exists v, SoilAnalysis.nitrogen a = Some v
                    /\ (40 <=? v)%float = true)
      /\ (exists v, SoilAnalysis.phosphorus a = Some v
                    /\ (20 <=? v)%float = true)
      /\ (exists v, SoilAnalysis.potassium a = Some v
                    /\ (150 <=? v)%float = true)
      /\ (exists v, SoilAnalysis.moisture a = Some v
                    /\ (60 <=? v)%float = true /\ (v <=? 80)%float = true).
Proof.
  destruct (health_score_stages a)
    as (k1 & k2 & k3 & k4 & k5 & H1 & H2 & H3 & H4 & H5 & E
        & _ & _ & _ & _ & _ & F1 & F2 & F3 & F4 & F5).
  rewrite E. split.
  - intros [= Hs]. change 100%float with (JS.of_Z 100) in Hs.
    apply of_Z_inj in Hs; [|cbn; lia..].
    assert (K1 : k1 = 20) by lia. assert (K2 : k2 = 20) by lia.
    assert (K3 : k3 = 20) by lia. assert (K4 : k4 = 20) by lia.
    assert (K5 : k5 = 20) by lia.
    apply F1 in K1. apply F2 in K2. apply F3 in K3. apply F4 in K4.
    apply F5 in K5.
    destruct K1 as (v1 & ? & _ & ? & ?), K2 as (v2 & ? & _ & ?),
      K3 as (v3 & ? & _ & ?), K4 as (v4 & ? & _ & ?),
      K5 as (v5 & ? & _ & ? & ?).
    repeat split; eauto.
  - intros ((v1 & P1 & L1 & U1) & (v2 & P2 & L2) & (v3 & P3 & L3)
            & (v4 & P4 & L4) & (v5 & P5 & L5 & U5)).
    assert (K1 : k1 = 20).
    { apply F1. exists v1. repeat split; try assumption.
      now apply (leb_truthy 6). }
    assert (K2 : k2 = 20).
    { apply F2. exists v2. repeat split; try assumption.
      now apply (leb_truthy 40). }
    assert (K3 : k3 = 20).
    { apply F3. exists v3. repeat split; try assumption.
      now apply (leb_truthy 20). }
    assert (K4 : k4 = 20).
    { apply F4. exists v4. repeat split; try assumption.
      now apply (leb_truthy 150). }
    assert (K5 : k5 = 20).
    { apply F5. exists v5. repeat split; try assumption.
      now apply (leb_truthy 60). }
    subst. reflexivity.
Qed.

(** X19: A missing pH or moisture reading earns no points, a missing nutrient
    reading earns 5: an analysis without any of the five readings scores 15,
    where a farm without analysis scores 0. *)
Theorem health_score_without_readings (a : SoilAnalysis.t) :
  SoilAnalysis.ph_level a = None ->
  SoilAnalysis.nitrogen a = None ->
  SoilAnalysis.phosphorus a = None ->
  SoilAnalysis.potassium a = None ->
  SoilAnalysis.moisture a = None ->
  DatabaseService.getFarmHealthScore (Fulfilled (Response.mk (Some a) None))
  = Fulfilled 15%float.
Proof.
  intros P N Ph K M.
  destruct (health_score_stages a)
    as (k1 & k2 & k3 & k4 & k5 & _ & _ & _ & _ & _ & E
        & N1 & N2 & N3 & N4 & N5 & _).
  rewrite E, (N1 P), (N2 N), (N3 Ph), (N4 K), (N5 M). reflexivity.
Qed.

Lemma health_score_without_readings_witness :
  DatabaseService.getFarmHealthScore
    (Fulfilled
       (Response.mk
          (Some
             {| SoilAnalysis.id := "a2";
                SoilAnalysis.farm_id := "farm-1";
                SoilAnalysis.user_id := "user-1";
                SoilAnalysis.ph_level := None;
                SoilAnalysis.nitrogen := None;
                SoilAnalysis.phosphorus := None;
                SoilAnalysis.potassium := None;
                SoilAnalysis.organic_matter := Some 3%float;
                SoilAnalysis.moisture := None;
                SoilAnalysis.temperature := Some 25%float;
                SoilAnalysis.humidity := None;
                SoilAnalysis.analysis_date := "2024-05-02";
                SoilAnalysis.created_at := "2024-05-02T08:00:00.000Z" |})
          None))
  = Fulfilled 15%float.
Proof.
  apply health_score_without_readings; reflexivity.
Defined.

(** ** The farms hook *)

(** X20: Deleting a farm never adds or reorders farms and never drops a farm
    with another id.  When it reports success the farms left are the largest
    part of the list, in its order, without a farm of the given id: every
    other farm stays where and as often as it was.  When it reports failure
    the farms are as before. *)
Theorem deleteFarm_removes_only_target
    (deleteFarms : string -> Promise (Response.t unit)) (farmId : string)
    (st : useFarms.State) :
  let result := useFarms.deleteFarm deleteFarms farmId st in
  sublist (useFarms.farms (fst result)) (useFarms.farms st)
  /\ (forall farm,
        In farm (useFarms.farms st) -> Farm.id farm <> farmId ->
        In farm (useFarms.farms (fst result)))
  /\ (snd result = true ->
      forall farm,
        In farm (useFarms.farms (fst result)) -> Farm.id farm <> farmId)
  /\ (snd result = false -> useFarms.farms (fst result) = useFarms.farms st)
  /\ (forall kept,
        sublist kept (useFarms.farms st) ->
        Forall (fun farm => Farm.id farm <> farmId) kept ->
        sublist kept (useFarms.farms (fst result))).
Proof.
  unfold useFarms.deleteFarm.
  destruct (DatabaseService.deleteFarm (deleteFarms farmId)) as [[|]|reason];
    cbn.
  - split; [apply filter_sublist|]. split; [|split; [|split; [discriminate|]]].
    + intros farm Hin Hne. apply filter_In. split; [assumption|].
      now apply negb_true_iff, String.eqb_neq.
    + intros _ farm Hin. apply filter_In in Hin. destruct Hin as [_ Hne].
      now apply negb_true_iff, String.eqb_neq in Hne.
    + intros kept Hsub Hkept. apply filter_largest; [assumption|].
      apply List.Forall_forall. intros farm Hin.
      apply negb_true_iff, String.eqb_neq.
      exact (proj1 (List.Forall_forall _ _) Hkept farm Hin).
  - split; [reflexivity|]. split; [auto|]. split; [discriminate|auto].
  - split; [reflexivity|]. split; [auto|]. split; [discriminate|auto].
Qed.

(** X21: Creating a farm and then deleting it gives back the state before,
    when the id of the new farm is not the id of a farm already held. *)
Theorem create_then_delete_farm (getUser : Promise (option string))
    (insertFarm : FarmData.t -> Promise (Response.t Farm.t))
    (deleteFarms : string -> Promise (Response.t unit))
    (farmData : FarmData.t) (st : useFarms.State) (user : string)
    (newFarm : Farm.t) (other : option Farm.t) (done : option unit) :
  getUser = Fulfilled (Some user) ->
  insertFarm
    {| FarmData.user_id := user;
       FarmData.name := FarmData.name farmData;
       FarmData.location := FarmData.location farmData;
       FarmData.size := FarmData.size farmData;
       FarmData.size_unit := FarmData.size_unit farmData;
       FarmData.soil_type := FarmData.soil_type farmData |}
  = Fulfilled (Response.mk (Some newFarm) None) ->
  deleteFarms (Farm.id newFarm) = Fulfilled (Response.mk done None) ->
  (forall farm, In farm (useFarms.farms st) -> Farm.id farm <> Farm.id newFarm) ->
  let created := useFarms.createFarm getUser insertFarm farmData st in
  snd created = Some newFarm
  /\ useFarms.farms (fst created) = newFarm :: useFarms.farms st
  /\ useFarms.deleteFarm deleteFarms (Farm.id newFarm) (fst created)
     = (st, true).
Proof.
  intros Hu Hi Hd Hfresh. unfold useFarms.createFarm.
  rewrite Hu, Hi. cbn. split; [reflexivity|]. split; [reflexivity|].
  unfold useFarms.deleteFarm. rewrite Hd. cbn.
  rewrite String.eqb_refl. cbn.
  rewrite filter_keeps_all.
  - now destruct st.
  - intros farm Hin. now apply negb_true_iff, String.eqb_neq, Hfresh.
Qed.

(** X22: An error answered by the database is not reported by the hook:
    creating, updating and deleting leave the state as it was, error message
    included, and fetching shows an empty list of farms with no error.  Only a
    thrown error sets the error message. *)
Theorem database_errors_unreported (user message reason now farmId : string)
    (farmData : FarmData.t) (updates : FarmUpdates.t) (st : useFarms.State) :
  useFarms.createFarm (Fulfilled (Some user))
    (fun _ => Fulfilled (Response.mk None (Some message))) farmData st
  = (st, None)
  /\ useFarms.updateFarm
       (fun _ _ => Fulfilled (Response.mk None (Some message))) now farmId
       updates st
     = (st, false)
  /\ useFarms.deleteFarm
       (fun _ => Fulfilled (Response.mk None (Some message))) farmId st
     = (st, false)
  /\ useFarms.fetchFarms (Fulfilled (Some user))
       (fun _ => Fulfilled (Response.mk None (Some message))) st
     = {| useFarms.farms := []; useFarms.loading := false;
          useFarms.error := None |}
  /\ useFarms.error
       (fst (useFarms.createFarm (Fulfilled (Some user))
               (fun _ => Rejected reason) farmData st))
     = Some "Failed to create farm"
  /\ useFarms.error
       (fst (useFarms.updateFarm (fun _ _ => Rejected reason) now farmId
               updates st))
     = Some "Failed to update farm"
  /\ useFarms.error
       (fst (useFarms.deleteFarm (fun _ => Rejected reason) farmId st))
     = Some "Failed to delete farm"
  /\ useFarms.error
       (fst (useFarms.createFarm (Fulfilled None)
               (fun _ => Rejected reason) farmData st))
     = Some "Failed to create farm".
Proof.
  repeat match goal with |- _ /\ _ => split end; reflexivity.
Qed.


(** X24: Inserting a reading keeps the history within 50 entries and, when
    the reading is stored, puts it first in the history and makes it the
    latest reading; otherwise reading and history stay as they were. *)
Theorem sensor_history_bounded (answer : Promise (Response.t SensorData.t))
    (st : useSensorData.State) :
  (List.length (useSensorData.history st) <= 50)%nat ->
  let result := useSensorData.insertSensorData answer st in
  (List.length (useSensorData.history (fst result)) <= 50)%nat
  /\ match snd result with
     | Some newData =>
         useSensorData.latestData (fst result) = Some newData
         /\ useSensorData.history (fst result)
            = newData :: firstn 49 (useSensorData.history st)
     | None =>
         useSensorData.latestData (fst result) = useSensorData.latestData st
         /\ useSensorData.history (fst result) = useSensorData.history st
     end.
Proof.
  intros Hlen. unfold useSensorData.insertSensorData.
  destruct (DatabaseService.insertSensorData answer) as [[newData|]|reason];
    cbn [fst snd useSensorData.history useSensorData.latestData].
  - split; [|split; reflexivity].
    cbn [List.length]. rewrite length_firstn. lia.
  - split; [assumption|split; reflexivity].
  - split; [assumption|split; reflexivity].
Qed.

Lemma create_then_delete_farm_witness :
  snd (useFarms.createFarm (Fulfilled (Some "user-1"))
         (fun _ => Fulfilled (Response.mk (Some southFarm) None))
         southData oneFarm)
  = Some southFarm
  /\ useFarms.farms
       (fst (useFarms.createFarm (Fulfilled (Some "user-1"))
               (fun _ => Fulfilled (Response.mk (Some southFarm) None))
               southData oneFarm))
     = [southFarm; northFarm]
  /\ useFarms.deleteFarm (fun _ => Fulfilled (Response.mk None None))
       "farm-2"
       (fst (useFarms.createFarm (Fulfilled (Some "user-1"))
               (fun _ => Fulfilled (Response.mk (Some southFarm) None))
               southData oneFarm))
     = (oneFarm, true).
Proof.
  apply (create_then_delete_farm (Fulfilled (Some "user-1"))
           (fun _ => Fulfilled (Response.mk (Some southFarm) None))
           (fun _ => Fulfilled (Response.mk None None))
           southData oneFarm "user-1" southFarm None None).
  - reflexivity.
  - reflexivity.
  - reflexivity.
  - intros farm [<-|[]]. discriminate.
Defined.


Lemma sensor_history_bounded_witness :
  (List.length
     (useSensorData.history
        (fst (useSensorData.insertSensorData
                (Fulfilled (Response.mk (Some reading) None)) fullHistory)))
   <= 50)%nat
  /\ match
       snd (useSensorData.insertSensorData
              (Fulfilled (Response.mk (Some reading) None)) fullHistory)
     with
     | Some newData =>
         useSensorData.latestData
           (fst (useSensorData.insertSensorData
                   (Fulfilled (Response.mk (Some reading) None))
                   fullHistory))
         = Some newData
         /\ useSensorData.history
              (fst (useSensorData.insertSensorData
                      (Fulfilled (Response.mk (Some reading) None))
                      fullHistory))
            = newData :: firstn 49 (useSensorData.history fullHistory)
     | None =>
         useSensorData.latestData
           (fst (useSensorData.insertSensorData
                   (Fulfilled (Response.mk (Some reading) None))
                   fullHistory))
         = useSensorData.latestData fullHistory
         /\ useSensorData.history
              (fst (useSensorData.insertSensorData
                      (Fulfilled (Response.mk (Some reading) None))
                      fullHistory))
            = useSensorData.history fullHistory
     end.
Proof.
  apply (sensor_history_bounded
           (Fulfilled (Response.mk (Some reading) None)) fullHistory).
  vm_compute. apply le_n.
Defined.

(** ** Codes that are not numbers *)

Lemma eqb_nan_r (x code : float) :
  is_nan code = true -> (x =? code)%float = false.
Proof.
  unfold is_nan. rewrite !eqb_spec. unfold SFeqb, SFcompare.
  destruct (Prim2SF code) as [s|s| |s m e].
  - discriminate.
  - destruct s; discriminate.
  - intros _. now destruct (Prim2SF x).
  - destruct s; rewrite Z.compare_refl, Pos.compare_cont_refl; discriminate.
Qed.

Lemma find_nan (table : list (string * float)) (code : float) :
  is_nan code = true ->
  find (fun kv => PrimFloat.eqb (snd kv) code) table = None.
Proof.
  intros Hn. induction table as [|kv table IH]; cbn; [reflexivity|].
  now rewrite (eqb_nan_r _ _ Hn).
Qed.

(** X26: When the crop and the soil of the form are not numeric codes, no
    table can name them: the engine's reason for a fertilizer the lookup in
    the metadata table does not find speaks of Unknown in Unknown soil, the
    stored recommendation keeps the text of the form as its crop, and a farm
    created for it has no soil type. *)
Theorem codes_that_are_not_numbers
    (FERTILIZER_INFO : gmap string FertilizerInfo.t)
    (CROP_TYPES SOIL_TYPES : list (string * float)) (data : FormData.t)
    (p : MLPrediction.t) (farmId user : string) :
  is_nan (JS.parseInt (FormData.cropType data)) = true ->
  is_nan (JS.parseInt (FormData.soilType data)) = true ->
  (JS.get FERTILIZER_INFO (MLPrediction.fertilizer p) = JS.Undefined ->
   Fertilizer.reason
     (EnhancedRecommendation.primaryFertilizer
        (assemble FERTILIZER_INFO CROP_TYPES SOIL_TYPES data p))
   = Some "ML model recommends this fertilizer for Unknown in Unknown soil")
  /\ RecommendationInsert.crop_type
       (Dashboard.recommendationRow CROP_TYPES farmId user data
          (assemble FERTILIZER_INFO CROP_TYPES SOIL_TYPES data p))
     = FormData.cropType data
  /\ FarmInsert.soil_type (Dashboard.newFarmRow SOIL_TYPES user data) = None.
Proof.
  intros Hc Hs. split; [|split].
  - intros Hinfo. cbn. rewrite Hinfo. unfold nameOf.
    now rewrite (find_nan _ _ Hc), (find_nan _ _ Hs).
  - cbn. unfold keyOf. now rewrite (find_nan _ _ Hc).
  - cbn. unfold keyOf. now rewrite (find_nan _ _ Hs).
Qed.

Lemma codes_that_are_not_numbers_witness :
  (JS.get sampleInfo "Gypsum" = JS.Undefined ->
   Fertilizer.reason
     (EnhancedRecommendation.primaryFertilizer
        (assemble sampleInfo sampleCrops sampleSoils namedCodes
           {| MLPrediction.fertilizer := "Gypsum";
              MLPrediction.confidence := 61 |}))
   = Some "ML model recommends this fertilizer for Unknown in Unknown soil")
  /\ RecommendationInsert.crop_type
       (Dashboard.recommendationRow sampleCrops "farm-1" "user-1" namedCodes
          (assemble sampleInfo sampleCrops sampleSoils namedCodes
             {| MLPrediction.fertilizer := "Gypsum";
                MLPrediction.confidence := 61 |}))
     = "Sugarcane"
  /\ FarmInsert.soil_type
       (Dashboard.newFarmRow sampleSoils "user-1" namedCodes) = None.
Proof.
  apply (codes_that_are_not_numbers sampleInfo sampleCrops sampleSoils
           namedCodes
           {| MLPrediction.fertilizer := "Gypsum";
              MLPrediction.confidence := 61 |} "farm-1" "user-1").
  - vm_compute. reflexivity.
  - vm_compute. reflexivity.
Defined.

(** ** The name the user is greeted with *)

Lemma strip_prefix_app (w s r : string) :
  JS.strip_prefix w s = Some r -> s = (w ++ r)%string.
Proof.
  revert s. induction w as [|a w IH]; intros s; cbn.
  - now intros [= ->].
  - destruct s as [|b s]; [discriminate|].
    destruct (Ascii.eqb_spec a b) as [->|]; [|discriminate].
    intros H. now rewrite (IH _ H).
Qed.

Lemma first_some_In {A B : Type} (f : A -> option B) (l : list A) (b : B) :
  JS.first_some f l = Some b -> exists a, In a l /\ f a = Some b.
Proof.
  induction l as [|a l IH]; cbn; [discriminate|].
  destruct (f a) eqn:E.
  - intros [= <-]. exists a. auto.
  - intros H. destruct (IH H) as (a' & Hin & Hf). exists a'. auto.
Qed.

Lemma white_space_shape (w : string) :
  In w JS.white_space ->
  exists c w',
    w = String c w'
    /\ In (JS.code c) [9; 10; 11; 12; 13; 32; 194; 225; 226; 227; 239]
    /\ Forall (fun b => 128 <= JS.code b) (list_ascii_of_string w').
Proof.
  intros Hin. vm_compute in Hin.
  repeat (destruct Hin as [<-|Hin];
          [eexists; eexists; split; [reflexivity|];
           split; [vm_compute; tauto|];
           repeat constructor; vm_compute; discriminate|]).
  destruct Hin.
Qed.

Lemma toUpperCase_cases (c : ascii) :
  (Login.isWord c = false -> Login.isLetter c = false)
  /\ (Login.toUpperCase c = c
      \/ Login.isLetter (Login.toUpperCase c) = true)
  /\ ((97 <=? JS.code
                (if Login.isWord c then Login.toUpperCase c else c))%Z
      && (JS.code (if Login.isWord c then Login.toUpperCase c else c)
          <=? 122)%Z)%bool = false.
Proof.
  destruct c as [[] [] [] [] [] [] [] []]; vm_compute; auto.
Qed.

Lemma lettersAndSpaces_ok (s pre rest : string) :
  s = (pre ++ rest)%string ->
  Forall (fun b => 128 <= JS.code b) (list_ascii_of_string pre) ->
  Forall
    (fun c =>
       JS.code c < 128 ->
       Login.isLetter c = true \/ In (JS.code c) [9; 10; 11; 12; 13; 32])
    (list_ascii_of_string (Login.lettersAndSpaces (String.length pre) s)).
Proof.
  revert pre rest. induction s as [|a s IH]; intros pre rest Hs Hpre.
  - constructor.
  - destruct pre as [|b pre].
    + cbn [String.length Login.lettersAndSpaces].
      destruct (JS.first_some _ JS.white_space) as [n|] eqn:E.
      * apply first_some_In in E. destruct E as (w & Hw & Hf).
        destruct (JS.strip_prefix w (String a s)) as [r|] eqn:Es;
          [|discriminate].
        injection Hf as <-. apply strip_prefix_app in Es.
        destruct (white_space_shape w Hw) as (c & w' & -> & Hc & Hw').
        cbn in Es. injection Es as -> ->.
        cbn [String.length Nat.pred list_ascii_of_string].
        constructor.
        -- intros Hlt. right. cbn [In] in *. lia.
        -- now apply (IH w' r).
      * destruct (Login.isLetter a) eqn:L.
        -- cbn [list_ascii_of_string]. constructor; [now left|].
           apply (IH EmptyString s); [reflexivity|constructor].
        -- apply (IH EmptyString s); [reflexivity|constructor].
    + cbn in Hs. injection Hs as -> ->.
      cbn [String.length Login.lettersAndSpaces list_ascii_of_string].
      cbn in Hpre. inversion Hpre as [|? ? Hb Hpre']; subst.
      constructor; [lia|]. now apply (IH pre rest).
Qed.

Lemma capitalize_ok (s : string) (afterWord : bool) :
  Forall
    (fun c =>
       JS.code c < 128 ->
       Login.isLetter c = true \/ In (JS.code c) [9; 10; 11; 12; 13; 32])
    (list_ascii_of_string s) ->
  Forall
    (fun c =>
       JS.code c < 128 ->
       Login.isLetter c = true \/ In (JS.code c) [9; 10; 11; 12; 13; 32])
    (list_ascii_of_string (Login.capitalize afterWord s)).
Proof.
  revert afterWord. induction s as [|a s IH]; intros afterWord H; cbn.
  - constructor.
  - cbn in H. inversion H as [|? ? Ha Hs]; subst. constructor; [|now apply IH].
    destruct (Login.isWord a && negb afterWord)%bool; [|assumption].
    destruct (toUpperCase_cases a) as (_ & [->| ->] & _); auto.
Qed.


(** X27: The name made from an e-mail address is never empty.  Of the ASCII
    characters it holds only letters and white space, so no digit, dot,
    underscore or at sign of the address; and it does not begin with a
    lower-case letter. *)
Theorem emailName_shape (email : string) :
  Login.emailName email <> ""
  /\ Forall
       (fun c =>
          JS.code c < 128 ->
          Login.isLetter c = true \/ In (JS.code c) [9; 10; 11; 12; 13; 32])
       (list_ascii_of_string (Login.emailName email))
  /\ forall c rest,
       Login.emailName email = String c rest ->
       ((97 <=? JS.code c)%Z && (JS.code c <=? 122)%Z)%bool = false.
Proof.
  unfold Login.emailName.
  pose proof (capitalize_ok _ false
                (lettersAndSpaces_ok (Login.beforeAt email) EmptyString
                   (Login.beforeAt email) eq_refl (Forall_nil _))) as Hok.
  cbn [String.length] in Hok.
  destruct (String.eqb_spec
              (Login.capitalize false
                 (Login.lettersAndSpaces 0 (Login.beforeAt email))) "")
    as [He|Hne].
  - split; [discriminate|]. split.
    + repeat constructor; intros _; left; reflexivity.
    + intros c rest [= <- <-]. reflexivity.
  - split; [assumption|]. split; [assumption|].
    intros c rest Hc.
    destruct (Login.lettersAndSpaces 0 (Login.beforeAt email)) as [|c0 r0];
      [discriminate|].
    cbn in Hc. injection Hc as <- _.
    rewrite andb_true_r.
    exact (proj2 (proj2 (toUpperCase_cases c0))).
Qed.

